(** * pynasparser: a shallow embedding of [py_nas_parser.py]

    The development follows the source file top to bottom: Python string
    primitives, exceptions and the output stream, the lxml element tree
    with the ElementPath / XPath queries the parser issues, then every
    method of [AX_Extract], and last the theorems about them.

    Conventions.
    - A Python [str] is a [string] whose characters are code points below
      256; every constant of the source is ASCII.
    - Python [None] is [None]; a value that may be [None] is an [option].
    - A raised exception is [Raise e]; [print] appends a line to the
      output stream carried by the monad [M]. *)

From Stdlib Require Import String Ascii List Bool Arith Lia DecimalString.
Import ListNotations.
Open Scope list_scope.
Open Scope string_scope.

(** ** Python string primitives *)

Module PyStr.

(** [s.startswith(p)] *)
Definition startswith (s p : string) : bool := prefix p s.

(** [s[n:]] *)
Fixpoint drop (n : nat) (s : string) : string :=
  match n, s with
  | O, _ => s
  | S k, EmptyString => EmptyString
  | S k, String _ s' => drop k s'
  end.

(** [s.endswith(p)] *)
Definition endswith (s p : string) : bool :=
  (String.length p <=? String.length s)%nat
  && String.eqb (drop (String.length s - String.length p) s) p.

(** [s.replace(old, new)] for a non-empty [old]: the occurrences of [old]
    are found left to right and do not overlap.  [skip] counts the
    characters of a matched occurrence that are still to be passed over. *)
Fixpoint replace_from (old new : string) (skip : nat) (s : string) : string :=
  match s with
  | EmptyString => EmptyString
  | String c s' =>
      match skip with
      | S k => replace_from old new k s'
      | O =>
          if prefix old s
          then new ++ replace_from old new (String.length old - 1) s'
          else String c (replace_from old new 0 s')
      end
  end.

Definition replace (s old new : string) : string := replace_from old new 0 s.

(** [old in s] *)
Fixpoint contains (s old : string) : bool :=
  prefix old s ||
  match s with
  | EmptyString => false
  | String _ s' => contains s' old
  end.

(** [c.isspace()] on code points below 256. *)
Definition isspace (c : ascii) : bool :=
  let n := nat_of_ascii c in
  (((9 <=? n) && (n <=? 13)) || ((28 <=? n) && (n <=? 32))
   || (n =? 133) || (n =? 160))%nat.

Definition is_empty (s : string) : bool :=
  match s with EmptyString => true | _ => false end.

(** [s.lstrip()], [s.rstrip()], [s.strip()] *)
Fixpoint lstrip (s : string) : string :=
  match s with
  | EmptyString => EmptyString
  | String c s' => if isspace c then lstrip s' else s
  end.

Fixpoint rstrip (s : string) : string :=
  match s with
  | EmptyString => EmptyString
  | String c s' =>
      let r := rstrip s' in
      if is_empty r && isspace c then EmptyString else String c r
  end.

Definition strip (s : string) : string := rstrip (lstrip s).

(** [s.split()]: maximal runs of non-whitespace characters.  [cur] is the
    token being read. *)
Fixpoint split_from (cur : string) (s : string) : list string :=
  match s with
  | EmptyString => if is_empty cur then [] else [cur]
  | String c s' =>
      if isspace c
      then (if is_empty cur then split_from EmptyString s'
            else cur :: split_from EmptyString s')
      else split_from (cur ++ String c EmptyString) s'
  end.

Definition split (s : string) : list string := split_from EmptyString s.

(** [not s] for a possibly-[None] string: [None] and [""] are falsy. *)
Definition truthy (o : option string) : bool :=
  match o with
  | Some s => negb (is_empty s)
  | None => false
  end.

End PyStr.

(** ** Module constants *)

Definition ID_NAMESPACE : string := "urn:adv:oid:".
Definition CRS_NAMESPACE : string := "urn:adv:crs:".

(** ** [AX_Extract.remove_gml_id_prefix], [AX_Extract.remove_crs_prefix] *)

Definition remove_gml_id_prefix (s : string) : string :=
  if PyStr.startswith s ID_NAMESPACE
  then PyStr.replace s ID_NAMESPACE ""
  else s.

Definition remove_crs_prefix (s : string) : string :=
  if PyStr.startswith s CRS_NAMESPACE
  then PyStr.replace s CRS_NAMESPACE ""
  else s.

(** ** [AX_Extract.get_namespaces]

    A [dict] with string keys is the list of its items in insertion
    order, one item per key. *)

Module PyDict.

Definition dict : Type := list (string * string).

(** [d[k] = v]: a key that is there keeps its place. *)
Fixpoint set (d : dict) (k v : string) : dict :=
  match d with
  | [] => [(k, v)]
  | (k', v') :: rest =>
      if String.eqb k' k then (k', v) :: rest else (k', v') :: set rest k v
  end.

(** [d.get(k)] *)
Fixpoint get (d : dict) (k : string) : option string :=
  match d with
  | [] => None
  | (k', v) :: rest => if String.eqb k' k then Some v else get rest k
  end.

(** [dict(pairs)] *)
Definition of_pairs (pairs : list (string * string)) : dict :=
  fold_left (fun d kv => set d (fst kv) (snd kv)) pairs [].

End PyDict.

Definition target_ax_uri_list : list string :=
  [ "http://www.adv-online.de/namespaces/adv/gid/7.1";
    "http://www.adv-online.de/namespaces/adv/gid/6.0" ].

(** [uri in target_ax_uri_list] *)
Definition is_target (uri : string) : bool :=
  existsb (String.eqb uri) target_ax_uri_list.

(** The loop [for prefix, uri in list(namespaces.items())] over the
    items [items], on the dict [namespaces]. *)
Definition normalize_ax (items : list (string * string))
    (namespaces : PyDict.dict) : PyDict.dict :=
  fold_left
    (fun d kv => if is_target (snd kv) then PyDict.set d "ax" (snd kv) else d)
    items namespaces.

(** [start_ns] is what [etree.iterparse(..., events=("start-ns",))]
    yields: a prefix and a URI for each namespace declaration of the
    document, in document order, the prefix of a default namespace being
    the empty string.  The queries of the parser use the bindings of
    [ax], [wfs] and [gml] of the map returned. *)
Definition get_namespaces (start_ns : list (string * string)) : PyDict.dict :=
  let raw_namespaces := PyDict.of_pairs start_ns in
  let namespaces :=
    filter (fun kv => negb (PyStr.is_empty (fst kv))) raw_namespaces in
  let default_uri := PyDict.get raw_namespaces "" in
  let namespaces :=
    match default_uri with
    | Some uri =>
        if is_target uri then PyDict.set namespaces "ax" uri else namespaces
    | None => namespaces
    end in
  normalize_ax namespaces namespaces.

(** ** [repr] of a string *)

Module PyRepr.

Definition squote : ascii := ascii_of_nat 39.
Definition dquote : ascii := ascii_of_nat 34.
Definition backslash : ascii := ascii_of_nat 92.

Definition str1 (c : ascii) : string := String c EmptyString.

Definition hex_digit (n : nat) : ascii :=
  if (n <? 10)%nat then ascii_of_nat (48 + n) else ascii_of_nat (87 + n).

(** [c.isprintable()] on code points below 256. *)
Definition isprintable (c : ascii) : bool :=
  let n := nat_of_ascii c in
  (((32 <=? n) && (n <=? 126)) || ((161 <=? n) && negb (n =? 173)))%nat.

Definition repr_char (q c : ascii) : string :=
  let n := nat_of_ascii c in
  if Ascii.eqb c q || Ascii.eqb c backslash then String backslash (str1 c)
  else if (n =? 9)%nat then String backslash "t"
  else if (n =? 10)%nat then String backslash "n"
  else if (n =? 13)%nat then String backslash "r"
  else if isprintable c then str1 c
  else String backslash
         (String "x" (String (hex_digit (n / 16)) (str1 (hex_digit (n mod 16))))).

Fixpoint repr_body (q : ascii) (s : string) : string :=
  match s with
  | EmptyString => EmptyString
  | String c s' => repr_char q c ++ repr_body q s'
  end.

(** Single quotes, unless the string holds a single quote and no double
    quote. *)
Definition quote_of (s : string) : ascii :=
  if PyStr.contains s (str1 squote) && negb (PyStr.contains s (str1 dquote))
  then dquote else squote.

Definition repr (s : string) : string :=
  let q := quote_of s in
  String q (repr_body q s ++ str1 q).

End PyRepr.

(** ** Exceptions and the output stream *)

Inductive exn : Type :=
| ValueError (msg : string)
| AttributeError (msg : string)
| ZeroDivisionError
| UnboundLocalError (var : string)
| LibraryError (kind msg : string).

(** [str(e)], used where the source formats an exception into a message. *)
Definition exn_str (e : exn) : string :=
  match e with
  | ValueError msg => msg
  | AttributeError msg => msg
  | ZeroDivisionError => "float division by zero"
  | UnboundLocalError var =>
      "cannot access local variable '" ++ var
      ++ "' where it is not associated with a value"
  | LibraryError _ msg => msg
  end.

Inductive result (A : Type) : Type :=
| Ok (a : A)
| Raise (e : exn).
Arguments Ok {A} a.
Arguments Raise {A} e.

(** The methods [__post_init__] calls, in the order of their definition. *)
Inductive Call : Type :=
| Call_get_namespaces
| Call_parse_xml_file
| Call_extract_original_crs_from_xml
| Call_get_flurstueck_geometry
| Call_remove_broken_members
| Call_get_ax_flurstueck_data
| Call_get_ax_person_data
| Call_get_ax_buchungsblattbezirk_data
| Call_get_ax_buchungsblatt_data
| Call_get_ax_anschrift_data
| Call_get_ax_namensnummer_data
| Call_get_ax_buchungsstelle_data.

(** What a run leaves behind besides its value: the lines printed, oldest
    first, and the history of method calls made by [__post_init__]. *)
Record World : Type := mkWorld {
  stdout : list string;
  calls : list Call
}.

Definition World0 : World := mkWorld [] [].

Definition M (A : Type) : Type := World -> result A * World.

Definition ret {A} (a : A) : M A := fun w => (Ok a, w).

Definition raise {A} (e : exn) : M A := fun w => (Raise e, w).

Definition bind {A B} (m : M A) (k : A -> M B) : M B :=
  fun w =>
    match m w with
    | (Ok a, w') => k a w'
    | (Raise e, w') => (Raise e, w')
    end.

(** The world after [print(line)], and after a call of [c]. *)
Definition printed (line : string) (w : World) : World :=
  mkWorld (stdout w ++ [line])%list (calls w).

Definition entered (c : Call) (w : World) : World :=
  mkWorld (stdout w) (calls w ++ [c])%list.

Definition print (line : string) : M unit := fun w => (Ok tt, printed line w).

Definition enter (c : Call) : M unit := fun w => (Ok tt, entered c w).

Definition lift {A} (r : result A) : M A := fun w => (r, w).

Declare Scope monad_scope.
Delimit Scope monad_scope with M.
Notation "x <- m ;; k" := (bind m (fun x => k))
  (at level 61, m at next level, right associativity) : monad_scope.
Notation "m ;;; k" := (bind m (fun _ => k))
  (at level 61, right associativity) : monad_scope.
Open Scope monad_scope.

(** ** [AX_Extract.format_crs_name] *)

Module Regex.

(** [re.IGNORECASE] on code points below 256 folds the ASCII letters. *)
Definition lower (c : ascii) : ascii :=
  let n := nat_of_ascii c in
  if ((65 <=? n) && (n <=? 90))%nat then ascii_of_nat (n + 32) else c.

(** [\d] on code points below 256. *)
Definition is_digit (c : ascii) : bool :=
  let n := nat_of_ascii c in ((48 <=? n) && (n <=? 57))%nat.

(** A literal, matched at the start of [s] ignoring case: the rest of [s]. *)
Fixpoint match_literal (lit s : string) : option string :=
  match lit with
  | EmptyString => Some s
  | String a lit' =>
      match s with
      | EmptyString => None
      | String b s' =>
          if Ascii.eqb (lower a) (lower b) then match_literal lit' s' else None
      end
  end.

(** The longest run of digits at the start of [s], and what follows it. *)
Fixpoint span_digits (s : string) : string * string :=
  match s with
  | EmptyString => (EmptyString, EmptyString)
  | String c s' =>
      if is_digit c
      then let (ds, rest) := span_digits s' in (String c ds, rest)
      else (EmptyString, s)
  end.

(** [$] without [re.MULTILINE]: the end of the string, or just before a
    newline that ends it. *)
Definition at_end (s : string) : bool :=
  match s with
  | EmptyString => true
  | String c EmptyString => (nat_of_ascii c =? 10)%nat
  | _ => false
  end.

(** [re.compile(r"^ETRS89_UTM(\d+)$", re.IGNORECASE).match(s)]: group 1.
    After the greedy [\d+] the next character is no digit, so giving
    digits back never helps [$] to match. *)
Definition pattern_match (s : string) : option string :=
  match match_literal "ETRS89_UTM" s with
  | None => None
  | Some rest =>
      let (zone, tail) := span_digits rest in
      if PyStr.is_empty zone then None
      else if at_end tail then Some zone else None
  end.

End Regex.

Definition format_crs_name (crs_string : string) : result string :=
  match Regex.pattern_match crs_string with
  | None =>
      Raise (ValueError ("String " ++ PyRepr.repr crs_string
                         ++ " is not in the expected format 'ETRS89_UTM<number>'"))
  | Some zone => Ok ("ETRS89 / UTM zone " ++ zone ++ "N")
  end.

(** ** The element tree (lxml)

    An element has its tag in Clark notation ([{uri}local]), its
    attributes in document order, its text and its child nodes.

    The parser keeps comments and processing instructions, and lxml
    yields them among the children of their parent.  The [tag] of such a
    node is no string but a function of lxml ([etree.Comment],
    [etree.ProcessingInstruction]).  It is written here as a node whose
    tag starts with [<], which the name of an element never does, so that
    no step of a query finds it.  Tail text plays no part in the parser
    and is left out. *)

#[warnings="-register-all"]
Inductive Element : Type :=
| mkElement (tag : string) (attrib : list (string * string))
            (text : option string) (children : list Element).

Definition tag (e : Element) : string :=
  match e with mkElement t _ _ _ => t end.
Definition attrib (e : Element) : list (string * string) :=
  match e with mkElement _ a _ _ => a end.
Definition text (e : Element) : option string :=
  match e with mkElement _ _ x _ => x end.
Definition children (e : Element) : list Element :=
  match e with mkElement _ _ _ cs => cs end.

(** The node is a comment or a processing instruction. *)
Definition is_comment_or_pi (e : Element) : bool := prefix "<" (tag e).

(** The prefix map of [get_namespaces], for the three prefixes the
    queries of the parser use.  The map is taken to bind all three: with
    one of them missing the first query of [__post_init__] raises, and
    an element tag is compared with the resolved name of a path step. *)
Record Namespaces : Type := mkNamespaces {
  ns_ax : string;
  ns_wfs : string;
  ns_gml : string
}.

Definition clark (uri local : string) : string := "{" ++ uri ++ "}" ++ local.

Definition GML_ID : string := "{http://www.opengis.net/gml/3.2}id".
Definition XLINK_HREF : string := "{http://www.w3.org/1999/xlink}href".
Definition XLINK_TITLE : string := "{http://www.w3.org/1999/xlink}title".

Module ET.

(** [element.attrib.get(name)], [element.get(name)] *)
Fixpoint attrib_lookup (kvs : list (string * string)) (name : string)
  : option string :=
  match kvs with
  | [] => None
  | (k, v) :: rest => if String.eqb k name then Some v else attrib_lookup rest name
  end.

Definition get (e : Element) (name : string) : option string :=
  attrib_lookup (attrib e) name.

(** One ElementPath child step: the children of [e] with tag [t]. *)
Definition child_step (t : string) (e : Element) : list Element :=
  filter (fun c => String.eqb (tag c) t) (children e).

(** [element.iterdescendants()]: document order, [e] itself excluded. *)
Fixpoint descendants (e : Element) : list Element :=
  match e with
  | mkElement _ _ _ cs => flat_map (fun c => c :: descendants c) cs
  end.

Definition steps_from (start : list Element) (steps : list string)
  : list Element :=
  fold_left (fun acc t => flat_map (child_step t) acc) steps start.

(** [element.findall("s1/s2/...")] *)
Definition findall (e : Element) (steps : list string) : list Element :=
  steps_from [e] steps.

(** [element.find("s1/s2/...")] *)
Definition find (e : Element) (steps : list string) : option Element :=
  hd_error (findall e steps).

(** [element.xpath(".//t")] and the first step of [".//t/s1/..."] *)
Definition descendants_tagged (e : Element) (t : string) : list Element :=
  filter (fun d => String.eqb (tag d) t) (descendants e).

(** [element.find(".//t/s1/s2/...")] *)
Definition find_desc (e : Element) (t : string) (steps : list string)
  : option Element :=
  hd_error (steps_from (descendants_tagged e t) steps).

(** [element.findtext(path)]: [None] when nothing matches, and the empty
    string for a match without text. *)
Definition findtext (e : Element) (steps : list string) : option string :=
  match find e steps with
  | None => None
  | Some el =>
      match text el with
      | Some t => Some t
      | None => Some EmptyString
      end
  end.

(** A node of a document: the child indices leading to it from the root,
    the tags of its ancestors (parent first), and the element. *)
Record Node : Type := mkNode {
  node_path : list nat;
  node_ancestors : list string;
  node_elem : Element
}.

(** [flat_map] over a list with the index of each item, counted from
    [i]. *)
Fixpoint flat_mapi {A B} (f : nat -> A -> list B) (i : nat) (l : list A)
  : list B :=
  match l with
  | [] => []
  | a :: l' => (f i a ++ flat_mapi f (S i) l')%list
  end.

(** All nodes below and including [e], in document order. *)
Fixpoint nodes_from (anc : list string) (here : list nat) (e : Element)
  : list Node :=
  mkNode here anc e ::
  match e with
  | mkElement t _ _ cs =>
      flat_mapi (fun i c => nodes_from (t :: anc) (here ++ [i])%list c) 0 cs
  end.

Fixpoint tags_match (want have : list string) : bool :=
  match want, have with
  | [], _ => true
  | w :: want', h :: have' => String.eqb w h && tags_match want' have'
  | _ :: _, [] => false
  end.

(** [root.xpath("//s1/s2/.../sk")]: the elements with tag [sk] whose
    parent has tag [s(k-1)], and so on up to [s1], anywhere in the
    document, in document order. *)
Definition xpath_nodes (root : Element) (steps : list string) : list Node :=
  filter (fun n => tags_match (rev steps) (tag (node_elem n) :: node_ancestors n))
         (nodes_from [] [] root).

Definition xpath (root : Element) (steps : list string) : list Element :=
  map node_elem (xpath_nodes root steps).

(** The tree without the nodes at the paths [ps] (and so without what is
    below them); paths are taken in the tree as it is before any removal. *)
Definition path_is (i : nat) (p : list nat) : bool :=
  match p with
  | [j] => Nat.eqb i j
  | _ => false
  end.

Fixpoint paths_below (i : nat) (ps : list (list nat)) : list (list nat) :=
  match ps with
  | [] => []
  | (j :: ((_ :: _) as q)) :: ps' =>
      if Nat.eqb i j then q :: paths_below i ps' else paths_below i ps'
  | _ :: ps' => paths_below i ps'
  end.

Fixpoint detach (ps : list (list nat)) (e : Element) : Element :=
  match e with
  | mkElement t a x cs =>
      mkElement t a x
        (flat_mapi
           (fun i c =>
              if existsb (path_is i) ps then []
              else [detach (paths_below i ps) c])
           0 cs)
  end.

End ET.

(** ** The libraries behind the parser

    [float], [datetime.datetime.fromisoformat] and the geometries of
    geopandas are used through their interface only.
    - [float_of_str t] is [float(t)]; [None] stands for the [ValueError]
      it raises on a text that is no number.
    - [float_is_zero y] is [y == 0.0], the test under which [x / y] raises
      [ZeroDivisionError]; [float_div x y] is [x / y] otherwise.
    - [fromisoformat t] is the instant parsed from [t], or the message of
      the [ValueError] raised, the one exception it raises on a string.
    - [no_endswith] is the message of the [AttributeError] that
      [child.tag.endswith] raises on a comment or a processing
      instruction: it names the type of the function lxml has for a tag
      there, which depends on the build of lxml. *)

Class Library : Type := {
  pyfloat : Type;
  float_of_str : string -> option pyfloat;
  float_one : pyfloat;
  float_is_zero : pyfloat -> bool;
  float_div : pyfloat -> pyfloat -> pyfloat;
  datetime : Type;
  fromisoformat : string -> datetime + string;
  geom : Type;
  no_endswith : string
}.

(** [float(t)] *)
Definition float {L : Library} (t : string) : result pyfloat :=
  match float_of_str t with
  | Some x => Ok x
  | None => Raise (ValueError ("could not convert string to float: " ++ PyRepr.repr t))
  end.

(** [x / y] *)
Definition truediv {L : Library} (x y : pyfloat) : result pyfloat :=
  if float_is_zero y then Raise ZeroDivisionError else Ok (float_div x y).

(** ** The tables

    A table is the list of its rows, oldest first: the source keeps one
    list per column and appends to all of them together.  The fields are
    named after the columns. *)

Module GeomTable.
Record Row {L : Library} : Type := mkRow {
  ax_flurstueck_id : string;
  geometry : geom
}.
Arguments mkRow {L}.
End GeomTable.

Module Flurstueck.
Record Row {L : Library} : Type := mkRow {
  ax_flurstueck_id : string;
  flurstueckskennzeichen : option string;
  amtliche_flaeche : option pyfloat;
  ax_buchungsstelle_id : option string;
  ax_lagebezeichnung_ohne_hausnummer_id : option string;
  zeitpunktDerEntstehung : option string;
  aa_lebenszeitintervall_beginnt : option datetime
}.
Arguments mkRow {L}.
End Flurstueck.

(** A row of the merged parcel table: the columns of the geometry table
    and those of the scalar table, the key column being common to both. *)
Module Parcel.
Record Row {L : Library} : Type := mkRow {
  geo : GeomTable.Row;
  fields : Flurstueck.Row
}.
Arguments mkRow {L}.
End Parcel.

Module Person.
Record Row {L : Library} : Type := mkRow {
  ax_person_id : string;
  nachname_oder_firma : option string;
  vorname : option string;
  anrede : option string;
  namensbestandteil : option string;
  akademischer_grad : option string;
  geburtsname : option string;
  geburtsdatum : option string;
  ax_anschrift_id : option string;
  aa_lebenszeitintervall_beginnt : option datetime;
  anlass : option string
}.
Arguments mkRow {L}.
End Person.

Module Buchungsblattbezirk.
Record Row {L : Library} : Type := mkRow {
  ax_buchungsblattbezirk_id : option string;
  schluessel_gesamt : option string;
  bbz_bezeichnung : option string;
  ax_buchungsblattbezirk_schluessel_bezirk : option string;
  ax_buchungsblattbezirk_schluessel_land : option string;
  ax_dienststelle_schluessel_land : option string;
  ax_dienststelle_schluessel_stelle : option string;
  gehoert_zu_ax_dienststelle_schluessel_stelle : option string;
  aa_lebenszeitintervall_beginnt : option datetime;
  anlass : option string
}.
Arguments mkRow {L}.
End Buchungsblattbezirk.

Module Buchungsblatt.
Record Row {L : Library} : Type := mkRow {
  ax_buchungsblatt_id : option string;
  buchungsblattkennzeichen : option string;
  land : option string;
  bezirk : option string;
  schluessel_gesamt : option string;
  blattart : option string;
  buchungsblattnummer_mit_buchstabenerweiterung : option string;
  aa_lebenszeitintervall_beginnt : option datetime;
  anlass : option string
}.
Arguments mkRow {L}.
End Buchungsblatt.

Module Anschrift.
Record Row {L : Library} : Type := mkRow {
  ax_anschrift_id : string;
  ort_post : option string;
  postleitzahl_postzustellung : option string;
  strasse : option string;
  hausnummer : option string;
  ortsteil : option string;
  aa_lebenszeitintervall_beginnt : option datetime;
  anlass : option string;
  tel : option string;
  weitere_adressen : option string
}.
Arguments mkRow {L}.
End Anschrift.

Module Namensnummer.
Record Row {L : Library} : Type := mkRow {
  ax_namensnummer_id : string;
  ax_person_id : option string;
  laufende_nummer : option string;
  ax_buchungsblatt_id : option string;
  anlass : option string;
  art_der_rechtsgemeinschaft : option string;
  besteht_aus_rechtsverhaeltnissen_zu : option string;
  anteil : pyfloat
}.
Arguments mkRow {L}.
End Namensnummer.

Module Buchungsstelle.
Record Row : Type := mkRow {
  ax_buchungsstelle_id : string;
  buchungsart : option string;
  laufende_nummer : option string;
  ax_buchungsblatt_id : option string
}.
End Buchungsstelle.

Section AX_Extract.

Context {L : Library}.
Variable namespaces : Namespaces.

Definition ax (local : string) : string := clark (ns_ax namespaces) local.
Definition wfs (local : string) : string := clark (ns_wfs namespaces) local.
Definition gml (local : string) : string := clark (ns_gml namespaces) local.

(** *** [find_elements] *)

Definition find_elements (root : Element) (steps : list string)
  : option (list Element) :=
  match ET.xpath root steps with
  | [] => None
  | elements => Some elements
  end.

(** *** [extract_original_crs_from_xml] *)

(** The body of the [for angabe in ...] loop; falling off the end of the
    loop returns [None]. *)
Fixpoint crs_loop (angaben : list Element) : result (option string) :=
  match angaben with
  | [] => Ok None
  | angabe :: rest =>
      let standard := ET.findtext angabe [ax "standard"] in
      match standard with
      | Some "true" =>
          match ET.find angabe [ax "crs"] with
          | None =>
              Raise (AttributeError "'NoneType' object has no attribute 'attrib'")
          | Some crs =>
              let crs_etrs := ET.get crs XLINK_HREF in
              let formatted :=
                match crs_etrs with
                | None =>
                    Raise (AttributeError
                             "'NoneType' object has no attribute 'startswith'")
                | Some href => format_crs_name (remove_crs_prefix href)
                end in
              match formatted with
              | Ok original_crs => Ok (Some original_crs)
              | Raise e =>
                  Raise (ValueError
                           ("error when formatting extracted crs: "
                            ++ match crs_etrs with Some h => h | None => "None" end
                            ++ ": " ++ String (ascii_of_nat 10) (exn_str e)))
              end
          end
      | _ => crs_loop rest
      end
  end.

Definition extract_original_crs_from_xml (xml_root : Element)
  : result (option string) :=
  match find_elements xml_root
          [ax "koordinatenangaben"; ax "AA_Koordinatenreferenzsystemangaben"] with
  | Some angaben => crs_loop angaben
  | None => Ok None
  end.

(** *** [find_attr] *)

Definition find_attr (element : Element) (path : list string) (attr : string)
  : option string :=
  match ET.find element path with
  | Some el => ET.get el attr
  | None => None
  end.

(** *** [remove_broken_members] *)

(** [len(pos.text.strip().split()) == 1] *)
Definition single_coordinate (t : string) : bool :=
  (List.length (PyStr.split (PyStr.strip t)) =? 1)%nat.

(** The loop [for pos in pos_elements] over the texts of the positions:
    whether the member is to be removed, and the positions the loop has
    looked at, the one it stopped on included. *)
Fixpoint scan_positions (pos_texts : list (option string))
  : bool * list (option string) :=
  match pos_texts with
  | [] => (false, [])
  | None :: rest =>
      let (broken, seen) := scan_positions rest in (broken, None :: seen)
  | Some t :: rest =>
      if single_coordinate t then (true, [Some t])
      else let (broken, seen) := scan_positions rest in (broken, Some t :: seen)
  end.

(** [member.xpath(".//gml:pos")], as the texts of the positions found. *)
Definition pos_texts (member : Element) : list (option string) :=
  map text (ET.descendants_tagged member (gml "pos")).

Definition is_broken (member : Element) : bool :=
  fst (scan_positions (pos_texts member)).

(** The members the method visits: [wfs:member], and [gml:featureMember]
    when there is no [wfs:member]. *)
Definition member_nodes (root : Element) : list ET.Node :=
  match ET.xpath_nodes root [ax "enthaelt"; wfs "FeatureCollection"; wfs "member"] with
  | [] =>
      ET.xpath_nodes root
        [ax "enthaelt"; wfs "FeatureCollection"; gml "featureMember"]
  | members => members
  end.

(** The members on which [parent.remove(member)] is called.  The members
    are visited in document order, so nothing below a member has been
    removed when its positions are read, and [is_broken] can be asked of
    the member as it is in [root]. *)
Definition removed_members (root : Element) : list ET.Node :=
  filter (fun m => is_broken (ET.node_elem m)) (member_nodes root).

(** The tree after the method: [xml_root] is [Some] tree or [None]. *)
Definition remove_broken_members (xml_root : option Element) : option Element :=
  match xml_root with
  | None => None
  | Some root => Some (ET.detach (map ET.node_path (removed_members root)) root)
  end.

(** *** [get_aa_lebenszeitintervall_beginnt] *)

Definition get_aa_lebenszeitintervall_beginnt (alkis_member : Element)
  : M (option datetime) :=
  match ET.find_desc alkis_member (ax "lebenszeitintervall")
          [ax "AA_Lebenszeitintervall"; ax "beginnt"] with
  | Some beginnt =>
      match text beginnt with
      | Some t =>
          if PyStr.is_empty t then ret None
          else
            match fromisoformat (PyStr.replace t "Z" "+00:00") with
            | inl instant => ret (Some instant)
            | inr e =>
                print (t ++ " is not a valid datetime: " ++ e) ;;;
                ret None
            end
      | None => ret None
      end
  | None => ret None
  end.

(** *** The entity extractors *)

(** The two queries every extractor makes for its elements, the second
    when the first finds nothing, and the [ValueError] when both do. *)
Definition matched_elements (xml_root : Element) (entity : string)
  : option (list Element) :=
  match find_elements xml_root
          [ax "enthaelt"; wfs "FeatureCollection"; wfs "member"; ax entity] with
  | Some elements => Some elements
  | None =>
      find_elements xml_root
        [ax "enthaelt"; wfs "FeatureCollection"; gml "featureMember"; ax entity]
  end.

Definition require_elements (xml_root : Element) (entity : string)
  : M (list Element) :=
  match matched_elements xml_root entity with
  | Some elements => ret elements
  | None =>
      raise (ValueError ("No " ++ entity
                         ++ " elements found in the provided XML file."))
  end.

(** A cross-reference: [find_attr] on the link target, stripped of the
    prefix when it is not [None]. *)
Definition href_id (element : Element) (child : string) : option string :=
  match find_attr element [ax child] XLINK_HREF with
  | Some href => Some (remove_gml_id_prefix href)
  | None => None
  end.

(** **** [get_flurstueck_geometry]

    [decoded] is what [gpd.read_file] gives for the layer on the raw
    bytes, as pairs of [str(identifier)] and geometry. *)
Definition get_flurstueck_geometry (decoded : list (string * geom))
  : list GeomTable.Row :=
  map (fun r => GeomTable.mkRow (remove_gml_id_prefix (fst r)) (snd r)) decoded.

(** [left.merge(right, on="ax_flurstueck_id")]: the inner join, in the
    order of the left table. *)
Definition merge (left : list GeomTable.Row) (right : list Flurstueck.Row)
  : list Parcel.Row :=
  flat_map
    (fun l =>
       map (Parcel.mkRow l)
         (filter (fun r => String.eqb (GeomTable.ax_flurstueck_id l)
                                      (Flurstueck.ax_flurstueck_id r))
                 right))
    left.

(** **** [get_ax_flurstueck_data] *)

Definition amtliche_flaeche_of (flurstueck : Element) : M (option pyfloat) :=
  match ET.findtext flurstueck [ax "amtlicheFlaeche"] with
  | Some amtliche_flaeche_text =>
      match float_of_str amtliche_flaeche_text with
      | Some x => ret (Some x)
      | None =>
          print ("Could not convert amtliche_flaeche '"
                 ++ amtliche_flaeche_text ++ "' to float.") ;;;
          ret None
      end
  | None => ret None
  end.

Fixpoint flurstueck_loop (flurstuecke : list Element) : M (list Flurstueck.Row) :=
  match flurstuecke with
  | [] => ret []
  | flurstueck :: rest =>
      let gml_id := ET.get flurstueck GML_ID in
      match gml_id with
      | Some alkis_id =>
          if PyStr.is_empty alkis_id
          then print "No gml:id found for flurstueck, skipping..." ;;;
               flurstueck_loop rest
          else
            let flurstueckskennzeichen :=
              ET.findtext flurstueck [ax "flurstueckskennzeichen"] in
            amtliche_flaeche <- amtliche_flaeche_of flurstueck ;;
            let ax_zeitpunkt_der_entstehung :=
              ET.findtext flurstueck [ax "zeitpunktDerEntstehung"] in
            aa_lebenszeitintervall_beginnt <-
              get_aa_lebenszeitintervall_beginnt flurstueck ;;
            let ax_buchungsstelle_id := href_id flurstueck "istGebucht" in
            let ax_lagebezeichnung_ohne_hausnummer_id :=
              href_id flurstueck "zeigtAuf" in
            rows <- flurstueck_loop rest ;;
            ret (Flurstueck.mkRow alkis_id flurstueckskennzeichen
                   amtliche_flaeche ax_buchungsstelle_id
                   ax_lagebezeichnung_ohne_hausnummer_id
                   ax_zeitpunkt_der_entstehung
                   aa_lebenszeitintervall_beginnt :: rows)
      | None =>
          print "No gml:id found for flurstueck, skipping..." ;;;
          flurstueck_loop rest
      end
  end.

(** The scalar table [df], before the join. *)
Definition flurstueck_scalars (xml_root : Element) : M (list Flurstueck.Row) :=
  flurstuecke <- require_elements xml_root "AX_Flurstueck" ;;
  flurstueck_loop flurstuecke.

Definition get_ax_flurstueck_data (xml_root : Element)
    (gdf_buf : list GeomTable.Row) : M (list Parcel.Row) :=
  df <- flurstueck_scalars xml_root ;;
  ret (merge gdf_buf df).

(** **** [get_ax_person_data]

    The locals of the method live across the iterations of its loop.
    [identifier] is declared without a value: it is unbound ([None] here)
    until an element with an id has been seen.  The others start as
    Python [None]. *)
Record PersonLocals : Type := mkPersonLocals {
  pl_identifier : option string;
  pl_nachname_oder_firma : option string;
  pl_vorname : option string;
  pl_anrede : option string;
  pl_namensbestandteil : option string;
  pl_akademischer_grad : option string;
  pl_geburtsname : option string;
  pl_geburtsdatum : option string;
  pl_anschrift_id : option string;
  pl_aa_lebenszeitintervall_beginnt : option datetime;
  pl_anlass : option string
}.

Definition person_locals0 : PersonLocals :=
  mkPersonLocals None None None None None None None None None None None.

(** The eleven [append]s after the [if gml_id:] block; the first one reads
    [identifier]. *)
Definition person_append (v : PersonLocals) : M Person.Row :=
  match pl_identifier v with
  | None => raise (UnboundLocalError "identifier")
  | Some identifier =>
      ret (Person.mkRow identifier (pl_nachname_oder_firma v) (pl_vorname v)
             (pl_anrede v) (pl_namensbestandteil v) (pl_akademischer_grad v)
             (pl_geburtsname v) (pl_geburtsdatum v) (pl_anschrift_id v)
             (pl_aa_lebenszeitintervall_beginnt v) (pl_anlass v))
  end.

(** The [if gml_id:] block. *)
Definition person_read (person : Element) (identifier : string) : M PersonLocals :=
  let nachname_oder_firma := ET.findtext person [ax "nachnameOderFirma"] in
  let vorname := ET.findtext person [ax "vorname"] in
  let anrede := ET.findtext person [ax "anrede"] in
  let geburtsname := ET.findtext person [ax "geburtsname"] in
  let geburtsdatum := ET.findtext person [ax "geburtsdatum"] in
  let anlass := ET.findtext person [ax "anlass"] in
  let namensbestandteil := ET.findtext person [ax "namensbestandteil"] in
  let akademischer_grad := ET.findtext person [ax "akademischerGrad"] in
  aa_lebenszeitintervall_beginnt <- get_aa_lebenszeitintervall_beginnt person ;;
  let anschrift_id := find_attr person [ax "hat"] XLINK_HREF in
  let anschrift_id :=
    if PyStr.truthy anschrift_id
    then option_map remove_gml_id_prefix anschrift_id
    else anschrift_id in
  ret (mkPersonLocals (Some identifier) nachname_oder_firma vorname anrede
         namensbestandteil akademischer_grad geburtsname geburtsdatum
         anschrift_id aa_lebenszeitintervall_beginnt anlass).

Fixpoint person_loop (v : PersonLocals) (personen : list Element)
  : M (list Person.Row) :=
  match personen with
  | [] => ret []
  | person :: rest =>
      let gml_id := ET.get person GML_ID in
      v' <- (match gml_id with
             | Some identifier =>
                 if PyStr.is_empty identifier then ret v
                 else person_read person identifier
             | None => ret v
             end) ;;
      row <- person_append v' ;;
      rows <- person_loop v' rest ;;
      ret (row :: rows)
  end.

Definition get_ax_person_data (xml_root : Element) : M (list Person.Row) :=
  personen <- require_elements xml_root "AX_Person" ;;
  person_loop person_locals0 personen.

(** **** [get_ax_buchungsblattbezirk_data] *)

(** [for child in key: if child.tag.endswith(a): x = child.text;
    if child.tag.endswith(b): y = child.text], from [x] and [y].  The
    loop goes over every child node of the key: on a comment or a
    processing instruction [child.tag.endswith] raises. *)
Fixpoint read_key (a b : string) (x y : option string) (key : list Element)
  : result (option string * option string) :=
  match key with
  | [] => Ok (x, y)
  | child :: rest =>
      if is_comment_or_pi child then Raise (AttributeError no_endswith)
      else
        let x := if PyStr.endswith (tag child) a then text child else x in
        let y := if PyStr.endswith (tag child) b then text child else y in
        read_key a b x y rest
  end.

Definition key_of (element : Element) (path : list string) (a b : string)
  : result (option string * option string) :=
  match ET.find element path with
  | Some key => read_key a b None None (children key)
  | None => Ok (None, None)
  end.

Fixpoint buchungsblattbezirk_loop (buchungsblattbezirke : list Element)
  : M (list Buchungsblattbezirk.Row) :=
  match buchungsblattbezirke with
  | [] => ret []
  | buchungsblattbezirk :: rest =>
      aa_lebenszeitintervall_beginnt <-
        get_aa_lebenszeitintervall_beginnt buchungsblattbezirk ;;
      let identifier := ET.get buchungsblattbezirk GML_ID in
      let schluessel_gesamt :=
        ET.findtext buchungsblattbezirk [ax "schluesselGesamt"] in
      let anlass := ET.findtext buchungsblattbezirk [ax "anlass"] in
      let bezeichnung := ET.findtext buchungsblattbezirk [ax "bezeichnung"] in
      buchungsblattbezirk_schluessel <-
        lift (key_of buchungsblattbezirk
                [ax "schluessel"; ax "AX_Buchungsblattbezirk_Schluessel"]
                "land" "bezirk") ;;
      let (ax_buchungsblattbezirk_schluessel_land,
           ax_buchungsblattbezirk_schluessel_bezirk) :=
        buchungsblattbezirk_schluessel in
      dienststelle <-
        lift (key_of buchungsblattbezirk
                [ax "gehoertZu"; ax "AX_Dienststelle_Schluessel"]
                "land" "stelle") ;;
      let (ax_dienststelle_schluessel_land, ax_dienststelle_schluessel_stelle) :=
        dienststelle in
      rows <- buchungsblattbezirk_loop rest ;;
      ret (Buchungsblattbezirk.mkRow identifier schluessel_gesamt bezeichnung
             ax_buchungsblattbezirk_schluessel_bezirk
             ax_buchungsblattbezirk_schluessel_land
             ax_dienststelle_schluessel_land
             ax_dienststelle_schluessel_stelle
             ax_dienststelle_schluessel_stelle
             aa_lebenszeitintervall_beginnt anlass :: rows)
  end.

Definition get_ax_buchungsblattbezirk_data (xml_root : Element)
  : M (list Buchungsblattbezirk.Row) :=
  buchungsblattbezirke <- require_elements xml_root "AX_Buchungsblattbezirk" ;;
  buchungsblattbezirk_loop buchungsblattbezirke.

(** **** [get_ax_buchungsblatt_data] *)

(** The loop over the children of the key, which also joins the two parts
    once both are non-empty.  On a comment or a processing instruction
    [child.tag.endswith] raises. *)
Fixpoint read_blatt_key (land bezirk gesamt : option string) (key : list Element)
  : result (option string * option string * option string) :=
  match key with
  | [] => Ok (land, bezirk, gesamt)
  | child :: rest =>
      if is_comment_or_pi child then Raise (AttributeError no_endswith)
      else
        let land :=
          if PyStr.endswith (tag child) "land" then text child else land in
        let bezirk :=
          if PyStr.endswith (tag child) "bezirk" then text child else bezirk in
        let gesamt :=
          match land, bezirk with
          | Some l, Some b =>
              if PyStr.is_empty l || PyStr.is_empty b then gesamt
              else Some (l ++ b)
          | _, _ => gesamt
          end in
        read_blatt_key land bezirk gesamt rest
  end.

Fixpoint buchungsblatt_loop (buchungsblaetter : list Element)
  : M (list Buchungsblatt.Row) :=
  match buchungsblaetter with
  | [] => ret []
  | buchungsblatt :: rest =>
      let identifier := ET.get buchungsblatt GML_ID in
      let buchungsblattkennzeichen :=
        ET.findtext buchungsblatt [ax "buchungsblattkennzeichen"] in
      let buchungsblattnummer__mit_buchstabenerweiterung :=
        ET.findtext buchungsblatt
          [ax "buchungsblattnummerMitBuchstabenerweiterung"] in
      let blattart := ET.findtext buchungsblatt [ax "blattart"] in
      let anlass := ET.findtext buchungsblatt [ax "anlass"] in
      aa_lebenszeitintervall_beginnt <-
        get_aa_lebenszeitintervall_beginnt buchungsblatt ;;
      ax_buchungsblattbezirk_schluessel <-
        lift (match ET.find buchungsblatt
                      [ax "buchungsblattbezirk";
                       ax "AX_Buchungsblattbezirk_Schluessel"]
              with
              | Some key => read_blatt_key None None None (children key)
              | None => Ok (None, None, None)
              end) ;;
      let '(buchungsblattbezirk_land, buchungsblattbezirk_bezirk,
            schluesselgesamt) := ax_buchungsblattbezirk_schluessel in
      rows <- buchungsblatt_loop rest ;;
      ret (Buchungsblatt.mkRow identifier buchungsblattkennzeichen
             buchungsblattbezirk_land buchungsblattbezirk_bezirk
             schluesselgesamt blattart
             buchungsblattnummer__mit_buchstabenerweiterung
             aa_lebenszeitintervall_beginnt anlass :: rows)
  end.

Definition get_ax_buchungsblatt_data (xml_root : Element)
  : M (list Buchungsblatt.Row) :=
  buchungsblaetter <- require_elements xml_root "AX_Buchungsblatt" ;;
  buchungsblatt_loop buchungsblaetter.

(** **** [get_ax_anschrift_data] *)

Fixpoint anschrift_loop (anschriften : list Element) : M (list Anschrift.Row) :=
  match anschriften with
  | [] => ret []
  | anschrift :: rest =>
      let gml_id := ET.get anschrift GML_ID in
      match gml_id with
      | Some identifier =>
          if PyStr.is_empty identifier
          then print "No gml:id found for namensnummer, skipping..." ;;;
               anschrift_loop rest
          else
            let ortsteil := ET.findtext anschrift [ax "ortsteil"] in
            let anlass := ET.findtext anschrift [ax "anlass"] in
            let tel := ET.findtext anschrift [ax "TEL"] in
            let weitere_adressen := ET.findtext anschrift [ax "weitereAdressen"] in
            aa_lebenszeitintervall_beginnt <-
              get_aa_lebenszeitintervall_beginnt anschrift ;;
            let ort_post := ET.findtext anschrift [ax "ort_Post"] in
            let postleitzahl_postzustellung :=
              ET.findtext anschrift [ax "postleitzahlPostzustellung"] in
            let strasse := ET.findtext anschrift [ax "strasse"] in
            let hausnummer := ET.findtext anschrift [ax "hausnummer"] in
            rows <- anschrift_loop rest ;;
            ret (Anschrift.mkRow identifier ort_post postleitzahl_postzustellung
                   strasse hausnummer ortsteil aa_lebenszeitintervall_beginnt
                   anlass tel weitere_adressen :: rows)
      | None =>
          print "No gml:id found for namensnummer, skipping..." ;;;
          anschrift_loop rest
      end
  end.

Definition get_ax_anschrift_data (xml_root : Element) : M (list Anschrift.Row) :=
  anschriften <- require_elements xml_root "AX_Anschrift" ;;
  anschrift_loop anschriften.

(** **** [get_ax_namensnummer_data] *)

(** The share: [float(1)] unless both texts are there, and then the
    quotient of the two numbers. *)
Definition ax_anteil_of (anteil_zaehler anteil_nenner : option string)
  : result pyfloat :=
  match anteil_zaehler, anteil_nenner with
  | Some z, Some n =>
      match float z with
      | Raise e => Raise e
      | Ok zaehler =>
          match float n with
          | Raise e => Raise e
          | Ok nenner => truediv zaehler nenner
          end
      end
  | _, _ => Ok float_one
  end.

Fixpoint namensnummer_loop (namensnummern : list Element)
  : M (list Namensnummer.Row) :=
  match namensnummern with
  | [] => ret []
  | namensnummer :: rest =>
      let gml_id := ET.get namensnummer GML_ID in
      match gml_id with
      | Some identifier =>
          if PyStr.is_empty identifier
          then print "No gml:id found for namensnummer, skipping..." ;;;
               namensnummer_loop rest
          else
            let ax_buchungsblatt_id := href_id namensnummer "istBestandteilVon" in
            let laufende_nummer :=
              ET.findtext namensnummer [ax "laufendeNummerNachDIN1421"] in
            let ax_person_id := href_id namensnummer "benennt" in
            let anlass := find_attr namensnummer [ax "anlass"] XLINK_TITLE in
            let art_der_rechtsgemeinschaft :=
              ET.findtext namensnummer [ax "artDerRechtsgemeinschaft"] in
            let besteht_aus_rechtsverhaeltnissen_zu :=
              href_id namensnummer "bestehtAusRechtsverhaeltnissenZu" in
            let anteil_zaehler :=
              ET.findtext namensnummer [ax "anteil"; ax "AX_Anteil"; ax "zaehler"] in
            let anteil_nenner :=
              ET.findtext namensnummer [ax "anteil"; ax "AX_Anteil"; ax "nenner"] in
            ax_anteil <- lift (ax_anteil_of anteil_zaehler anteil_nenner) ;;
            rows <- namensnummer_loop rest ;;
            ret (Namensnummer.mkRow identifier ax_person_id laufende_nummer
                   ax_buchungsblatt_id anlass art_der_rechtsgemeinschaft
                   besteht_aus_rechtsverhaeltnissen_zu ax_anteil :: rows)
      | None =>
          print "No gml:id found for namensnummer, skipping..." ;;;
          namensnummer_loop rest
      end
  end.

Definition get_ax_namensnummer_data (xml_root : Element)
  : M (list Namensnummer.Row) :=
  namensnummern <- require_elements xml_root "AX_Namensnummer" ;;
  namensnummer_loop namensnummern.

(** **** [get_ax_buchungsstelle_data]

    [ax_buchungsblatt_id] is declared without a value and is assigned in
    the loop only under [if ist_bestandteil_von_id is not None]: the
    argument [bound] is its state on entry to an iteration, [None] while
    it is unbound and [Some] of the last value assigned after that. *)
Fixpoint buchungsstelle_loop (bound : option string)
    (buchungsstellen : list Element) : M (list Buchungsstelle.Row) :=
  match buchungsstellen with
  | [] => ret []
  | buchungsstelle :: rest =>
      let gml_id := ET.get buchungsstelle GML_ID in
      match gml_id with
      | Some identifier =>
          if PyStr.is_empty identifier
          then print "No gml:id found for buchungsstelle, skipping..." ;;;
               buchungsstelle_loop bound rest
          else
            let buchungsart := ET.findtext buchungsstelle [ax "buchungsart"] in
            let laufende_nummer :=
              ET.findtext buchungsstelle [ax "laufendeNummer"] in
            let bound :=
              match find_attr buchungsstelle [ax "istBestandteilVon"] XLINK_HREF with
              | Some ist_bestandteil_von_id =>
                  Some (remove_gml_id_prefix ist_bestandteil_von_id)
              | None => bound
              end in
            match bound with
            | None => raise (UnboundLocalError "ax_buchungsblatt_id")
            | Some ax_buchungsblatt_id =>
                rows <- buchungsstelle_loop bound rest ;;
                ret (Buchungsstelle.mkRow identifier buchungsart laufende_nummer
                       (Some ax_buchungsblatt_id) :: rows)
            end
      | None =>
          print "No gml:id found for buchungsstelle, skipping..." ;;;
          buchungsstelle_loop bound rest
      end
  end.

Definition get_ax_buchungsstelle_data (xml_root : Element)
  : M (list Buchungsstelle.Row) :=
  buchungsstellen <- require_elements xml_root "AX_Buchungsstelle" ;;
  buchungsstelle_loop None buchungsstellen.

End AX_Extract.

(** ** [AX_Extract.__post_init__] *)

(** What the libraries make of the raw bytes in [xml_bytes], each being
    the value produced or the exception raised:
    - the prefix map read by [etree.iterparse] in [get_namespaces];
    - the root that [etree.parse(...).getroot()] gives [parse_xml_file];
    - the parcel layer that [gpd.read_file] decodes from the bytes
      themselves, with [set_crs(crs_name)] applied, as pairs of
      [str(identifier)] and geometry. *)
Record Document {L : Library} : Type := mkDocument {
  doc_namespaces : result Namespaces;
  doc_root : result (option Element);
  doc_layer : option string -> result (list (string * geom))
}.
Arguments mkDocument {L}.

(** The fields of the object once [__post_init__] has returned. *)
Record Extract {L : Library} : Type := mkExtract {
  namespaces : Namespaces;
  xml_root : option Element;
  crs_name : option string;
  current_crs : option string;
  ax_flurstueck : list Parcel.Row;
  ax_person : list Person.Row;
  ax_buchungsblattbezirk : list Buchungsblattbezirk.Row;
  ax_buchungsblatt : list Buchungsblatt.Row;
  ax_anschrift : list Anschrift.Row;
  ax_namensnummer : list Namensnummer.Row;
  ax_buchungsstelle : list Buchungsstelle.Row
}.
Arguments mkExtract {L}.

Section PostInit.

Context {L : Library}.

(** [parse_xml_file]: a syntax error is printed and raised again. *)
Definition parse_xml_file (parsed : result (option Element))
  : M (option Element) :=
  match parsed with
  | Ok root => ret root
  | Raise e => print ("Error parsing XML file: " ++ exn_str e) ;;; raise e
  end.

Definition no_root {A} : M A :=
  raise (AttributeError "'NoneType' object has no attribute 'xpath'").

Definition post_init (doc : Document) : M Extract :=
  enter Call_get_namespaces ;;;
  namespaces <- lift (doc_namespaces doc) ;;
  enter Call_parse_xml_file ;;;
  xml_root <- parse_xml_file (doc_root doc) ;;
  enter Call_extract_original_crs_from_xml ;;;
  match xml_root with
  | None => no_root
  | Some root =>
      crs_name <- lift (extract_original_crs_from_xml namespaces root) ;;
      let current_crs := crs_name in
      enter Call_get_flurstueck_geometry ;;;
      decoded <- lift (doc_layer doc crs_name) ;;
      let gdf_buf := get_flurstueck_geometry decoded in
      enter Call_remove_broken_members ;;;
      match remove_broken_members namespaces (Some root) with
      | None => no_root
      | Some root =>
          enter Call_get_ax_flurstueck_data ;;;
          ax_flurstueck <- get_ax_flurstueck_data namespaces root gdf_buf ;;
          enter Call_get_ax_person_data ;;;
          ax_person <- get_ax_person_data namespaces root ;;
          enter Call_get_ax_buchungsblattbezirk_data ;;;
          ax_buchungsblattbezirk <- get_ax_buchungsblattbezirk_data namespaces root ;;
          enter Call_get_ax_buchungsblatt_data ;;;
          ax_buchungsblatt <- get_ax_buchungsblatt_data namespaces root ;;
          enter Call_get_ax_anschrift_data ;;;
          ax_anschrift <- get_ax_anschrift_data namespaces root ;;
          enter Call_get_ax_namensnummer_data ;;;
          ax_namensnummer <- get_ax_namensnummer_data namespaces root ;;
          enter Call_get_ax_buchungsstelle_data ;;;
          ax_buchungsstelle <- get_ax_buchungsstelle_data namespaces root ;;
          ret (mkExtract namespaces (Some root) crs_name current_crs
                 ax_flurstueck ax_person ax_buchungsblattbezirk
                 ax_buchungsblatt ax_anschrift ax_namensnummer
                 ax_buchungsstelle)
      end
  end.

End PostInit.

(** ** An instance of the libraries, to run the parser on examples

    Numbers are integers read from decimal texts with an optional sign,
    divided as rationals; instants are read from the form
    [YYYY-MM-DDTHH:MM:SS] with an optional offset [+HH:MM] or [-HH:MM];
    a geometry is its text. *)

Module Ref.

Definition digit_value (c : ascii) : option nat :=
  if Regex.is_digit c then Some (nat_of_ascii c - 48) else None.

(** The number written by a non-empty run of digits; [acc] is the value
    of the digits read so far. *)
Fixpoint digits_value (acc : nat) (s : string) : option nat :=
  match s with
  | EmptyString => Some acc
  | String c s' =>
      match digit_value c with
      | Some d => digits_value (10 * acc + d) s'
      | None => None
      end
  end.

Definition number (s : string) : option nat :=
  match s with
  | EmptyString => None
  | _ => digits_value 0 s
  end.

(** A number as sign, numerator and denominator. *)
Record num : Type := mkNum { negative : bool; numer : nat; denom : nat }.

Definition num_of_str (s : string) : option num :=
  match s with
  | String "-" s' => option_map (fun n => mkNum true n 1) (number s')
  | _ => option_map (fun n => mkNum false n 1) (number s)
  end.

Definition num_div (x y : num) : num :=
  mkNum (xorb (negative x) (negative y)) (numer x * denom y) (denom x * numer y).

Record instant : Type := mkInstant {
  year : nat; month : nat; day : nat;
  hour : nat; minute : nat; second : nat;
  utcoffset_minutes : option (bool * nat)
}.

Definition take (n : nat) (s : string) : string := substring 0 n s.

Definition offset_of (s : string) : option (option (bool * nat)) :=
  match s with
  | EmptyString => Some None
  | String sign rest =>
      if (Ascii.eqb sign "+" || Ascii.eqb sign "-")
         && (String.length rest =? 5)%nat
         && String.eqb (substring 2 1 rest) ":"
      then
        match number (take 2 rest), number (substring 3 2 rest) with
        | Some h, Some m =>
            if ((h <? 24) && (m <? 60))%nat
            then Some (Some (Ascii.eqb sign "-", 60 * h + m))
            else None
        | _, _ => None
        end
      else None
  end.

Definition parse_instant (s : string) : option instant :=
  if (19 <=? String.length s)%nat
     && String.eqb (substring 4 1 s) "-" && String.eqb (substring 7 1 s) "-"
     && String.eqb (substring 10 1 s) "T"
     && String.eqb (substring 13 1 s) ":" && String.eqb (substring 16 1 s) ":"
  then
    match number (take 4 s), number (substring 5 2 s), number (substring 8 2 s),
          number (substring 11 2 s), number (substring 14 2 s),
          number (substring 17 2 s), offset_of (PyStr.drop 19 s) with
    | Some y, Some mo, Some d, Some h, Some mi, Some se, Some off =>
        if ((1 <=? y) && (1 <=? mo) && (mo <=? 12) && (1 <=? d) && (d <=? 31)
            && (h <? 24) && (mi <? 60) && (se <? 60))%nat
        then Some (mkInstant y mo d h mi se off)
        else None
    | _, _, _, _, _, _, _ => None
    end
  else None.

Definition library : Library := {|
  pyfloat := num;
  float_of_str := num_of_str;
  float_one := mkNum false 1 1;
  float_is_zero := fun x => (numer x =? 0)%nat;
  float_div := num_div;
  datetime := instant;
  fromisoformat := fun s =>
    match parse_instant s with
    | Some i => inl i
    | None => inr ("Invalid isoformat string: " ++ PyRepr.repr s)
    end;
  geom := string;
  no_endswith :=
    "'cython_function_or_method' object has no attribute 'endswith'"
|}.

End Ref.

(** ** Documents used as examples *)

Module Fixture.

Definition ns : Namespaces :=
  mkNamespaces "http://www.adv-online.de/namespaces/adv/gid/7.1"
               "http://www.opengis.net/wfs/2.0"
               "http://www.opengis.net/gml/3.2".

Definition el (t : string) (a : list (string * string)) (x : option string)
    (cs : list Element) : Element := mkElement t a x cs.

(** [<ax:name>text</ax:name>] *)
Definition leaf (name txt : string) : Element :=
  el (ax ns name) [] (Some txt) [].

(** [<ax:name xlink:href="target"/>] *)
Definition link (name target : string) : Element :=
  el (ax ns name) [(XLINK_HREF, target)] None [].

Definition pos (txt : string) : Element := el (gml ns "pos") [] (Some txt) [].

(** [<!--txt-->] *)
Definition comment (txt : string) : Element := el "<!--" [] (Some txt) [].

(** [<ax:entity gml:id="id">...</ax:entity>] *)
Definition feature (entity id : string) (cs : list Element) : Element :=
  el (ax ns entity) [(GML_ID, id)] None cs.

(** The same without the [gml:id] attribute. *)
Definition anonymous (entity : string) (cs : list Element) : Element :=
  el (ax ns entity) [] None cs.

Definition member (feat : Element) : Element := el (wfs ns "member") [] None [feat].

(** [<ax:enthaelt><wfs:FeatureCollection>members</...></ax:enthaelt>] *)
Definition collection (members : list Element) : Element :=
  el (ax ns "enthaelt") [] None [el (wfs ns "FeatureCollection") [] None members].

(** The document of [tests/test_ax_extract_xml_logic.py]. *)
Definition simple_xml : Element :=
  collection
    [ member (feature "AX_Flurstueck" "urn:adv:oid:123" [pos "10 20"]);
      member (feature "AX_Flurstueck" "urn:adv:oid:999" [pos "42"]) ].

Definition lifetime (txt : string) : Element :=
  el (ax ns "lebenszeitintervall") [] None
    [el (ax ns "AA_Lebenszeitintervall") [] None [leaf "beginnt" txt]].

Definition share (zaehler nenner : string) : Element :=
  el (ax ns "anteil") [] None
    [el (ax ns "AX_Anteil") [] None [leaf "zaehler" zaehler; leaf "nenner" nenner]].

Definition crs_declaration (href : string) : Element :=
  el (ax ns "koordinatenangaben") [] None
    [el (ax ns "AA_Koordinatenreferenzsystemangaben") [] None
       [link "crs" href; leaf "standard" "true"]].

(** A document with one feature of each of the six types other than the
    name entry, and a member for each of the features [more]. *)
Definition cadastre (more : list Element) : Element :=
  el "root" [] None
    [ crs_declaration "urn:adv:crs:ETRS89_UTM33";
      collection
        ([ member (feature "AX_Flurstueck" "F1"
                     [leaf "flurstueckskennzeichen" "12-3";
                      leaf "amtlicheFlaeche" "250";
                      link "istGebucht" "urn:adv:oid:S1"; pos "10 20"]);
           member (feature "AX_Person" "P1"
                     [leaf "nachnameOderFirma" "Muster";
                      link "hat" "urn:adv:oid:A1"]);
           member (feature "AX_Buchungsblattbezirk" "Z1"
                     [leaf "bezeichnung" "Mitte"]);
           member (feature "AX_Buchungsblatt" "B1"
                     [lifetime "2024-10-27T12:34:56Z"]);
           member (feature "AX_Anschrift" "A1" [leaf "ort_Post" "Potsdam"]);
           member (feature "AX_Buchungsstelle" "S1"
                     [link "istBestandteilVon" "urn:adv:oid:B1"]) ]
         ++ map member more)%list ].

Definition document (root : Element) (layer : list (string * string))
  : @Document Ref.library :=
  @mkDocument Ref.library (Ok ns) (Ok (Some root)) (fun _ => Ok layer).

(** The parcel layer as decoded from the bytes: two parcels. *)
Definition layer : list (string * string) :=
  [ ("urn:adv:oid:F1", "POLYGON ((0 0, 10 0, 10 20, 0 0))");
    ("urn:adv:oid:F2", "POLYGON ((42))") ].

Definition name_entry (id zaehler nenner : string) : Element :=
  feature "AX_Namensnummer" id
    [share zaehler nenner; link "benennt" "urn:adv:oid:P1"].

(** A document in which every position has two coordinates, with one
    feature of each of the seven types; the parcel holds its
    [gml:identifier] and a point. *)
Definition sound_root : Element :=
  el (ax ns "AX_Bestandsdatenauszug") [] None
    [ crs_declaration "urn:adv:crs:ETRS89_UTM33";
      collection
        [ member (feature "AX_Flurstueck" "F1"
                    [el (gml ns "identifier")
                        [("codeSpace", "http://www.adv-online.de/")]
                        (Some "urn:adv:oid:F1") [];
                     leaf "flurstueckskennzeichen" "12-3";
                     leaf "amtlicheFlaeche" "250";
                     link "istGebucht" "urn:adv:oid:S1";
                     el (ax ns "position") [] None
                        [el (gml ns "Point") [] None [pos "10 20"]]]);
          member (feature "AX_Person" "P1"
                    [leaf "nachnameOderFirma" "Muster";
                     link "hat" "urn:adv:oid:A1"]);
          member (feature "AX_Buchungsblattbezirk" "Z1"
                    [leaf "bezeichnung" "Mitte"]);
          member (feature "AX_Buchungsblatt" "B1"
                    [lifetime "2024-10-27T12:34:56Z"]);
          member (feature "AX_Anschrift" "A1" [leaf "ort_Post" "Potsdam"]);
          member (name_entry "N1" "1" "2");
          member (feature "AX_Buchungsstelle" "S1"
                    [link "istBestandteilVon" "urn:adv:oid:B1"]) ] ].

(** The parcel layer of that document: the identifier of the parcel and
    its geometry. *)
Definition layer_f1 : list (string * string) :=
  [ ("urn:adv:oid:F1", "POINT (10 20)") ].

Definition doc_sound : @Document Ref.library :=
  document sound_root layer_f1.

(** A name entry with the share 1/0. *)
Definition doc_zero_share : @Document Ref.library :=
  document (cadastre [name_entry "N1" "1" "2"; name_entry "N2" "1" "0"]) layer.

(** The same share on a name entry without [gml:id]. *)
Definition doc_zero_share_anonymous : @Document Ref.library :=
  document (cadastre [name_entry "N1" "1" "2";
                      anonymous "AX_Namensnummer" [share "1" "0"]]) layer.

(** A second booking entry, without [istBestandteilVon]. *)
Definition doc_second_booking : @Document Ref.library :=
  document (cadastre [name_entry "N1" "1" "2";
                      feature "AX_Buchungsstelle" "S2"
                        [leaf "buchungsart" "1100"]]) layer.

(** A second ledger district, without [gml:id]. *)
Definition doc_anonymous_district : @Document Ref.library :=
  document (cadastre [name_entry "N1" "1" "2";
                      anonymous "AX_Buchungsblattbezirk"
                        [leaf "bezeichnung" "Nord"]]) layer.

(** A second address whose [gml:id] carries the prefix. *)
Definition doc_prefixed_id : @Document Ref.library :=
  document (cadastre [name_entry "N1" "1" "2";
                      feature "AX_Anschrift" "urn:adv:oid:A2"
                        [leaf "ort_Post" "Berlin"]]) layer.

End Fixture.

(** ** Notions used to state the properties *)

(** [a.lower() == b.lower()] on ASCII letters. *)
Fixpoint same_ignoring_case (a b : string) : bool :=
  match a, b with
  | EmptyString, EmptyString => true
  | String x a', String y b' =>
      Ascii.eqb (Regex.lower x) (Regex.lower y) && same_ignoring_case a' b'
  | _, _ => false
  end.

Fixpoint all_digits (s : string) : bool :=
  match s with
  | EmptyString => true
  | String c s' => Regex.is_digit c && all_digits s'
  end.






(** The order in which [__post_init__] calls its methods. *)
Definition init_order : list Call :=
  [ Call_get_namespaces; Call_parse_xml_file;
    Call_extract_original_crs_from_xml; Call_get_flurstueck_geometry;
    Call_remove_broken_members; Call_get_ax_flurstueck_data;
    Call_get_ax_person_data; Call_get_ax_buchungsblattbezirk_data;
    Call_get_ax_buchungsblatt_data; Call_get_ax_anschrift_data;
    Call_get_ax_namensnummer_data; Call_get_ax_buchungsstelle_data ].

Definition Call_eqb (a b : Call) : bool :=
  match a, b with
  | Call_get_namespaces, Call_get_namespaces
  | Call_parse_xml_file, Call_parse_xml_file
  | Call_extract_original_crs_from_xml, Call_extract_original_crs_from_xml
  | Call_get_flurstueck_geometry, Call_get_flurstueck_geometry
  | Call_remove_broken_members, Call_remove_broken_members
  | Call_get_ax_flurstueck_data, Call_get_ax_flurstueck_data
  | Call_get_ax_person_data, Call_get_ax_person_data
  | Call_get_ax_buchungsblattbezirk_data, Call_get_ax_buchungsblattbezirk_data
  | Call_get_ax_buchungsblatt_data, Call_get_ax_buchungsblatt_data
  | Call_get_ax_anschrift_data, Call_get_ax_anschrift_data
  | Call_get_ax_namensnummer_data, Call_get_ax_namensnummer_data
  | Call_get_ax_buchungsstelle_data, Call_get_ax_buchungsstelle_data => true
  | _, _ => false
  end.

(** In the history [cs], a call of [a] comes before the first call of
    [b]. *)
Fixpoint called_before (a b : Call) (cs : list Call) : bool :=
  match cs with
  | [] => false
  | c :: cs' =>
      if Call_eqb c b then false
      else if Call_eqb c a then true
      else called_before a b cs'
  end.

Definition was_called (a : Call) (cs : list Call) : bool :=
  existsb (Call_eqb a) cs.

(** A computation that calls none of the methods of [init_order]. *)
Definition keeps_calls {A} (m : M A) : Prop :=
  forall w, calls (snd (m w)) = calls w.

(** A computation whose calls are the first ones of [order], as many as it
    gets to. *)
Definition follows (order : list Call) {A} (m : M A) : Prop :=
  forall w, exists n, calls (snd (m w)) = (calls w ++ firstn n order)%list.

(** What the specification asks of the history of a run: the tree is
    sanitized before the layer is decoded. *)
Definition sanitizes_before_decoding (cs : list Call) : Prop :=
  was_called Call_get_flurstueck_geometry cs = true ->
  called_before Call_remove_broken_members Call_get_flurstueck_geometry cs
  = true.

(** A name entry that the loop does not skip and whose share has a
    numerator that is a number and a denominator that is zero. *)
Definition zero_share {L : Library} (ns : Namespaces) (e : Element) : Prop :=
  PyStr.truthy (ET.get e GML_ID) = true
  /\ exists (z n : string) (x y : pyfloat),
       ET.findtext e [ax ns "anteil"; ax ns "AX_Anteil"; ax ns "zaehler"] = Some z
       /\ ET.findtext e [ax ns "anteil"; ax ns "AX_Anteil"; ax ns "nenner"] = Some n
       /\ float_of_str z = Some x /\ float_of_str n = Some y
       /\ float_is_zero y = true.

(** A name entry as the specification describes it: both texts of the
    share are there and the denominator is zero. *)
Definition zero_denominator {L : Library} (ns : Namespaces) (e : Element)
  : Prop :=
  exists (z n : string) (y : pyfloat),
    ET.findtext e [ax ns "anteil"; ax ns "AX_Anteil"; ax ns "zaehler"] = Some z
    /\ ET.findtext e [ax ns "anteil"; ax ns "AX_Anteil"; ax ns "nenner"] = Some n
    /\ float_of_str n = Some y /\ float_is_zero y = true.

(** A name entry on which the loop raises nothing: it is skipped, or its
    share can be computed. *)
Definition share_computes {L : Library} (ns : Namespaces) (e : Element)
  : Prop :=
  PyStr.truthy (ET.get e GML_ID) = false
  \/ exists x,
       ax_anteil_of
         (ET.findtext e [ax ns "anteil"; ax ns "AX_Anteil"; ax ns "zaehler"])
         (ET.findtext e [ax ns "anteil"; ax ns "AX_Anteil"; ax ns "nenner"])
       = Ok x.

(** The element gets past [if not gml_id]: the identity attribute is
    there and is not empty. *)
Definition has_id (e : Element) : bool := PyStr.truthy (ET.get e GML_ID).


(** A cross-reference as it is to be stored: the link target of the child
    [ax:child], stripped of the prefix, or [None] without a target. *)
Definition stripped_href (ns : Namespaces) (e : Element) (child : string)
  : option string :=
  option_map remove_gml_id_prefix (find_attr e [ax ns child] XLINK_HREF).

(** The identifier and the cross-references of a row, against the element
    the row is made from. *)
Definition flurstueck_ids {L : Library} (ns : Namespaces)
    (row : Flurstueck.Row) (e : Element) : Prop :=
  ET.get e GML_ID = Some (Flurstueck.ax_flurstueck_id row)
  /\ Flurstueck.ax_buchungsstelle_id row = stripped_href ns e "istGebucht"
  /\ Flurstueck.ax_lagebezeichnung_ohne_hausnummer_id row
     = stripped_href ns e "zeigtAuf".

Definition person_ids {L : Library} (ns : Namespaces)
    (row : Person.Row) (e : Element) : Prop :=
  ET.get e GML_ID = Some (Person.ax_person_id row)
  /\ Person.ax_anschrift_id row = stripped_href ns e "hat".

Definition buchungsblattbezirk_ids {L : Library}
    (row : Buchungsblattbezirk.Row) (e : Element) : Prop :=
  Buchungsblattbezirk.ax_buchungsblattbezirk_id row = ET.get e GML_ID.

Definition buchungsblatt_ids {L : Library}
    (row : Buchungsblatt.Row) (e : Element) : Prop :=
  Buchungsblatt.ax_buchungsblatt_id row = ET.get e GML_ID.

Definition anschrift_ids {L : Library} (row : Anschrift.Row) (e : Element)
  : Prop :=
  ET.get e GML_ID = Some (Anschrift.ax_anschrift_id row).

Definition namensnummer_ids {L : Library} (ns : Namespaces)
    (row : Namensnummer.Row) (e : Element) : Prop :=
  ET.get e GML_ID = Some (Namensnummer.ax_namensnummer_id row)
  /\ Namensnummer.ax_person_id row = stripped_href ns e "benennt"
  /\ Namensnummer.ax_buchungsblatt_id row
     = stripped_href ns e "istBestandteilVon"
  /\ Namensnummer.besteht_aus_rechtsverhaeltnissen_zu row
     = stripped_href ns e "bestehtAusRechtsverhaeltnissenZu".

(** For a booking entry the reference is that of the element when the
    element has one. *)
Definition buchungsstelle_ids (ns : Namespaces)
    (row : Buchungsstelle.Row) (e : Element) : Prop :=
  ET.get e GML_ID = Some (Buchungsstelle.ax_buchungsstelle_id row)
  /\ (forall href,
         find_attr e [ax ns "istBestandteilVon"] XLINK_HREF = Some href ->
         Buchungsstelle.ax_buchungsblatt_id row
         = Some (remove_gml_id_prefix href)).

(** The value [v] is the stripped link target [ax:child] of one of [els]. *)
Definition stripped_href_of (ns : Namespaces) (els : list Element)
    (child : string) (v : string) : Prop :=
  exists e href,
    In e els /\ find_attr e [ax ns child] XLINK_HREF = Some href
    /\ v = remove_gml_id_prefix href.

(** [p] is an initial segment of [q]. *)
Fixpoint is_prefix (p q : list nat) : bool :=
  match p, q with
  | [], _ => true
  | i :: p', j :: q' => Nat.eqb i j && is_prefix p' q'
  | _ :: _, [] => false
  end.

(** The node at the path [q] goes when the nodes at [ps] are removed: it
    is one of them or lies below one. *)
Definition removed_with (ps : list (list nat)) (q : list nat) : bool :=
  existsb (fun p => is_prefix p q) ps.

(** What a node is apart from its children and its position among its
    siblings: the tags of its ancestors, parent first, and its own tag,
    attributes and text. *)
Definition Label : Type :=
  list string * string * list (string * string) * option string.

Definition label (n : ET.Node) : Label :=
  (ET.node_ancestors n, tag (ET.node_elem n), attrib (ET.node_elem n),
   text (ET.node_elem n)).

(** The content of a tree: its nodes in document order. *)
Definition labels (e : Element) : list Label :=
  map label (ET.nodes_from [] [] e).

(** A label of a subtree, seen from a tree that holds the subtree under
    the ancestors [anc]. *)
Definition under (anc : list string) (l : Label) : Label :=
  let '(a, t, kvs, x) := l in ((a ++ anc)%list, t, kvs, x).

(** A node of a subtree, seen from a tree that holds the subtree at the
    path [here] under the ancestors [anc]. *)
Definition relocate (anc : list string) (here : list nat) (n : ET.Node)
  : ET.Node :=
  ET.mkNode (here ++ ET.node_path n) (ET.node_ancestors n ++ anc)
            (ET.node_elem n).

(** The paths of [ps] that lead below the node at the path [p], from
    that node. *)
Fixpoint paths_under (p : list nat) (ps : list (list nat))
  : list (list nat) :=
  match p with
  | [] => ps
  | i :: p' => paths_under p' (ET.paths_below i ps)
  end.

(** A node as a query sees it: its ancestors and the element. *)
Definition seen (n : ET.Node) : list string * Element :=
  (ET.node_ancestors n, ET.node_elem n).

(** The number of ancestors of a labelled node. *)
Definition depth (l : Label) : nat :=
  let '(a, _, _, _) := l in List.length a.

(** The containers [remove_broken_members] visits in [root]. *)
Definition member_steps (ns : Namespaces) (root : Element) : list string :=
  match ET.xpath_nodes root
          [ax ns "enthaelt"; wfs ns "FeatureCollection"; wfs ns "member"] with
  | [] => [ax ns "enthaelt"; wfs ns "FeatureCollection"; gml ns "featureMember"]
  | _ => [ax ns "enthaelt"; wfs ns "FeatureCollection"; wfs ns "member"]
  end.

(** The URI that the last declaration of the prefix [p] in the document
    gives it. *)
Fixpoint declared (start_ns : list (string * string)) (p : string)
  : option string :=
  match start_ns with
  | [] => None
  | (k, v) :: rest =>
      match declared rest p with
      | Some u => Some u
      | None => if String.eqb k p then Some v else None
      end
  end.

(** The last URI among [items] that is one of the two of
    [target_ax_uri_list]. *)
Fixpoint last_target (items : list (string * string)) : option string :=
  match items with
  | [] => None
  | (_, v) :: rest =>
      match last_target rest with
      | Some u => Some u
      | None => if is_target v then Some v else None
      end
  end.

(** The character [c] does not occur in [s]. *)
Fixpoint lacks (c : ascii) (s : string) : bool :=
  match s with
  | EmptyString => true
  | String d s' => negb (Ascii.eqb c d) && lacks c s'
  end.

(** The declarations of a reference system that
    [extract_original_crs_from_xml] looks through. *)
Definition crs_declarations (ns : Namespaces) (root : Element) : list Element :=
  ET.xpath root
    [ax ns "koordinatenangaben"; ax ns "AA_Koordinatenreferenzsystemangaben"].

(** The declaration is marked as the standard one. *)
Definition is_standard (ns : Namespaces) (angabe : Element) : bool :=
  match ET.findtext angabe [ax ns "standard"] with
  | Some t => String.eqb t "true"
  | None => false
  end.

(** Every character of [s] is white space, and none is. *)
Fixpoint all_space (s : string) : bool :=
  match s with
  | EmptyString => true
  | String c s' => PyStr.isspace c && all_space s'
  end.

Fixpoint no_space (s : string) : bool :=
  match s with
  | EmptyString => true
  | String c s' => negb (PyStr.isspace c) && no_space s'
  end.

(** The rows of the person table against the elements: the row of an
    element with an id has the identifier and the address of the element;
    the row of an element without one is the row before it, [prev]
    being the row before the first. *)
Fixpoint person_rows_follow {L : Library} (ns : Namespaces)
    (prev : option Person.Row) (rows : list Person.Row) (els : list Element)
  : Prop :=
  match rows, els with
  | [], [] => True
  | row :: rows', e :: els' =>
      (if has_id e then person_ids ns row e else prev = Some row)
      /\ person_rows_follow ns (Some row) rows' els'
  | _, _ => False
  end.

(** The first of the elements has an id. *)
Definition first_has_id (els : list Element) : bool :=
  match els with
  | e :: _ => has_id e
  | [] => false
  end.

(** What the locals of [get_ax_person_data] hold between two iterations,
    against the row appended last. *)
Definition person_state {L : Library} (v : PersonLocals)
    (prev : option Person.Row) : Prop :=
  match prev with
  | Some row => forall w, person_append v w = (Ok row, w)
  | None => pl_identifier v = None
  end.

(** The text of the last of the children [cs] whose tag ends with
    [suffix], [None] without such a child. *)
Definition last_text (suffix : string) (cs : list Element) : option string :=
  match find (fun c => PyStr.endswith (tag c) suffix) (rev cs) with
  | Some c => text c
  | None => None
  end.

(** The children of the key element at [path] below [e]. *)
Definition key_children (e : Element) (path : list string) : list Element :=
  match ET.find e path with
  | Some key => children key
  | None => []
  end.

(** No child node of the key element at [path] below [e] is a comment or
    a processing instruction. *)
Definition plain_key (e : Element) (path : list string) : bool :=
  forallb (fun c => negb (is_comment_or_pi c)) (key_children e path).

(** The keys that the ledger district loop goes through on [e] hold
    elements only, and so does the key of the ledger loop. *)
Definition buchungsblattbezirk_plain (ns : Namespaces) (e : Element) : bool :=
  plain_key e [ax ns "schluessel"; ax ns "AX_Buchungsblattbezirk_Schluessel"]
  && plain_key e [ax ns "gehoertZu"; ax ns "AX_Dienststelle_Schluessel"].

Definition buchungsblatt_plain (ns : Namespaces) (e : Element) : bool :=
  plain_key e
    [ax ns "buchungsblattbezirk"; ax ns "AX_Buchungsblattbezirk_Schluessel"].

(** The key columns of a row of the ledger district table, against the
    element of the row. *)
Definition buchungsblattbezirk_keys {L : Library} (ns : Namespaces)
    (row : Buchungsblattbezirk.Row) (e : Element) : Prop :=
  let key :=
    key_children e [ax ns "schluessel"; ax ns "AX_Buchungsblattbezirk_Schluessel"] in
  let office :=
    key_children e [ax ns "gehoertZu"; ax ns "AX_Dienststelle_Schluessel"] in
  Buchungsblattbezirk.ax_buchungsblattbezirk_schluessel_land row
  = last_text "land" key
  /\ Buchungsblattbezirk.ax_buchungsblattbezirk_schluessel_bezirk row
     = last_text "bezirk" key
  /\ Buchungsblattbezirk.ax_dienststelle_schluessel_land row
     = last_text "land" office
  /\ Buchungsblattbezirk.ax_dienststelle_schluessel_stelle row
     = last_text "stelle" office
  /\ Buchungsblattbezirk.gehoert_zu_ax_dienststelle_schluessel_stelle row
     = Buchungsblattbezirk.ax_dienststelle_schluessel_stelle row.

(** The joined key of a ledger row: with both parts there and not empty
    it is the two put together, and it is never anything else than two
    non-empty texts put together. *)
Definition joined_key (land bezirk gesamt : option string) : Prop :=
  (forall l b,
      land = Some l -> bezirk = Some b ->
      l <> EmptyString -> b <> EmptyString -> gesamt = Some (l ++ b))
  /\ (forall s,
         gesamt = Some s ->
         exists l b, l <> EmptyString /\ b <> EmptyString /\ s = l ++ b).

(** The key columns of a row of the ledger table, against the element of
    the row. *)
Definition buchungsblatt_keys {L : Library} (ns : Namespaces)
    (row : Buchungsblatt.Row) (e : Element) : Prop :=
  let key :=
    key_children e
      [ax ns "buchungsblattbezirk"; ax ns "AX_Buchungsblattbezirk_Schluessel"] in
  Buchungsblatt.land row = last_text "land" key
  /\ Buchungsblatt.bezirk row = last_text "bezirk" key
  /\ joined_key (Buchungsblatt.land row) (Buchungsblatt.bezirk row)
       (Buchungsblatt.schluessel_gesamt row)
  /\ (key = [] -> Buchungsblatt.schluessel_gesamt row = None).

(** The share of a row of the name entry table, against the element of
    the row: one without both texts, their quotient otherwise. *)
Definition share_of {L : Library} (ns : Namespaces)
    (row : Namensnummer.Row) (e : Element) : Prop :=
  match ET.findtext e [ax ns "anteil"; ax ns "AX_Anteil"; ax ns "zaehler"],
        ET.findtext e [ax ns "anteil"; ax ns "AX_Anteil"; ax ns "nenner"] with
  | Some z, Some n =>
      exists x y,
        float_of_str z = Some x /\ float_of_str n = Some y
        /\ float_is_zero y = false
        /\ Namensnummer.anteil row = float_div x y
  | _, _ => Namensnummer.anteil row = float_one
  end.

(** The elements of a list that the loops skip: those without a
    non-empty id. *)
Definition skipped (els : list Element) : list Element :=
  filter (fun e => negb (has_id e)) els.

(** The lines that [get_aa_lebenszeitintervall_beginnt] prints on an
    element, and those of the conversion of the area of a parcel. *)
Definition beginnt_lines {L : Library} (ns : Namespaces) (e : Element)
  : list string :=
  stdout (snd (get_aa_lebenszeitintervall_beginnt ns e World0)).

Definition flaeche_lines {L : Library} (ns : Namespaces) (e : Element)
  : list string :=
  stdout (snd (amtliche_flaeche_of ns e World0)).

(** The lines of the parcel loop and of the address loop for one
    element. *)
Definition flurstueck_lines {L : Library} (ns : Namespaces) (e : Element)
  : list string :=
  if has_id e then (flaeche_lines ns e ++ beginnt_lines ns e)%list
  else ["No gml:id found for flurstueck, skipping..."].

Definition anschrift_lines {L : Library} (ns : Namespaces) (e : Element)
  : list string :=
  if has_id e then beginnt_lines ns e
  else ["No gml:id found for namensnummer, skipping..."].

(** The seven entity types of an extract. *)
Definition entity_types : list string :=
  [ "AX_Flurstueck"; "AX_Person"; "AX_Buchungsblattbezirk"; "AX_Buchungsblatt";
    "AX_Anschrift"; "AX_Namensnummer"; "AX_Buchungsstelle" ].

(** The nodes of the parcels that the two queries of
    [get_ax_flurstueck_data] can find in [root]. *)
Definition flurstueck_nodes (ns : Namespaces) (root : Element) : list ET.Node :=
  (ET.xpath_nodes root
     [ax ns "enthaelt"; wfs ns "FeatureCollection"; wfs ns "member";
      ax ns "AX_Flurstueck"]
   ++ ET.xpath_nodes root
        [ax ns "enthaelt"; wfs ns "FeatureCollection"; gml ns "featureMember";
         ax ns "AX_Flurstueck"])%list.

(** * Properties *)

(** ** Prefix stripping *)

Lemma remove_gml_id_prefix_without_prefix (s : string) :
  PyStr.startswith s ID_NAMESPACE = false -> remove_gml_id_prefix s = s.
Proof.
  intros H. unfold remove_gml_id_prefix. now rewrite H.
Qed.

Lemma remove_gml_id_prefix_idempotent_without_prefix (s : string) :
  PyStr.startswith s ID_NAMESPACE = false ->
  remove_gml_id_prefix (remove_gml_id_prefix s) = remove_gml_id_prefix s.
Proof.
  intros H. now rewrite !(remove_gml_id_prefix_without_prefix s H).
Qed.

(** The tests of the repository. *)
Example test_remove_gml_id_prefix_strips_namespace :
  remove_gml_id_prefix (ID_NAMESPACE ++ "foobar") = "foobar".
Proof. reflexivity. Qed.

Example test_remove_gml_id_prefix_leaves_other_strings :
  remove_gml_id_prefix "something_else" = "something_else".
Proof. reflexivity. Qed.

Example test_remove_crs_prefix_strips_namespace :
  remove_crs_prefix (CRS_NAMESPACE ++ "ETRS89_UTM33") = "ETRS89_UTM33".
Proof. reflexivity. Qed.

(** C5.  Stripping is a total function that returns a string without the
    prefix as it is; on the string below, where taking out every
    occurrence of the prefix puts a new one together at the front, a
    second stripping changes the result of the first, so stripping is not
    idempotent. *)
Theorem remove_gml_id_prefix_twice :
  let x := "urn:adv:oid:urn:adv:urn:adv:oid:oid:X" in
  remove_gml_id_prefix x = "urn:adv:oid:X"
  /\ remove_gml_id_prefix (remove_gml_id_prefix x) = "X"
  /\ remove_gml_id_prefix (remove_gml_id_prefix x) <> remove_gml_id_prefix x.
Proof.
  cbv zeta. repeat split; try reflexivity.
  vm_compute. discriminate.
Qed.

(** ** The name of the reference system *)

Lemma match_literal_app (lit p rest : string) :
  same_ignoring_case lit p = true ->
  Regex.match_literal lit (p ++ rest) = Some rest.
Proof.
  revert p. induction lit as [|a lit IH]; intros [|b p] H; simpl in *;
    try discriminate; try reflexivity.
  apply andb_true_iff in H as [Hc Hs]. rewrite Hc. now apply IH.
Qed.

Lemma span_digits_all (ds : string) :
  all_digits ds = true -> Regex.span_digits ds = (ds, EmptyString).
Proof.
  induction ds as [|c ds IH]; simpl; intros H; [reflexivity|].
  apply andb_true_iff in H as [Hc Hs]. rewrite Hc, (IH Hs). reflexivity.
Qed.

Lemma pattern_match_digits (p ds : string) :
  same_ignoring_case "ETRS89_UTM" p = true ->
  all_digits ds = true -> ds <> EmptyString ->
  Regex.pattern_match (p ++ ds) = Some ds.
Proof.
  intros Hp Hd Hne. unfold Regex.pattern_match.
  rewrite (match_literal_app _ _ _ Hp), (span_digits_all _ Hd).
  destruct ds; [contradiction|reflexivity].
Qed.

Lemma format_crs_name_digits (p ds : string) :
  same_ignoring_case "ETRS89_UTM" p = true ->
  all_digits ds = true -> ds <> EmptyString ->
  format_crs_name (p ++ ds) = Ok ("ETRS89 / UTM zone " ++ ds ++ "N").
Proof.
  intros Hp Hd Hne. unfold format_crs_name.
  now rewrite (pattern_match_digits _ _ Hp Hd Hne).
Qed.




Lemma prefix_cons (a c : ascii) (p s : string) :
  prefix (String a p) (String c s)
  = if Ascii.ascii_dec a c then prefix p s else false.
Proof. reflexivity. Qed.



(** The domain of the pattern: the literal in any case, digits, and
    nothing more but for one newline at the very end, which [$] lets
    through. *)
Lemma match_literal_inv (lit s rest : string) :
  Regex.match_literal lit s = Some rest ->
  exists p, same_ignoring_case lit p = true /\ s = p ++ rest.
Proof.
  revert s. induction lit as [|a lit IH]; intros s H; simpl in H.
  - exists EmptyString. split; [reflexivity|]. now inversion H.
  - destruct s as [|b s]; [discriminate|].
    destruct (Ascii.eqb (Regex.lower a) (Regex.lower b)) eqn:E; [|discriminate].
    destruct (IH _ H) as (p & Hp & ->).
    exists (String b p). split; [|reflexivity]. simpl. now rewrite E.
Qed.

Lemma span_digits_inv (s ds tail : string) :
  Regex.span_digits s = (ds, tail) -> all_digits ds = true /\ s = ds ++ tail.
Proof.
  revert ds tail. induction s as [|c s IH]; intros ds tail H; simpl in H.
  - inversion H. now split.
  - destruct (Regex.is_digit c) eqn:E.
    + destruct (Regex.span_digits s) as [ds' tail'] eqn:Es.
      inversion H; subst. destruct (IH _ _ eq_refl) as [Hd ->].
      split; [simpl; now rewrite E|reflexivity].
    + inversion H; subst. now split.
Qed.

Lemma pattern_match_inv (s zone : string) :
  Regex.pattern_match s = Some zone ->
  exists p,
    same_ignoring_case "ETRS89_UTM" p = true
    /\ all_digits zone = true /\ zone <> EmptyString
    /\ (s = p ++ zone \/ s = p ++ zone ++ String (ascii_of_nat 10) EmptyString).
Proof.
  unfold Regex.pattern_match. intros H.
  destruct (Regex.match_literal "ETRS89_UTM" s) as [rest|] eqn:El; [|discriminate].
  destruct (Regex.span_digits rest) as [ds tail] eqn:Es.
  destruct (PyStr.is_empty ds) eqn:Ee; [discriminate|].
  destruct (Regex.at_end tail) eqn:Ea; [|discriminate].
  inversion H; subst ds.
  destruct (match_literal_inv _ _ _ El) as (p & Hp & ->).
  destruct (span_digits_inv _ _ _ Es) as [Hd ->].
  exists p. repeat split; try assumption.
  - intros ->. discriminate.
  - destruct tail as [|c [|c' tail]]; simpl in Ea; try discriminate.
    + left. f_equal. clear. induction zone; simpl; congruence.
    + right. apply Nat.eqb_eq in Ea.
      rewrite <- (ascii_nat_embedding c), Ea. reflexivity.
Qed.

Lemma string_append_assoc (a b c : string) : (a ++ b) ++ c = a ++ (b ++ c).
Proof. induction a as [|x a IH]; [reflexivity|]. cbn. now rewrite IH. Qed.

Lemma span_digits_newline (zone : string) :
  all_digits zone = true ->
  Regex.span_digits (zone ++ String (ascii_of_nat 10) EmptyString)
  = (zone, String (ascii_of_nat 10) EmptyString).
Proof.
  induction zone as [|c zone IH]; intros H; [reflexivity|].
  cbn [all_digits] in H. apply andb_true_iff in H as [Hc Hz].
  cbn [append Regex.span_digits]. now rewrite Hc, (IH Hz).
Qed.

(** The newline that [$] lets through. *)
Example format_crs_name_trailing_newline :
  format_crs_name ("ETRS89_UTM33" ++ String (ascii_of_nat 10) EmptyString)
  = Ok "ETRS89 / UTM zone 33N".
Proof. reflexivity. Qed.

(** The tests of the repository. *)
Example test_format_crs_name_valid :
  format_crs_name "ETRS89_UTM33" = Ok "ETRS89 / UTM zone 33N"
  /\ format_crs_name "ETRS89_UTM32" = Ok "ETRS89 / UTM zone 32N"
  /\ format_crs_name "etrs89_utm33" = Ok "ETRS89 / UTM zone 33N".
Proof. repeat split. Qed.




(** ** The lifecycle timestamp *)

(** C8.  The helper never raises: on every element and in every state of
    the output stream it returns a value.  On the text
    [2024-10-27T12:34:56Z] it returns the instant that [fromisoformat]
    reads from [2024-10-27T12:34:56+00:00]; on a non-empty text that
    [fromisoformat] rejects once its [Z] is written as [+00:00], it prints
    one line and returns [None]. *)
Theorem get_aa_lebenszeitintervall_beginnt_never_raises
    {L : Library} (ns : Namespaces) :
  (forall (member : Element) (w : World),
      exists (v : option datetime) (w' : World),
        get_aa_lebenszeitintervall_beginnt ns member w = (Ok v, w'))
  /\ (forall (member beginnt : Element) (instant : datetime) (w : World),
         ET.find_desc member (ax ns "lebenszeitintervall")
           [ax ns "AA_Lebenszeitintervall"; ax ns "beginnt"] = Some beginnt ->
         text beginnt = Some "2024-10-27T12:34:56Z" ->
         fromisoformat "2024-10-27T12:34:56+00:00" = inl instant ->
         get_aa_lebenszeitintervall_beginnt ns member w = (Ok (Some instant), w))
  /\ (forall (member beginnt : Element) (t e : string) (w : World),
         ET.find_desc member (ax ns "lebenszeitintervall")
           [ax ns "AA_Lebenszeitintervall"; ax ns "beginnt"] = Some beginnt ->
         text beginnt = Some t -> t <> EmptyString ->
         fromisoformat (PyStr.replace t "Z" "+00:00") = inr e ->
         get_aa_lebenszeitintervall_beginnt ns member w
         = (Ok None, printed (t ++ " is not a valid datetime: " ++ e) w)).
Proof.
  split; [|split].
  - intros member w. unfold get_aa_lebenszeitintervall_beginnt.
    destruct (ET.find_desc _ _ _) as [beginnt|]; [|now eexists; eexists].
    destruct (text beginnt) as [t|]; [|now eexists; eexists].
    destruct (PyStr.is_empty t); [now eexists; eexists|].
    destruct (fromisoformat _); now eexists; eexists.
  - intros member beginnt instant w Hfind Htext Hparse.
    unfold get_aa_lebenszeitintervall_beginnt. rewrite Hfind, Htext.
    change (PyStr.replace "2024-10-27T12:34:56Z" "Z" "+00:00")
      with "2024-10-27T12:34:56+00:00".
    cbn [PyStr.is_empty]. now rewrite Hparse.
  - intros member beginnt t e w Hfind Htext Hne Hparse.
    unfold get_aa_lebenszeitintervall_beginnt. rewrite Hfind, Htext.
    destruct t as [|c t]; [contradiction|]. cbn [PyStr.is_empty].
    rewrite Hparse. reflexivity.
Qed.

Lemma get_aa_lebenszeitintervall_beginnt_never_raises_witness :
  get_aa_lebenszeitintervall_beginnt (L := Ref.library) Fixture.ns
    (Fixture.feature "AX_Flurstueck" "F1"
       [Fixture.lifetime "2024-10-27T12:34:56Z"]) World0
  = (Ok (Some (Ref.mkInstant 2024 10 27 12 34 56 (Some (false, 0)))), World0)
  /\ get_aa_lebenszeitintervall_beginnt (L := Ref.library) Fixture.ns
       (Fixture.feature "AX_Flurstueck" "F1" [Fixture.lifetime "not-a-datetime"])
       World0
     = (Ok None,
        mkWorld ["not-a-datetime is not a valid datetime: "
                 ++ "Invalid isoformat string: 'not-a-datetime'"] []).
Proof.
  destruct (get_aa_lebenszeitintervall_beginnt_never_raises
              (L := Ref.library) Fixture.ns) as (_ & Hutc & Hbad).
  split.
  - apply (Hutc _ (Fixture.leaf "beginnt" "2024-10-27T12:34:56Z"));
      reflexivity.
  - apply (Hbad _ (Fixture.leaf "beginnt" "not-a-datetime") "not-a-datetime"
             "Invalid isoformat string: 'not-a-datetime'" World0);
      [reflexivity|reflexivity|discriminate|reflexivity].
Defined.

(** ** The parcel table *)

Lemma in_merge {L : Library} (left : list GeomTable.Row)
    (right : list Flurstueck.Row) (r : Parcel.Row) :
  In r (merge left right)
  <-> In (Parcel.geo r) left /\ In (Parcel.fields r) right
      /\ GeomTable.ax_flurstueck_id (Parcel.geo r)
         = Flurstueck.ax_flurstueck_id (Parcel.fields r).
Proof.
  unfold merge. rewrite in_flat_map. split.
  - intros (l & Hl & Hr). apply in_map_iff in Hr as (f & <- & Hf).
    apply filter_In in Hf as [Hf Heq]. apply String.eqb_eq in Heq.
    simpl. auto.
  - intros (Hl & Hf & Heq). exists (Parcel.geo r). split; [exact Hl|].
    apply in_map_iff. exists (Parcel.fields r). split.
    + now destruct r.
    + apply filter_In. split; [exact Hf|]. now apply String.eqb_eq.
Qed.

(** C9.  The parcel table is the inner join of the geometry table with
    the scalar table on the parcel id: its rows are the pairs of a
    geometry row and a scalar row with the same id; so an id is in the
    table exactly when it is in both, and the ids found in one of the two
    only are left out, no exception raised and nothing printed. *)
Theorem get_ax_flurstueck_data_inner_join
    {L : Library} (ns : Namespaces) (xml_root : Element)
    (gdf_buf : list GeomTable.Row) :
  get_ax_flurstueck_data ns xml_root gdf_buf
  = (df <- flurstueck_scalars ns xml_root ;; ret (merge gdf_buf df))
  /\ (forall (df : list Flurstueck.Row) (r : Parcel.Row),
         In r (merge gdf_buf df)
         <-> In (Parcel.geo r) gdf_buf /\ In (Parcel.fields r) df
             /\ GeomTable.ax_flurstueck_id (Parcel.geo r)
                = Flurstueck.ax_flurstueck_id (Parcel.fields r))
  /\ (forall (df : list Flurstueck.Row) (id : string),
         In id (map (fun r => GeomTable.ax_flurstueck_id (Parcel.geo r))
                    (merge gdf_buf df))
         <-> In id (map GeomTable.ax_flurstueck_id gdf_buf)
             /\ In id (map Flurstueck.ax_flurstueck_id df)).
Proof.
  split; [reflexivity|]. split; [intros; apply in_merge|].
  intros df id. rewrite !in_map_iff. split.
  - intros (r & <- & Hr). apply in_merge in Hr as (Hg & Hf & Heq). split.
    + now exists (Parcel.geo r).
    + exists (Parcel.fields r). now split.
  - intros [(g & <- & Hg) (f & Heq & Hf)].
    exists (Parcel.mkRow g f). split; [reflexivity|].
    apply in_merge. simpl. auto.
Qed.

Lemma get_ax_flurstueck_data_inner_join_witness :
  let gdf := [GeomTable.mkRow (L := Ref.library) "F1" "POLYGON ((0 0, 1 0, 1 1))";
              GeomTable.mkRow (L := Ref.library) "F2" "POLYGON ((2 2, 3 2, 3 3))"] in
  let df := [Flurstueck.mkRow (L := Ref.library) "F1" None None None None None None;
             Flurstueck.mkRow (L := Ref.library) "F3" None None None None None None] in
  let ids := map (fun r => GeomTable.ax_flurstueck_id (Parcel.geo r)) (merge gdf df) in
  In "F1" ids /\ ~ In "F2" ids /\ ~ In "F3" ids.
Proof.
  intros gdf df ids.
  destruct (get_ax_flurstueck_data_inner_join (L := Ref.library)
              Fixture.ns Fixture.simple_xml gdf) as (_ & _ & Hids).
  split; [|split].
  - apply (Hids df "F1"). split; simpl; auto.
  - intros H. apply (Hids df "F2") in H as [_ H]. simpl in H.
    destruct H as [H | [H | []]]; discriminate H.
  - intros H. apply (Hids df "F3") in H as [H _]. simpl in H.
    destruct H as [H | [H | []]]; discriminate H.
Defined.

(** ** Removing the broken members *)

Lemma split_from_lstrip (s : string) :
  PyStr.split_from EmptyString (PyStr.lstrip s) = PyStr.split_from EmptyString s.
Proof.
  induction s as [|c s IH]; [reflexivity|]. simpl.
  destruct (PyStr.isspace c) eqn:E; [exact IH|]. simpl. now rewrite E.
Qed.

Lemma split_from_rstrip (s cur : string) :
  PyStr.split_from cur (PyStr.rstrip s) = PyStr.split_from cur s.
Proof.
  revert cur. induction s as [|c s IH]; intros cur; [reflexivity|]. simpl.
  destruct (PyStr.is_empty (PyStr.rstrip s)) eqn:Ee;
    destruct (PyStr.isspace c) eqn:Ec; simpl; rewrite ?Ec, ?IH; try reflexivity.
  rewrite <- (IH EmptyString).
  destruct (PyStr.rstrip s); [|discriminate]. simpl.
  now destruct (PyStr.is_empty cur).
Qed.

(** [strip] before [split] changes nothing. *)
Lemma split_strip (t : string) : PyStr.split (PyStr.strip t) = PyStr.split t.
Proof.
  unfold PyStr.split, PyStr.strip.
  now rewrite split_from_rstrip, split_from_lstrip.
Qed.

Lemma single_coordinate_iff (t : string) :
  single_coordinate t = true <-> List.length (PyStr.split t) = 1.
Proof.
  unfold single_coordinate. rewrite split_strip. apply Nat.eqb_eq.
Qed.

(** What the loop over the positions of one member does: it stops on the
    first text of a single token, having looked at the texts before it
    and at none after it; without such a text it looks at all of them. *)
Lemma scan_positions_stops (ps : list (option string)) :
  match scan_positions ps with
  | (true, seen) =>
      exists before t after,
        ps = (before ++ Some t :: after)%list
        /\ seen = (before ++ [Some t])%list
        /\ single_coordinate t = true
        /\ (forall t', In (Some t') before -> single_coordinate t' = false)
  | (false, seen) =>
      seen = ps /\ (forall t', In (Some t') ps -> single_coordinate t' = false)
  end.
Proof.
  induction ps as [|[t|] ps IH]; simpl.
  - split; [reflexivity|]. intros t' [].
  - destruct (single_coordinate t) eqn:E.
    + exists [], t, ps. repeat split; try assumption. intros t' [].
    + destruct (scan_positions ps) as [[|] seen].
      * destruct IH as (before & t0 & after & -> & -> & Ht0 & Hb).
        exists (Some t :: before), t0, after. repeat split; try assumption.
        intros t' [H | H]; [inversion H; now subst|now apply Hb].
      * destruct IH as [-> Hall]. split; [reflexivity|].
        intros t' [H | H]; [inversion H; now subst|now apply Hall].
  - destruct (scan_positions ps) as [[|] seen].
    + destruct IH as (before & t0 & after & -> & -> & Ht0 & Hb).
      exists (None :: before), t0, after. repeat split; try assumption.
      intros t' [H | H]; [discriminate|now apply Hb].
    + destruct IH as [-> Hall]. split; [reflexivity|].
      intros t' [H | H]; [discriminate|now apply Hall].
Qed.

Lemma is_broken_iff (ns : Namespaces) (member : Element) :
  is_broken ns member = true
  <-> exists t, In (Some t) (pos_texts ns member)
                /\ List.length (PyStr.split t) = 1.
Proof.
  unfold is_broken.
  pose proof (scan_positions_stops (pos_texts ns member)) as H.
  destruct (scan_positions (pos_texts ns member)) as [[|] seen]; simpl.
  - destruct H as (before & t & after & Hps & _ & Ht & _).
    split; [intros _|reflexivity]. exists t. split.
    + rewrite Hps. apply in_or_app. right. now left.
    + now apply single_coordinate_iff.
  - destruct H as [_ Hall]. split; [discriminate|].
    intros (t & Hin & Ht). apply single_coordinate_iff in Ht.
    rewrite (Hall t Hin) in Ht. discriminate.
Qed.

Lemma detach_nothing (e : Element) : ET.detach [] e = e.
Proof.
  revert e. fix IH 1. intros [t a x cs]. simpl. f_equal.
  generalize 0. induction cs as [|c cs IHcs]; intros i; [reflexivity|].
  simpl. now rewrite IH, IHcs.
Qed.

(** The document of the test: the member of [999] goes, that of [123]
    stays. *)
Example test_remove_broken_members_removes_single_coord_member :
  remove_broken_members Fixture.ns (Some Fixture.simple_xml)
  = Some (Fixture.collection
            [Fixture.member
               (Fixture.feature "AX_Flurstueck" "urn:adv:oid:123"
                  [Fixture.pos "10 20"])]).
Proof. reflexivity. Qed.

(** ** The order of the initialization *)

Lemma keeps_calls_ret {A} (a : A) : keeps_calls (ret a).
Proof. intros w. reflexivity. Qed.

Lemma keeps_calls_raise {A} (e : exn) : keeps_calls (raise (A := A) e).
Proof. intros w. reflexivity. Qed.

Lemma keeps_calls_print (line : string) : keeps_calls (print line).
Proof. intros w. reflexivity. Qed.

Lemma keeps_calls_lift {A} (r : result A) : keeps_calls (lift r).
Proof. intros w. reflexivity. Qed.

Lemma keeps_calls_bind {A B} (m : M A) (k : A -> M B) :
  keeps_calls m -> (forall a, keeps_calls (k a)) -> keeps_calls (bind m k).
Proof.
  intros Hm Hk w. unfold bind. specialize (Hm w).
  destruct (m w) as [[a|e] w1]; simpl in *; [|exact Hm].
  now rewrite (Hk a w1).
Qed.

Create HintDb keeps.
#[export] Hint Resolve keeps_calls_ret keeps_calls_raise keeps_calls_print
  keeps_calls_lift : keeps.

(** Takes a computation apart along its binds and case distinctions. *)
Ltac keeps :=
  repeat first
    [ progress auto with keeps
    | apply keeps_calls_bind; [|intros]
    | match goal with
      | |- keeps_calls (match ?x with _ => _ end) => destruct x
      | |- keeps_calls (if ?b then _ else _) => destruct b
      end ].

Section KeepsCalls.

Context {L : Library} (ns : Namespaces).

Lemma keeps_calls_beginnt (member : Element) :
  keeps_calls (get_aa_lebenszeitintervall_beginnt ns member).
Proof. unfold get_aa_lebenszeitintervall_beginnt. keeps. Qed.

Lemma keeps_calls_require (root : Element) (entity : string) :
  keeps_calls (require_elements ns root entity).
Proof. unfold require_elements. keeps. Qed.

Hint Resolve keeps_calls_beginnt keeps_calls_require : keeps.

Lemma keeps_calls_flurstueck (root : Element) (gdf : list GeomTable.Row) :
  keeps_calls (get_ax_flurstueck_data ns root gdf).
Proof.
  unfold get_ax_flurstueck_data, flurstueck_scalars. keeps.
  match goal with |- keeps_calls (flurstueck_loop _ ?l) => induction l end;
    simpl; unfold amtliche_flaeche_of; keeps.
Qed.

Lemma keeps_calls_person (root : Element) :
  keeps_calls (get_ax_person_data ns root).
Proof.
  unfold get_ax_person_data. keeps. generalize person_locals0.
  match goal with |- forall _, keeps_calls (person_loop _ _ ?l) => induction l end;
    intros v; simpl; unfold person_read, person_append; keeps.
Qed.

Lemma keeps_calls_buchungsblattbezirk (root : Element) :
  keeps_calls (get_ax_buchungsblattbezirk_data ns root).
Proof.
  unfold get_ax_buchungsblattbezirk_data. keeps.
  match goal with |- keeps_calls (buchungsblattbezirk_loop _ ?l) => induction l end;
    simpl; keeps.
Qed.

Lemma keeps_calls_buchungsblatt (root : Element) :
  keeps_calls (get_ax_buchungsblatt_data ns root).
Proof.
  unfold get_ax_buchungsblatt_data. keeps.
  match goal with |- keeps_calls (buchungsblatt_loop _ ?l) => induction l end;
    simpl; keeps.
Qed.

Lemma keeps_calls_anschrift (root : Element) :
  keeps_calls (get_ax_anschrift_data ns root).
Proof.
  unfold get_ax_anschrift_data. keeps.
  match goal with |- keeps_calls (anschrift_loop _ ?l) => induction l end;
    simpl; keeps.
Qed.

Lemma keeps_calls_namensnummer (root : Element) :
  keeps_calls (get_ax_namensnummer_data ns root).
Proof.
  unfold get_ax_namensnummer_data. keeps.
  match goal with |- keeps_calls (namensnummer_loop _ ?l) => induction l end;
    simpl; keeps.
Qed.

Lemma keeps_calls_buchungsstelle (root : Element) :
  keeps_calls (get_ax_buchungsstelle_data ns root).
Proof.
  unfold get_ax_buchungsstelle_data. keeps. generalize (@None string).
  match goal with |- forall _, keeps_calls (buchungsstelle_loop _ _ ?l) =>
    induction l end; intros bound; simpl; keeps.
Qed.

End KeepsCalls.

Lemma keeps_calls_parse (parsed : result (option Element)) :
  keeps_calls (parse_xml_file parsed).
Proof. unfold parse_xml_file. keeps. Qed.

Lemma follows_raise {A} (order : list Call) (e : exn) :
  follows order (raise (A := A) e).
Proof. intros w. exists 0. simpl. now rewrite app_nil_r. Qed.

Lemma follows_ret {A} (order : list Call) (a : A) : follows order (ret a).
Proof. intros w. exists 0. simpl. now rewrite app_nil_r. Qed.

Lemma follows_enter {A} (c : Call) (rest : list Call) (m : M A) :
  follows rest m -> follows (c :: rest) (enter c ;;; m).
Proof.
  intros Hm w. unfold bind. cbn [enter].
  destruct (Hm (entered c w)) as [n Hn].
  exists (S n). rewrite Hn. simpl. now rewrite <- app_assoc.
Qed.

Lemma follows_keeps {A B} (order : list Call) (m : M A) (k : A -> M B) :
  keeps_calls m -> (forall a, follows order (k a)) -> follows order (bind m k).
Proof.
  intros Hm Hk w. unfold bind. specialize (Hm w).
  destruct (m w) as [[a|e] w1]; simpl in *.
  - destruct (Hk a w1) as [n Hn]. exists n. now rewrite Hn, Hm.
  - exists 0. simpl. now rewrite app_nil_r.
Qed.

Lemma post_init_follows_init_order {L : Library} (doc : Document) :
  follows init_order (post_init doc).
Proof.
  unfold post_init, init_order.
  apply follows_enter, follows_keeps; [apply keeps_calls_lift|]. intros ns.
  apply follows_enter, follows_keeps; [apply keeps_calls_parse|].
  intros [root|]; apply follows_enter; [|apply follows_raise].
  apply follows_keeps; [apply keeps_calls_lift|]. intros crs.
  apply follows_enter, follows_keeps; [apply keeps_calls_lift|]. intros decoded.
  apply follows_enter. cbn [remove_broken_members].
  apply follows_enter, follows_keeps; [apply keeps_calls_flurstueck|]. intros fl.
  apply follows_enter, follows_keeps; [apply keeps_calls_person|]. intros pe.
  apply follows_enter, follows_keeps; [apply keeps_calls_buchungsblattbezirk|].
  intros bz.
  apply follows_enter, follows_keeps; [apply keeps_calls_buchungsblatt|]. intros bl.
  apply follows_enter, follows_keeps; [apply keeps_calls_anschrift|]. intros an.
  apply follows_enter, follows_keeps; [apply keeps_calls_namensnummer|]. intros na.
  apply follows_enter, follows_keeps; [apply keeps_calls_buchungsstelle|]. intros bs.
  apply follows_ret.
Qed.

(** Taking a successful run apart. *)
Lemma bind_ok_inv {A B} (m : M A) (k : A -> M B) (w w' : World) (b : B) :
  bind m k w = (Ok b, w') ->
  exists a w1, m w = (Ok a, w1) /\ k a w1 = (Ok b, w').
Proof.
  unfold bind. destruct (m w) as [[a|e] w1]; [|discriminate].
  intros H. now exists a, w1.
Qed.

Lemma lift_ok_inv {A} (r : result A) (w w' : World) (a : A) :
  lift r w = (Ok a, w') -> r = Ok a /\ w' = w.
Proof. unfold lift. intros H. inversion H. now split. Qed.

Lemma bind_raise {A B} (m : M A) (k : A -> M B) (w w' : World) (e : exn) :
  m w = (Raise e, w') -> bind m k w = (Raise e, w').
Proof. unfold bind. now intros ->. Qed.

Lemma bind_ok {A B} (m : M A) (k : A -> M B) (w w' : World) (a : A) :
  m w = (Ok a, w') -> bind m k w = k a w'.
Proof. unfold bind. now intros ->. Qed.

(** What a run of [__post_init__] that returns has gone through: the
    libraries gave a prefix map, a root and a decoded layer, the name of
    the reference system was found, and each extractor returned its table
    on the tree left by [remove_broken_members]. *)
Lemma post_init_ok_inv {L : Library} (doc : Document) (w w' : World)
    (ex : Extract) :
  post_init doc w = (Ok ex, w') ->
  exists (ns : Namespaces) (root root' : Element)
         (decoded : list (string * geom)),
    doc_namespaces doc = Ok ns /\ doc_root doc = Ok (Some root)
    /\ extract_original_crs_from_xml ns root = Ok (crs_name ex)
    /\ doc_layer doc (crs_name ex) = Ok decoded
    /\ remove_broken_members ns (Some root) = Some root'
    /\ xml_root ex = Some root' /\ namespaces ex = ns
    /\ (exists wa wb, get_ax_flurstueck_data ns root'
                        (get_flurstueck_geometry decoded) wa
                      = (Ok (ax_flurstueck ex), wb))
    /\ (exists wa wb, get_ax_person_data ns root' wa = (Ok (ax_person ex), wb))
    /\ (exists wa wb, get_ax_buchungsblattbezirk_data ns root' wa
                      = (Ok (ax_buchungsblattbezirk ex), wb))
    /\ (exists wa wb, get_ax_buchungsblatt_data ns root' wa
                      = (Ok (ax_buchungsblatt ex), wb))
    /\ (exists wa wb, get_ax_anschrift_data ns root' wa
                      = (Ok (ax_anschrift ex), wb))
    /\ (exists wa wb, get_ax_namensnummer_data ns root' wa
                      = (Ok (ax_namensnummer ex), wb))
    /\ (exists wa wb, get_ax_buchungsstelle_data ns root' wa
                      = (Ok (ax_buchungsstelle ex), wb)).
Proof.
  intros H. unfold post_init in H.
  apply bind_ok_inv in H as (? & w1 & _ & H).
  apply bind_ok_inv in H as (ns & w2 & Hns & H).
  apply lift_ok_inv in Hns as [Hns ->].
  apply bind_ok_inv in H as (? & w3 & _ & H).
  apply bind_ok_inv in H as (oroot & w4 & Hroot & H).
  assert (Hroot' : doc_root doc = Ok oroot).
  { unfold parse_xml_file in Hroot. destruct (doc_root doc) as [r|e].
    - inversion Hroot. reflexivity.
    - unfold bind, print, raise in Hroot. discriminate. }
  apply bind_ok_inv in H as (? & w5 & _ & H).
  destruct oroot as [root|]; [|discriminate].
  apply bind_ok_inv in H as (crs & w6 & Hcrs & H).
  apply lift_ok_inv in Hcrs as [Hcrs ->].
  apply bind_ok_inv in H as (? & w7 & _ & H).
  apply bind_ok_inv in H as (decoded & w8 & Hdec & H).
  apply lift_ok_inv in Hdec as [Hdec ->].
  apply bind_ok_inv in H as (? & w9 & _ & H).
  cbn [remove_broken_members] in H.
  set (root' := ET.detach (map ET.node_path (removed_members ns root)) root) in *.
  apply bind_ok_inv in H as (? & wa1 & _ & H).
  apply bind_ok_inv in H as (fl & wb1 & Hfl & H).
  apply bind_ok_inv in H as (? & wa2 & _ & H).
  apply bind_ok_inv in H as (pe & wb2 & Hpe & H).
  apply bind_ok_inv in H as (? & wa3 & _ & H).
  apply bind_ok_inv in H as (bz & wb3 & Hbz & H).
  apply bind_ok_inv in H as (? & wa4 & _ & H).
  apply bind_ok_inv in H as (bl & wb4 & Hbl & H).
  apply bind_ok_inv in H as (? & wa5 & _ & H).
  apply bind_ok_inv in H as (an & wb5 & Han & H).
  apply bind_ok_inv in H as (? & wa6 & _ & H).
  apply bind_ok_inv in H as (na & wb6 & Hna & H).
  apply bind_ok_inv in H as (? & wa7 & _ & H).
  apply bind_ok_inv in H as (bs & wb7 & Hbs & H).
  inversion H; subst ex; clear H. cbn [crs_name xml_root namespaces
    ax_flurstueck ax_person ax_buchungsblattbezirk ax_buchungsblatt
    ax_anschrift ax_namensnummer ax_buchungsstelle].
  exists ns, root, root', decoded.
  repeat (split; [first [assumption | reflexivity
                        | do 2 eexists; eassumption]|]).
  do 2 eexists; eassumption.
Qed.

Lemma firstn_init_order_cases (n : nat) :
  let cs := firstn n init_order in
  called_before Call_remove_broken_members Call_get_flurstueck_geometry cs = false
  /\ (was_called Call_remove_broken_members cs = true ->
      called_before Call_get_flurstueck_geometry Call_remove_broken_members cs
      = true)
  /\ (forall c,
         In c [Call_get_ax_flurstueck_data; Call_get_ax_person_data;
               Call_get_ax_buchungsblattbezirk_data;
               Call_get_ax_buchungsblatt_data; Call_get_ax_anschrift_data;
               Call_get_ax_namensnummer_data; Call_get_ax_buchungsstelle_data] ->
         was_called c cs = true ->
         called_before Call_remove_broken_members c cs = true).
Proof.
  do 13 (try destruct n as [|n]); cbv zeta;
    (split; [reflexivity|split;
       [try discriminate; reflexivity
       |intros c Hc; simpl in Hc;
        repeat (destruct Hc as [<- | Hc]; [try discriminate; reflexivity|]);
        destruct Hc]]).
Qed.

(** C1, as the code has it.  In every run of the initialization the
    methods are called in the order of [init_order], up to the one that
    raises: the parcel layer is decoded first, the broken members are
    removed from the tree after that and never before, and each of the
    seven extractors runs after the removal.  When the run returns, the
    tree that is kept is the one left by the removal, and each of the
    seven tables is what its extractor returned on that tree, the parcel
    extractor being given the layer as it was decoded. *)
Theorem post_init_decodes_then_sanitizes {L : Library} (doc : Document) :
  let cs := calls (snd (post_init doc World0)) in
  (exists n, cs = firstn n init_order)
  /\ called_before Call_remove_broken_members Call_get_flurstueck_geometry cs
     = false
  /\ (was_called Call_remove_broken_members cs = true ->
      called_before Call_get_flurstueck_geometry Call_remove_broken_members cs
      = true)
  /\ (forall c,
         In c [Call_get_ax_flurstueck_data; Call_get_ax_person_data;
               Call_get_ax_buchungsblattbezirk_data;
               Call_get_ax_buchungsblatt_data; Call_get_ax_anschrift_data;
               Call_get_ax_namensnummer_data; Call_get_ax_buchungsstelle_data] ->
         was_called c cs = true ->
         called_before Call_remove_broken_members c cs = true)
  /\ (forall (ex : Extract) (w' : World),
         post_init doc World0 = (Ok ex, w') ->
         exists ns root root' decoded,
           doc_namespaces doc = Ok ns /\ doc_root doc = Ok (Some root)
           /\ doc_layer doc (crs_name ex) = Ok decoded
           /\ remove_broken_members ns (Some root) = Some root'
           /\ xml_root ex = Some root'
           /\ (exists wa wb,
                  get_ax_flurstueck_data ns root'
                    (get_flurstueck_geometry decoded) wa
                  = (Ok (ax_flurstueck ex), wb))
           /\ (exists wa wb,
                  get_ax_person_data ns root' wa = (Ok (ax_person ex), wb))
           /\ (exists wa wb,
                  get_ax_buchungsblattbezirk_data ns root' wa
                  = (Ok (ax_buchungsblattbezirk ex), wb))
           /\ (exists wa wb,
                  get_ax_buchungsblatt_data ns root' wa
                  = (Ok (ax_buchungsblatt ex), wb))
           /\ (exists wa wb,
                  get_ax_anschrift_data ns root' wa = (Ok (ax_anschrift ex), wb))
           /\ (exists wa wb,
                  get_ax_namensnummer_data ns root' wa
                  = (Ok (ax_namensnummer ex), wb))
           /\ (exists wa wb,
                  get_ax_buchungsstelle_data ns root' wa
                  = (Ok (ax_buchungsstelle ex), wb))).
Proof.
  intros cs.
  destruct (post_init_follows_init_order doc World0) as [n Hn].
  change (cs = firstn n init_order) in Hn.
  split; [now exists n|].
  destruct (firstn_init_order_cases n) as (H1 & H2 & H3).
  rewrite Hn. repeat (split; [assumption|]).
  intros ex w' Hok.
  destruct (post_init_ok_inv doc _ _ _ Hok)
    as (ns & root & root' & decoded & Hns & Hroot & _ & Hdec & Hrm & Hx & _
        & Hfl & Hpe & Hbz & Hbl & Han & Hna & Hbs).
  exists ns, root, root', decoded.
  repeat (split; [assumption|]). assumption.
Qed.

Lemma post_init_decodes_then_sanitizes_witness :
  let cs := calls (snd (post_init Fixture.doc_sound World0)) in
  cs = init_order
  /\ called_before Call_get_flurstueck_geometry Call_remove_broken_members cs
     = true
  /\ called_before Call_remove_broken_members Call_get_ax_flurstueck_data cs
     = true.
Proof.
  intros cs.
  destruct (post_init_decodes_then_sanitizes Fixture.doc_sound)
    as (_ & _ & Hgeo & Hext & _).
  split; [reflexivity|]. split.
  - apply Hgeo. reflexivity.
  - apply (Hext Call_get_ax_flurstueck_data); [left; reflexivity|reflexivity].
Defined.

(** C1, as the specification has it, fails: on a document in which every
    position has two coordinates, and whose layer is decoded, the layer
    has been decoded when no removal has yet taken place. *)
Lemma post_init_decodes_before_sanitizing :
  ~ sanitizes_before_decoding
      (calls (snd (post_init Fixture.doc_sound World0))).
Proof.
  intros H.
  assert (E : called_before Call_remove_broken_members
                Call_get_flurstueck_geometry
                (calls (snd (post_init Fixture.doc_sound World0)))
              = true) by (apply H; reflexivity).
  vm_compute in E. discriminate E.
Qed.

(** ** Division by zero in a share *)

Lemma truthy_inv (o : option string) :
  PyStr.truthy o = true -> exists s, o = Some s /\ PyStr.is_empty s = false.
Proof.
  destruct o as [s|]; [|discriminate]. simpl. intros H. exists s.
  split; [reflexivity|]. now destruct (PyStr.is_empty s).
Qed.

Lemma ax_anteil_of_zero_share {L : Library} (ns : Namespaces) (e : Element) :
  zero_share ns e ->
  ax_anteil_of
    (ET.findtext e [ax ns "anteil"; ax ns "AX_Anteil"; ax ns "zaehler"])
    (ET.findtext e [ax ns "anteil"; ax ns "AX_Anteil"; ax ns "nenner"])
  = Raise ZeroDivisionError.
Proof.
  intros (_ & z & n & x & y & Hz & Hn & Hx & Hy & H0).
  rewrite Hz, Hn. unfold ax_anteil_of, float, truediv.
  now rewrite Hx, Hy, H0.
Qed.

(** The three ways through one iteration of the loop. *)
Lemma namensnummer_loop_skip {L : Library} (ns : Namespaces)
    (h : Element) (rest : list Element) (w : World) :
  PyStr.truthy (ET.get h GML_ID) = false ->
  namensnummer_loop ns (h :: rest) w
  = namensnummer_loop ns rest
      (printed "No gml:id found for namensnummer, skipping..." w).
Proof.
  intros H. cbn [namensnummer_loop].
  destruct (ET.get h GML_ID) as [id|]; [|reflexivity].
  simpl in H. destruct (PyStr.is_empty id); [reflexivity|discriminate].
Qed.

Lemma namensnummer_loop_fail {L : Library} (ns : Namespaces)
    (h : Element) (rest : list Element) (w : World) (e : exn) :
  PyStr.truthy (ET.get h GML_ID) = true ->
  ax_anteil_of
    (ET.findtext h [ax ns "anteil"; ax ns "AX_Anteil"; ax ns "zaehler"])
    (ET.findtext h [ax ns "anteil"; ax ns "AX_Anteil"; ax ns "nenner"])
  = Raise e ->
  namensnummer_loop ns (h :: rest) w = (Raise e, w).
Proof.
  intros Hid Ha. apply truthy_inv in Hid as (id & Hid & Hne).
  cbn [namensnummer_loop]. now rewrite Hid, Hne, Ha.
Qed.

Lemma namensnummer_loop_row {L : Library} (ns : Namespaces)
    (h : Element) (rest : list Element) (w : World) (id : string) (x : pyfloat) :
  ET.get h GML_ID = Some id -> PyStr.is_empty id = false ->
  ax_anteil_of
    (ET.findtext h [ax ns "anteil"; ax ns "AX_Anteil"; ax ns "zaehler"])
    (ET.findtext h [ax ns "anteil"; ax ns "AX_Anteil"; ax ns "nenner"])
  = Ok x ->
  namensnummer_loop ns (h :: rest) w
  = (rows <- namensnummer_loop ns rest ;;
     ret (Namensnummer.mkRow id (href_id ns h "benennt")
            (ET.findtext h [ax ns "laufendeNummerNachDIN1421"])
            (href_id ns h "istBestandteilVon")
            (find_attr h [ax ns "anlass"] XLINK_TITLE)
            (ET.findtext h [ax ns "artDerRechtsgemeinschaft"])
            (href_id ns h "bestehtAusRechtsverhaeltnissenZu") x :: rows)) w.
Proof.
  intros Hid Hne Ha. cbn [namensnummer_loop]. now rewrite Hid, Hne, Ha.
Qed.

Lemma namensnummer_loop_raises {L : Library} (ns : Namespaces)
    (els : list Element) (e : Element) :
  In e els -> zero_share ns e ->
  forall w, exists ex w', namensnummer_loop ns els w = (Raise ex, w').
Proof.
  intros Hin Hz. induction els as [|h rest IH]; [destruct Hin|].
  intros w. destruct Hin as [-> | Hin].
  - exists ZeroDivisionError, w.
    apply namensnummer_loop_fail; [apply Hz|now apply ax_anteil_of_zero_share].
  - specialize (IH Hin).
    destruct (PyStr.truthy (ET.get h GML_ID)) eqn:Hid.
    + destruct (ax_anteil_of
                  (ET.findtext h [ax ns "anteil"; ax ns "AX_Anteil"; ax ns "zaehler"])
                  (ET.findtext h [ax ns "anteil"; ax ns "AX_Anteil"; ax ns "nenner"]))
        as [x|ex] eqn:Ha.
      * destruct (truthy_inv _ Hid) as (id & Hget & Hne).
        rewrite (namensnummer_loop_row ns h rest w id x Hget Hne Ha).
        destruct (IH w) as (ex & w' & Hr). exists ex, w'.
        now apply bind_raise.
      * exists ex, w. now apply namensnummer_loop_fail.
    + rewrite (namensnummer_loop_skip ns h rest w Hid). apply IH.
Qed.

Lemma namensnummer_loop_zero_division {L : Library} (ns : Namespaces)
    (before after : list Element) (e : Element) :
  (forall b, In b before -> share_computes ns b) -> zero_share ns e ->
  forall w, exists w',
    namensnummer_loop ns (before ++ e :: after) w = (Raise ZeroDivisionError, w').
Proof.
  intros Hb Hz. induction before as [|h before IH]; intros w.
  - exists w.
    apply namensnummer_loop_fail; [apply Hz|now apply ax_anteil_of_zero_share].
  - assert (Hrest : forall b, In b before -> share_computes ns b)
      by (intros b Hin; apply Hb; now right).
    specialize (IH Hrest).
    change ((h :: before) ++ e :: after)%list
      with (h :: (before ++ e :: after))%list.
    destruct (PyStr.truthy (ET.get h GML_ID)) eqn:Hid.
    + destruct (Hb h (or_introl eq_refl)) as [Hskip | [x Hx]];
        [congruence|].
      destruct (truthy_inv _ Hid) as (id & Hget & Hne).
      rewrite (namensnummer_loop_row ns h _ w id x Hget Hne Hx).
      destruct (IH w) as [w' Hw']. exists w'. now apply bind_raise.
    + rewrite (namensnummer_loop_skip ns h _ w Hid). apply IH.
Qed.

(** Getting as far as a call of [target]: through a call, and through a
    method that calls nothing itself. *)
Lemma reach_enter {B} (target c : Call) (m : M B) (w : World) :
  (was_called target (calls (snd (m (entered c w)))) = true ->
   exists w', m (entered c w) = (Raise ZeroDivisionError, w')) ->
  was_called target (calls (snd ((enter c ;;; m) w))) = true ->
  exists w', (enter c ;;; m) w = (Raise ZeroDivisionError, w').
Proof. intros H. exact H. Qed.

Lemma reach_bind {A B} (target : Call) (m : M A) (k : A -> M B) (w : World) :
  keeps_calls m -> was_called target (calls w) = false ->
  (forall a w1, m w = (Ok a, w1) -> calls w1 = calls w ->
     was_called target (calls (snd (k a w1))) = true ->
     exists w', k a w1 = (Raise ZeroDivisionError, w')) ->
  was_called target (calls (snd (bind m k w))) = true ->
  exists w', bind m k w = (Raise ZeroDivisionError, w').
Proof.
  intros Hm Hw Hk. unfold bind. specialize (Hm w).
  destruct (m w) as [[a|e] w1] eqn:E; simpl in Hm.
  - now apply Hk.
  - simpl. rewrite Hm, Hw. discriminate.
Qed.

Lemma get_ax_namensnummer_data_matched {L : Library} (ns : Namespaces)
    (root : Element) (els : list Element) (w : World) :
  matched_elements ns root "AX_Namensnummer" = Some els ->
  get_ax_namensnummer_data ns root w = namensnummer_loop ns els w.
Proof.
  intros H. unfold get_ax_namensnummer_data, require_elements. now rewrite H.
Qed.

(** C10, as the code has it.  Take a document whose tree, once the broken
    members are removed, holds among the name entries found by the
    extractor one with a non-empty [gml:id], a numerator that is a number
    and a denominator that is zero.  Then the initialization never
    returns, so no table is made; and when it gets as far as the name
    entries and the entries before that one raise nothing, what it raises
    is [ZeroDivisionError]. *)
Theorem post_init_zero_share_raises {L : Library} (doc : Document)
    (ns : Namespaces) (root root' : Element) (els : list Element) (e : Element) :
  doc_namespaces doc = Ok ns -> doc_root doc = Ok (Some root) ->
  remove_broken_members ns (Some root) = Some root' ->
  matched_elements ns root' "AX_Namensnummer" = Some els ->
  In e els -> zero_share ns e ->
  (forall w, exists ex w', post_init doc w = (Raise ex, w'))
  /\ (forall before after,
         els = (before ++ e :: after)%list ->
         (forall b, In b before -> share_computes ns b) ->
         was_called Call_get_ax_namensnummer_data
           (calls (snd (post_init doc World0))) = true ->
         exists w', post_init doc World0 = (Raise ZeroDivisionError, w')).
Proof.
  intros Hns Hroot Hrm Hels Hin Hz. split.
  - intros w. destruct (post_init doc w) as [[ex|ex] w'] eqn:E;
      [exfalso|now exists ex, w'].
    destruct (post_init_ok_inv doc _ _ _ E)
      as (ns0 & root0 & root0' & decoded & Hns0 & Hroot0 & _ & _ & Hrm0 & _ & _
          & _ & _ & _ & _ & _ & (wa & wb & Hna) & _).
    rewrite Hns in Hns0. inversion Hns0; subst ns0.
    rewrite Hroot in Hroot0. inversion Hroot0; subst root0.
    rewrite Hrm in Hrm0. inversion Hrm0; subst root0'.
    rewrite (get_ax_namensnummer_data_matched ns root' els wa Hels) in Hna.
    destruct (namensnummer_loop_raises ns els e Hin Hz wa) as (ex' & w2 & Hr).
    rewrite Hr in Hna. discriminate.
  - intros before after Hsplit Hbefore.
    assert (Hloop : forall w, exists w',
               get_ax_namensnummer_data ns root' w = (Raise ZeroDivisionError, w')).
    { intros w. rewrite (get_ax_namensnummer_data_matched ns root' els w Hels).
      rewrite Hsplit. now apply namensnummer_loop_zero_division. }
    cbn [remove_broken_members] in Hrm. inversion Hrm as [Hroot']. clear Hrm.
    unfold post_init. rewrite Hns, Hroot.
    apply reach_enter.
    apply reach_bind; [apply keeps_calls_lift|reflexivity|].
    intros ns1 w1 E1 Hc1. apply lift_ok_inv in E1 as [E1 ->].
    inversion E1; subst ns1. clear E1 Hc1.
    apply reach_enter.
    apply reach_bind; [apply keeps_calls_parse|reflexivity|].
    intros r1 w2 E2 Hc2. cbn in E2. inversion E2; subst r1 w2. clear E2 Hc2.
    apply reach_enter.
    apply reach_bind; [apply keeps_calls_lift|reflexivity|].
    intros crs w3 E3 Hc3. apply lift_ok_inv in E3 as [E3 ->]. clear Hc3.
    apply reach_enter.
    apply reach_bind; [apply keeps_calls_lift|reflexivity|].
    intros decoded w4 E4 Hc4. apply lift_ok_inv in E4 as [E4 ->]. clear Hc4.
    apply reach_enter. cbn [remove_broken_members]. rewrite Hroot'.
    apply reach_enter.
    apply reach_bind; [apply keeps_calls_flurstueck|reflexivity|].
    intros fl w5 _ Hc5.
    apply reach_enter.
    apply reach_bind;
      [apply keeps_calls_person|cbn [entered calls]; rewrite Hc5; reflexivity|].
    intros pe w6 _ Hc6. cbn [entered calls] in Hc6. rewrite Hc5 in Hc6. clear Hc5.
    apply reach_enter.
    apply reach_bind;
      [apply keeps_calls_buchungsblattbezirk
      |cbn [entered calls]; rewrite Hc6; reflexivity|].
    intros bz w7 _ Hc7. cbn [entered calls] in Hc7. rewrite Hc6 in Hc7. clear Hc6.
    apply reach_enter.
    apply reach_bind;
      [apply keeps_calls_buchungsblatt
      |cbn [entered calls]; rewrite Hc7; reflexivity|].
    intros bl w8 _ Hc8. cbn [entered calls] in Hc8. rewrite Hc7 in Hc8. clear Hc7.
    apply reach_enter.
    apply reach_bind;
      [apply keeps_calls_anschrift
      |cbn [entered calls]; rewrite Hc8; reflexivity|].
    intros an w9 _ Hc9. clear Hc8 Hc9.
    intros _.
    destruct (Hloop (entered Call_get_ax_namensnummer_data w9)) as [w' Hw'].
    exists w'. unfold bind at 1. cbn [enter]. now apply bind_raise.
Qed.

Lemma post_init_zero_share_raises_witness :
  (exists ex w', post_init Fixture.doc_zero_share World0 = (Raise ex, w'))
  /\ (exists w',
         post_init Fixture.doc_zero_share World0 = (Raise ZeroDivisionError, w')).
Proof.
  pose (root := Fixture.cadastre [Fixture.name_entry "N1" "1" "2";
                                  Fixture.name_entry "N2" "1" "0"]).
  assert (Hz : zero_share (L := Ref.library) Fixture.ns
                 (Fixture.name_entry "N2" "1" "0")).
  { split; [reflexivity|].
    exists "1", "0", (Ref.mkNum false 1 1), (Ref.mkNum false 0 1).
    repeat split. }
  destruct (post_init_zero_share_raises Fixture.doc_zero_share Fixture.ns
              root root
              [Fixture.name_entry "N1" "1" "2"; Fixture.name_entry "N2" "1" "0"]
              (Fixture.name_entry "N2" "1" "0")
              eq_refl eq_refl eq_refl eq_refl
              (or_intror (or_introl eq_refl)) Hz) as [Hnever Hzero].
  split; [apply Hnever|].
  apply (Hzero [Fixture.name_entry "N1" "1" "2"] []);
    [reflexivity| |vm_compute; reflexivity].
  intros b [<- | []]. right. exists (Ref.mkNum false 1 2). reflexivity.
Defined.

(** C10, as the specification has it, fails: a name entry without [gml:id] is
    skipped before its share is read, and with the share 1/0 on such an
    entry the initialization returns its tables. *)
Lemma post_init_anonymous_zero_share_returns :
  let e := Fixture.anonymous "AX_Namensnummer" [Fixture.share "1" "0"] in
  let root := Fixture.cadastre [Fixture.name_entry "N1" "1" "2"; e] in
  doc_root Fixture.doc_zero_share_anonymous = Ok (Some root)
  /\ In e (ET.xpath root
             [ax Fixture.ns "enthaelt"; wfs Fixture.ns "FeatureCollection";
              wfs Fixture.ns "member"; ax Fixture.ns "AX_Namensnummer"])
  /\ zero_denominator (L := Ref.library) Fixture.ns e
  /\ exists ex w',
       post_init Fixture.doc_zero_share_anonymous World0 = (Ok ex, w')
       /\ List.length (ax_namensnummer ex) = 1.
Proof.
  cbv zeta. split; [reflexivity|].
  split; [right; left; vm_compute; reflexivity|]. split.
  - exists "1", "0", (Ref.mkNum false 0 1). repeat split.
  - assert (H : match post_init Fixture.doc_zero_share_anonymous World0 with
                | (Ok ex, _) => List.length (ax_namensnummer ex) = 1
                | (Raise _, _) => False
                end) by (vm_compute; reflexivity).
    destruct (post_init Fixture.doc_zero_share_anonymous World0)
      as [[ex|ex] w']; [|destruct H].
    exists ex, w'. split; [reflexivity|exact H].
Qed.

(** ** A reference carried over from one booking entry to the next *)

Lemma buchungsstelle_loop_never_absent (ns : Namespaces)
    (els : list Element) :
  forall bound w rows w',
    buchungsstelle_loop ns bound els w = (Ok rows, w') ->
    forall r, In r rows -> Buchungsstelle.ax_buchungsblatt_id r <> None.
Proof.
  induction els as [|h rest IH]; intros bound w rows w' H r Hr.
  - inversion H; subst. destruct Hr.
  - cbn [buchungsstelle_loop] in H.
    destruct (ET.get h GML_ID) as [id|];
      [destruct (PyStr.is_empty id)|];
      try (apply bind_ok_inv in H as (? & w1 & _ & H); now apply (IH _ _ _ _ H)).
    match type of H with
    | (match ?b with _ => _ end) _ = _ => destruct b as [v|]; [|discriminate]
    end.
    apply bind_ok_inv in H as (rows' & w1 & Hrest & H).
    inversion H; subst. destruct Hr as [<- | Hr]; [discriminate|].
    now apply (IH _ _ _ _ Hrest).
Qed.

Lemma get_ax_buchungsstelle_data_never_absent (ns : Namespaces)
    (xml_root : Element) (w w' : World) (rows : list Buchungsstelle.Row)
    (r : Buchungsstelle.Row) :
  get_ax_buchungsstelle_data ns xml_root w = (Ok rows, w') ->
  In r rows -> Buchungsstelle.ax_buchungsblatt_id r <> None.
Proof.
  intros H Hr. unfold get_ax_buchungsstelle_data in H.
  apply bind_ok_inv in H as (els & w1 & _ & H).
  exact (buchungsstelle_loop_never_absent ns els None w1 rows w' H r Hr).
Qed.

(** C4.  On the document with a second booking entry that has no
    [istBestandteilVon], the row of that entry holds the ledger of the
    entry before it where an absent value belongs; and when the first
    booking entry is the one without the link, the extractor raises
    [UnboundLocalError]. *)
Theorem buchungsstelle_reference_carried_over :
  let s2 := Fixture.feature "AX_Buchungsstelle" "S2"
              [Fixture.leaf "buchungsart" "1100"] in
  let root := Fixture.cadastre [Fixture.name_entry "N1" "1" "2"; s2] in
  find_attr s2 [ax Fixture.ns "istBestandteilVon"] XLINK_HREF = None
  /\ get_ax_buchungsstelle_data Fixture.ns root World0
     = (Ok [Buchungsstelle.mkRow "S1" None None (Some "B1");
            Buchungsstelle.mkRow "S2" (Some "1100") None (Some "B1")], World0)
  /\ get_ax_buchungsstelle_data Fixture.ns
       (Fixture.collection [Fixture.member s2]) World0
     = (Raise (UnboundLocalError "ax_buchungsblatt_id"), World0).
Proof.
  cbv zeta. split; [vm_compute; reflexivity|].
  split; vm_compute; reflexivity.
Qed.

(** ** The rows of the tables and the elements they come from *)

Lemma href_id_stripped (ns : Namespaces) (e : Element) (child : string) :
  href_id ns e child = stripped_href ns e child.
Proof.
  unfold href_id, stripped_href. now destruct (find_attr e [ax ns child] XLINK_HREF).
Qed.

Lemma has_id_inv (e : Element) :
  has_id e = true ->
  exists id, ET.get e GML_ID = Some id /\ PyStr.is_empty id = false.
Proof. apply truthy_inv. Qed.

Lemma filter_has_id_cons (h : Element) (rest : list Element) :
  filter has_id (h :: rest)
  = if PyStr.truthy (ET.get h GML_ID) then h :: filter has_id rest
    else filter has_id rest.
Proof. reflexivity. Qed.

(** Takes a returned loop iteration apart along its binds. *)
Ltac unbind H :=
  repeat match type of H with
         | bind _ _ _ = (Ok _, _) =>
             let a := fresh "a" in
             let w := fresh "w" in
             let Ha := fresh "Ha" in
             apply bind_ok_inv in H as (a & w & Ha & H)
         end.

Lemma matched_inv {A} (ns : Namespaces) (root : Element) (entity : string)
    (k : list Element -> M A) (w w' : World) (a : A) :
  (els <- require_elements ns root entity ;; k els) w = (Ok a, w') ->
  exists els, matched_elements ns root entity = Some els /\ k els w = (Ok a, w').
Proof.
  intros H. apply bind_ok_inv in H as (els & w1 & He & H).
  unfold require_elements in He.
  destruct (matched_elements ns root entity) as [els'|]; [|discriminate].
  inversion He; subst. now exists els.
Qed.

Section Rows.

Context {L : Library} (ns : Namespaces).

Lemma flurstueck_loop_rows (els : list Element) :
  forall w rows w',
    flurstueck_loop ns els w = (Ok rows, w') ->
    Forall2 (flurstueck_ids ns) rows (filter has_id els).
Proof.
  induction els as [|h rest IH]; intros w rows w' H.
  - inversion H. constructor.
  - cbn [flurstueck_loop] in H. rewrite filter_has_id_cons.
    destruct (ET.get h GML_ID) as [id|] eqn:Hid; cbn [PyStr.truthy];
      [destruct (PyStr.is_empty id) eqn:He; cbn [negb]|]; unbind H;
      try (now apply (IH _ _ _ H)).
    inversion H; subst. constructor; [|now apply (IH _ _ _ Ha1)].
    unfold flurstueck_ids. cbn. rewrite Hid. repeat split.
Qed.

Lemma beginnt_returns (member : Element) (w : World) :
  exists v w', get_aa_lebenszeitintervall_beginnt ns member w = (Ok v, w').
Proof.
  unfold get_aa_lebenszeitintervall_beginnt.
  destruct (ET.find_desc _ _ _) as [beginnt|]; [|now eexists; eexists].
  destruct (text beginnt) as [t|]; [|now eexists; eexists].
  destruct (PyStr.is_empty t); [now eexists; eexists|].
  destruct (fromisoformat _); now eexists; eexists.
Qed.


Lemma anschrift_loop_rows (els : list Element) :
  forall w rows w',
    anschrift_loop ns els w = (Ok rows, w') ->
    Forall2 anschrift_ids rows (filter has_id els).
Proof.
  induction els as [|h rest IH]; intros w rows w' H.
  - inversion H. constructor.
  - cbn [anschrift_loop] in H. rewrite filter_has_id_cons.
    destruct (ET.get h GML_ID) as [id|] eqn:Hid; cbn [PyStr.truthy];
      [destruct (PyStr.is_empty id) eqn:He; cbn [negb]|]; unbind H;
      try (now apply (IH _ _ _ H)).
    inversion H; subst. constructor; [|now apply (IH _ _ _ Ha0)].
    unfold anschrift_ids. cbn. now rewrite Hid.
Qed.


Lemma namensnummer_loop_rows (els : list Element) :
  forall w rows w',
    namensnummer_loop ns els w = (Ok rows, w') ->
    Forall2 (namensnummer_ids ns) rows (filter has_id els).
Proof.
  induction els as [|h rest IH]; intros w rows w' H.
  - inversion H. constructor.
  - cbn [namensnummer_loop] in H. rewrite filter_has_id_cons.
    destruct (ET.get h GML_ID) as [id|] eqn:Hid; cbn [PyStr.truthy];
      [destruct (PyStr.is_empty id) eqn:He; cbn [negb]|]; unbind H;
      try (now apply (IH _ _ _ H)).
    inversion H; subst. constructor; [|now apply (IH _ _ _ Ha0)].
    unfold namensnummer_ids. cbn. rewrite Hid. repeat split.
Qed.

Lemma buchungsblattbezirk_loop_rows (els : list Element) :
  forall w rows w',
    buchungsblattbezirk_loop ns els w = (Ok rows, w') ->
    Forall2 buchungsblattbezirk_ids rows els.
Proof.
  induction els as [|h rest IH]; intros w rows w' H.
  - inversion H. constructor.
  - cbn [buchungsblattbezirk_loop] in H.
    apply bind_ok_inv in H as (bg & w1 & _ & H).
    apply bind_ok_inv in H as ([kl kb] & w2 & _ & H).
    apply bind_ok_inv in H as ([dl ds] & w3 & _ & H).
    apply bind_ok_inv in H as (rows' & w4 & Hrest & H).
    inversion H; subst. constructor; [reflexivity|now apply (IH _ _ _ Hrest)].
Qed.

Lemma buchungsblatt_loop_rows (els : list Element) :
  forall w rows w',
    buchungsblatt_loop ns els w = (Ok rows, w') ->
    Forall2 buchungsblatt_ids rows els.
Proof.
  induction els as [|h rest IH]; intros w rows w' H.
  - inversion H. constructor.
  - cbn [buchungsblatt_loop] in H.
    apply bind_ok_inv in H as (bg & w1 & _ & H).
    apply bind_ok_inv in H as ([[l b] g] & w2 & _ & H).
    apply bind_ok_inv in H as (rows' & w3 & Hrest & H).
    inversion H; subst. constructor; [reflexivity|now apply (IH _ _ _ Hrest)].
Qed.

End Rows.

Section RowsWithLocals.

Context {L : Library} (ns : Namespaces).

(** [if anschrift_id: anschrift_id = strip(anschrift_id)] is the
    stripping of whatever is there: the empty string is left as it is by
    both. *)
Lemma strip_if_truthy (a : option string) :
  (if PyStr.truthy a then option_map remove_gml_id_prefix a else a)
  = option_map remove_gml_id_prefix a.
Proof.
  destruct a as [[|c s]|]; reflexivity.
Qed.

Lemma person_loop_rows (els : list Element) :
  forall v w rows w',
    person_loop ns v els w = (Ok rows, w') ->
    forall e, In e els -> has_id e = true ->
              exists row, In row rows /\ person_ids ns row e.
Proof.
  induction els as [|h rest IH]; intros v w rows w' H e Hin Hid;
    [destruct Hin|].
  cbn [person_loop] in H. unbind H. inversion H; subst; clear H.
  destruct Hin as [-> | Hin].
  - apply has_id_inv in Hid as (id & Hid & Hne). rewrite Hid, Hne in Ha.
    unfold person_read in Ha. unbind Ha. inversion Ha; subst; clear Ha.
    unfold person_append in Ha0. cbn in Ha0. inversion Ha0; subst; clear Ha0.
    eexists. split; [left; reflexivity|].
    unfold person_ids, stripped_href. cbn. split; [exact Hid|].
    apply strip_if_truthy.
  - destruct (IH _ _ _ _ Ha1 e Hin Hid) as (row & Hrow & Hids).
    exists row. split; [now right|exact Hids].
Qed.

Lemma buchungsstelle_loop_rows (els : list Element) :
  forall bound w rows w',
    buchungsstelle_loop ns bound els w = (Ok rows, w') ->
    Forall2 (buchungsstelle_ids ns) rows (filter has_id els).
Proof.
  induction els as [|h rest IH]; intros bound w rows w' H.
  - inversion H. constructor.
  - cbn [buchungsstelle_loop] in H. rewrite filter_has_id_cons.
    destruct (ET.get h GML_ID) as [id|] eqn:Hid; cbn [PyStr.truthy];
      [destruct (PyStr.is_empty id) eqn:He; cbn [negb]|];
      try (unbind H; now apply (IH _ _ _ _ H)).
    destruct (find_attr h [ax ns "istBestandteilVon"] XLINK_HREF)
      as [href|] eqn:Hh.
    + unbind H. inversion H; subst.
      constructor; [|now apply (IH _ _ _ _ Ha)].
      split; [exact Hid|]. intros href' E. rewrite Hh in E.
      now inversion E.
    + destruct bound as [b|]; [|discriminate]. unbind H. inversion H; subst.
      constructor; [|now apply (IH _ _ _ _ Ha)].
      split; [exact Hid|]. intros href' E. rewrite Hh in E. discriminate.
Qed.

Lemma buchungsstelle_loop_refs (all els : list Element) :
  forall bound w rows w',
    incl els all ->
    (forall b, bound = Some b -> stripped_href_of ns all "istBestandteilVon" b) ->
    buchungsstelle_loop ns bound els w = (Ok rows, w') ->
    forall row, In row rows ->
      exists v, Buchungsstelle.ax_buchungsblatt_id row = Some v
                /\ stripped_href_of ns all "istBestandteilVon" v.
Proof.
  induction els as [|h rest IH]; intros bound w rows w' Hincl Hb H row Hrow.
  - inversion H; subst. destruct Hrow.
  - assert (Hrest : incl rest all) by (intros x Hx; apply Hincl; now right).
    assert (Hh : In h all) by (apply Hincl; now left).
    cbn [buchungsstelle_loop] in H.
    destruct (ET.get h GML_ID) as [id|] eqn:Hid;
      [destruct (PyStr.is_empty id) eqn:He|];
      try (unbind H; now apply (IH _ _ _ _ Hrest Hb H)).
    destruct (find_attr h [ax ns "istBestandteilVon"] XLINK_HREF)
      as [href|] eqn:Hf.
    + assert (Hnew : stripped_href_of ns all "istBestandteilVon"
                       (remove_gml_id_prefix href))
        by (exists h, href; auto).
      unbind H. inversion H; subst. destruct Hrow as [<- | Hrow].
      * eexists. split; [reflexivity|exact Hnew].
      * apply (IH _ _ _ _ Hrest) with (3 := Hrow) (2 := Ha).
        intros b E. inversion E; subst. exact Hnew.
    + destruct bound as [b|]; [|discriminate].
      unbind H. inversion H; subst. destruct Hrow as [<- | Hrow].
      * eexists. split; [reflexivity|now apply Hb].
      * now apply (IH _ _ _ _ Hrest Hb Ha).
Qed.

End RowsWithLocals.

Lemma Forall2_in_left {A B} (R : A -> B -> Prop) (l : list A) (l' : list B)
    (a : A) :
  Forall2 R l l' -> In a l -> exists b, In b l' /\ R a b.
Proof.
  induction 1 as [|x y l l' Hxy _ IH]; intros Hin; [destruct Hin|].
  destruct Hin as [<- | Hin].
  - exists y. split; [now left|exact Hxy].
  - destruct (IH Hin) as (b & Hb & Hab). exists b. split; [now right|exact Hab].
Qed.

(** C2, as the code has it.  In each of the seven tables, the identifier
    of a row is the identity attribute of its element as it stands: no
    prefix is taken off it.  Every cross-reference that a row stores has
    gone through the stripping of the prefix: for a parcel, a person and a
    name entry it is the link target of the element of the row, stripped,
    or absent without a target; for a booking entry it is the stripped
    target of the element of the row when that element has one, and in
    every case the stripped target of a booking entry of the document.  A
    row of the joined parcel table is made of a scalar row, of which the
    above is said, and of a geometry row with the same id.  For persons
    this is said of the elements that have an id. *)
Theorem identifiers_as_they_stand_references_stripped
    {L : Library} (ns : Namespaces) (xml_root : Element) (w w' : World) :
  (forall rows,
      flurstueck_scalars ns xml_root w = (Ok rows, w') ->
      exists els, matched_elements ns xml_root "AX_Flurstueck" = Some els
                  /\ Forall2 (flurstueck_ids ns) rows (filter has_id els))
  /\ (forall rows,
         get_ax_person_data ns xml_root w = (Ok rows, w') ->
         exists els, matched_elements ns xml_root "AX_Person" = Some els
                     /\ forall e, In e els -> has_id e = true ->
                          exists row, In row rows /\ person_ids ns row e)
  /\ (forall rows,
         get_ax_buchungsblattbezirk_data ns xml_root w = (Ok rows, w') ->
         exists els,
           matched_elements ns xml_root "AX_Buchungsblattbezirk" = Some els
           /\ Forall2 buchungsblattbezirk_ids rows els)
  /\ (forall rows,
         get_ax_buchungsblatt_data ns xml_root w = (Ok rows, w') ->
         exists els, matched_elements ns xml_root "AX_Buchungsblatt" = Some els
                     /\ Forall2 buchungsblatt_ids rows els)
  /\ (forall rows,
         get_ax_anschrift_data ns xml_root w = (Ok rows, w') ->
         exists els, matched_elements ns xml_root "AX_Anschrift" = Some els
                     /\ Forall2 anschrift_ids rows (filter has_id els))
  /\ (forall rows,
         get_ax_namensnummer_data ns xml_root w = (Ok rows, w') ->
         exists els, matched_elements ns xml_root "AX_Namensnummer" = Some els
                     /\ Forall2 (namensnummer_ids ns) rows (filter has_id els))
  /\ (forall rows,
         get_ax_buchungsstelle_data ns xml_root w = (Ok rows, w') ->
         exists els,
           matched_elements ns xml_root "AX_Buchungsstelle" = Some els
           /\ Forall2 (buchungsstelle_ids ns) rows (filter has_id els)
           /\ forall row v,
                In row rows ->
                Buchungsstelle.ax_buchungsblatt_id row = Some v ->
                stripped_href_of ns els "istBestandteilVon" v)
  /\ (forall gdf_buf rows,
         get_ax_flurstueck_data ns xml_root gdf_buf w = (Ok rows, w') ->
         exists els,
           matched_elements ns xml_root "AX_Flurstueck" = Some els
           /\ forall r, In r rows ->
                (exists e, In e (filter has_id els)
                           /\ flurstueck_ids ns (Parcel.fields r) e)
                /\ In (Parcel.geo r) gdf_buf
                /\ GeomTable.ax_flurstueck_id (Parcel.geo r)
                   = Flurstueck.ax_flurstueck_id (Parcel.fields r)).
Proof.
  repeat match goal with |- _ /\ _ => split end.
  - intros rows H. apply matched_inv in H as (els & Hm & H).
    exists els. split; [exact Hm|]. eapply flurstueck_loop_rows; eassumption.
  - intros rows H. apply matched_inv in H as (els & Hm & H).
    exists els. split; [exact Hm|].
    now apply (person_loop_rows ns els person_locals0 w rows w').
  - intros rows H. apply matched_inv in H as (els & Hm & H).
    exists els. split; [exact Hm|].
    eapply buchungsblattbezirk_loop_rows; eassumption.
  - intros rows H. apply matched_inv in H as (els & Hm & H).
    exists els. split; [exact Hm|].
    eapply buchungsblatt_loop_rows; eassumption.
  - intros rows H. apply matched_inv in H as (els & Hm & H).
    exists els. split; [exact Hm|]. eapply anschrift_loop_rows; eassumption.
  - intros rows H. apply matched_inv in H as (els & Hm & H).
    exists els. split; [exact Hm|]. eapply namensnummer_loop_rows; eassumption.
  - intros rows H. apply matched_inv in H as (els & Hm & H).
    exists els. split; [exact Hm|]. split.
    + eapply buchungsstelle_loop_rows; eassumption.
    + intros row v Hrow Hv.
      destruct (buchungsstelle_loop_refs ns els els None w rows w'
                  (incl_refl els) ltac:(discriminate) H row Hrow)
        as (v' & Hv' & Hs).
      rewrite Hv in Hv'. inversion Hv'; subst v'. exact Hs.
  - intros gdf_buf rows H. unfold get_ax_flurstueck_data in H.
    apply bind_ok_inv in H as (df & w1 & Hdf & H).
    inversion H; subst rows w1. clear H.
    apply matched_inv in Hdf as (els & Hm & Hdf).
    exists els. split; [exact Hm|]. intros r Hr.
    apply in_merge in Hr as (Hgeo & Hfields & Heq).
    split; [|now split].
    apply (Forall2_in_left _ _ _ _ (flurstueck_loop_rows ns els _ _ _ Hdf)
             Hfields).
Qed.

Lemma identifiers_as_they_stand_references_stripped_witness :
  let root := Fixture.cadastre [Fixture.name_entry "N1" "1" "2"] in
  let row := Buchungsstelle.mkRow "S1" None None (Some "B1") in
  exists els,
    matched_elements Fixture.ns root "AX_Buchungsstelle" = Some els
    /\ Forall2 (buchungsstelle_ids Fixture.ns) [row] (filter has_id els)
    /\ stripped_href_of Fixture.ns els "istBestandteilVon" "B1".
Proof.
  intros root row.
  destruct (identifiers_as_they_stand_references_stripped
              (L := Ref.library) Fixture.ns root World0 World0)
    as (_ & _ & _ & _ & _ & _ & Hbs & _).
  destruct (Hbs [row]) as (els & Hm & Hids & Hrefs);
    [vm_compute; reflexivity|].
  exists els. split; [exact Hm|]. split; [exact Hids|].
  apply (Hrefs row "B1"); [left; reflexivity|reflexivity].
Defined.

(** C2, as the specification has it, fails: an address whose [gml:id] carries the
    prefix is stored under the id with the prefix. *)
Lemma anschrift_identifier_keeps_prefix :
  let a2 := Fixture.feature "AX_Anschrift" "urn:adv:oid:A2"
              [Fixture.leaf "ort_Post" "Berlin"] in
  let root := Fixture.cadastre [Fixture.name_entry "N1" "1" "2"; a2] in
  let row := Anschrift.mkRow (L := Ref.library) "urn:adv:oid:A2"
               (Some "Berlin") None None None None None None None None in
  ET.get a2 GML_ID = Some "urn:adv:oid:A2"
  /\ (exists rows w',
         get_ax_anschrift_data (L := Ref.library) Fixture.ns root World0
         = (Ok rows, w') /\ In row rows)
  /\ Anschrift.ax_anschrift_id row <> remove_gml_id_prefix "urn:adv:oid:A2".
Proof.
  cbv zeta. split; [reflexivity|]. split.
  - exists [Anschrift.mkRow (L := Ref.library) "A1" (Some "Potsdam")
              None None None None None None None None;
            Anschrift.mkRow (L := Ref.library) "urn:adv:oid:A2" (Some "Berlin")
              None None None None None None None None], World0.
    split; [reflexivity|right; left; reflexivity].
  - vm_compute. discriminate.
Qed.

(** * Further properties *)

(** ** The prefix map *)

Lemma dict_get_set (d : PyDict.dict) (k v k' : string) :
  PyDict.get (PyDict.set d k v) k'
  = if String.eqb k k' then Some v else PyDict.get d k'.
Proof.
  induction d as [|[k0 v0] d IH]; cbn [PyDict.set PyDict.get].
  - reflexivity.
  - destruct (String.eqb k0 k) eqn:E0; cbn [PyDict.get].
    + apply String.eqb_eq in E0. subst k0.
      now destruct (String.eqb k k').
    + rewrite IH. destruct (String.eqb k0 k') eqn:E1; [|reflexivity].
      apply String.eqb_eq in E1. subst k0. now rewrite String.eqb_sym, E0.
Qed.

Lemma dict_in_set (d : PyDict.dict) (k v : string) (kv : string * string) :
  In kv (PyDict.set d k v) -> kv = (k, v) \/ In kv d.
Proof.
  induction d as [|[k0 v0] d IH]; cbn [PyDict.set].
  - intros [<- | []]. now left.
  - destruct (String.eqb k0 k) eqn:E0.
    + apply String.eqb_eq in E0. subst k0.
      intros [<- | H]; [now left|right; now right].
    + intros [<- | H]; [right; now left|].
      destruct (IH H) as [-> | H']; [now left|right; now right].
Qed.

Lemma dict_set_in (d : PyDict.dict) (k v : string) :
  In (k, v) (PyDict.set d k v).
Proof.
  induction d as [|[k0 v0] d IH]; cbn [PyDict.set]; [now left|].
  destruct (String.eqb k0 k) eqn:E0; [|now right].
  apply String.eqb_eq in E0. subst k0. now left.
Qed.

Lemma dict_set_keeps (d : PyDict.dict) (k v : string) (kv : string * string) :
  In kv d -> fst kv <> k -> In kv (PyDict.set d k v).
Proof.
  induction d as [|[k0 v0] d IH]; cbn [PyDict.set]; [intros []|].
  intros [<- | H] Hne.
  - cbn [fst] in Hne. apply String.eqb_neq in Hne. rewrite Hne. now left.
  - destruct (String.eqb k0 k); right; [exact H|now apply IH].
Qed.

Lemma dict_keys_set (d : PyDict.dict) (k v k' : string) :
  In k' (map fst (PyDict.set d k v)) <-> k' = k \/ In k' (map fst d).
Proof.
  induction d as [|[k0 v0] d IH]; cbn [PyDict.set map fst].
  - split; [intros [<- | []]; now left|intros [<- | []]; now left].
  - destruct (String.eqb k0 k) eqn:E0; cbn [map fst In].
    + apply String.eqb_eq in E0. subst k0. intuition congruence.
    + rewrite IH. intuition congruence.
Qed.

Lemma dict_nodup_set (d : PyDict.dict) (k v : string) :
  NoDup (map fst d) -> NoDup (map fst (PyDict.set d k v)).
Proof.
  induction d as [|[k0 v0] d IH]; cbn [PyDict.set map fst]; intros H.
  - constructor; [intros []|constructor].
  - inversion H as [|? ? Hnin Hnd]; subst.
    destruct (String.eqb k0 k) eqn:E0; cbn [map fst].
    + now constructor.
    + constructor; [|now apply IH].
      rewrite dict_keys_set. intros [-> | Hin]; [|contradiction].
      now rewrite String.eqb_refl in E0.
Qed.

Lemma dict_nodup_of_pairs (l : list (string * string)) :
  NoDup (map fst (PyDict.of_pairs l)).
Proof.
  unfold PyDict.of_pairs.
  assert (H : forall d, NoDup (map fst d) ->
                        NoDup (map fst
                                 (fold_left
                                    (fun d kv => PyDict.set d (fst kv) (snd kv))
                                    l d))).
  { induction l as [|kv l IH]; intros d Hd; [exact Hd|].
    cbn [fold_left]. apply IH, dict_nodup_set, Hd. }
  apply H. constructor.
Qed.

Lemma dict_get_in (d : PyDict.dict) (k v : string) :
  PyDict.get d k = Some v -> In (k, v) d.
Proof.
  induction d as [|[k0 v0] d IH]; cbn [PyDict.get]; [discriminate|].
  destruct (String.eqb k0 k) eqn:E0.
  - apply String.eqb_eq in E0. subst k0. intros H. inversion H. now left.
  - intros H. right. now apply IH.
Qed.

Lemma dict_in_get (d : PyDict.dict) (k v : string) :
  NoDup (map fst d) -> In (k, v) d -> PyDict.get d k = Some v.
Proof.
  induction d as [|[k0 v0] d IH]; cbn [PyDict.get map fst]; [intros _ []|].
  intros Hnd [H | H]; inversion Hnd as [|? ? Hnin Hnd']; subst.
  - inversion H; subst. now rewrite String.eqb_refl.
  - destruct (String.eqb k0 k) eqn:E0; [|now apply IH].
    apply String.eqb_eq in E0. subst k0. exfalso. apply Hnin.
    now apply (in_map fst) in H.
Qed.

(** A dict made from pairs gives each key the value of its last pair. *)
Lemma dict_get_of_pairs (l : list (string * string)) (k : string) :
  PyDict.get (PyDict.of_pairs l) k = declared l k.
Proof.
  unfold PyDict.of_pairs.
  assert (H : forall d,
             PyDict.get
               (fold_left (fun d kv => PyDict.set d (fst kv) (snd kv)) l d) k
             = match declared l k with
               | Some u => Some u
               | None => PyDict.get d k
               end).
  { induction l as [|[k0 v0] l IH]; intros d; [reflexivity|].
    cbn [fold_left declared fst snd]. rewrite IH, dict_get_set.
    destruct (declared l k); [reflexivity|].
    now destruct (String.eqb k0 k). }
  rewrite H. now destruct (declared l k).
Qed.

Lemma declared_in (l : list (string * string)) (p u : string) :
  declared l p = Some u -> In (p, u) l.
Proof.
  induction l as [|[k v] l IH]; cbn [declared]; [discriminate|].
  destruct (declared l p) as [u'|].
  - intros H. right. now apply IH.
  - destruct (String.eqb k p) eqn:E; [|discriminate].
    apply String.eqb_eq in E. subst k. intros H. inversion H. now left.
Qed.

Lemma dict_get_named (d : PyDict.dict) (k : string) :
  PyStr.is_empty k = false ->
  PyDict.get (filter (fun kv => negb (PyStr.is_empty (fst kv))) d) k
  = PyDict.get d k.
Proof.
  intros Hk. induction d as [|[k0 v0] d IH]; [reflexivity|].
  cbn [filter fst PyDict.get]. destruct (PyStr.is_empty k0) eqn:E0; cbn [negb].
  - rewrite IH. destruct (String.eqb k0 k) eqn:E; [|reflexivity].
    apply String.eqb_eq in E. subst k0. rewrite E0 in Hk. discriminate.
  - cbn [PyDict.get]. now rewrite IH.
Qed.

Lemma dict_get_unnamed (d : PyDict.dict) :
  PyDict.get (filter (fun kv => negb (PyStr.is_empty (fst kv))) d) "" = None.
Proof.
  induction d as [|[k0 v0] d IH]; [reflexivity|].
  cbn [filter fst]. destruct k0 as [|c k0]; cbn [PyStr.is_empty negb];
    [exact IH|]. cbn [PyDict.get]. exact IH.
Qed.

(** The loop over the items leaves every prefix but [ax] as it is. *)
Lemma normalize_ax_others (items : list (string * string)) :
  forall d k, k <> "ax" ->
              PyDict.get (normalize_ax items d) k = PyDict.get d k.
Proof.
  unfold normalize_ax.
  induction items as [|[k0 v0] items IH]; intros d k Hk; [reflexivity|].
  cbn [fold_left snd]. rewrite IH by exact Hk.
  destruct (is_target v0); [|reflexivity].
  rewrite dict_get_set. destruct (String.eqb "ax" k) eqn:E; [|reflexivity].
  apply String.eqb_eq in E. now subst k.
Qed.

(** It binds [ax] to the last URI of the items that is one of the two,
    and leaves it as it is without one. *)
Lemma normalize_ax_ax (items : list (string * string)) :
  forall d,
    PyDict.get (normalize_ax items d) "ax"
    = match last_target items with
      | Some u => Some u
      | None => PyDict.get d "ax"
      end.
Proof.
  unfold normalize_ax.
  induction items as [|[k0 v0] items IH]; intros d; [reflexivity|].
  cbn [fold_left snd last_target]. rewrite IH.
  destruct (last_target items) as [u|]; [reflexivity|].
  destruct (is_target v0); [|reflexivity].
  now rewrite dict_get_set.
Qed.

Lemma last_target_some (items : list (string * string)) (u : string) :
  last_target items = Some u ->
  is_target u = true /\ exists k, In (k, u) items.
Proof.
  induction items as [|[k0 v0] items IH]; cbn [last_target]; [discriminate|].
  destruct (last_target items) as [u'|].
  - intros H. inversion H; subst.
    destruct (IH eq_refl) as [Ht (k & Hk)]. split; [exact Ht|].
    exists k. now right.
  - destruct (is_target v0) eqn:E; [|discriminate].
    intros H. inversion H; subst. split; [exact E|]. exists k0. now left.
Qed.

Lemma last_target_none (items : list (string * string)) :
  last_target items = None ->
  forall k u, In (k, u) items -> is_target u = false.
Proof.
  induction items as [|[k0 v0] items IH]; cbn [last_target]; [intros _ ? ? []|].
  destruct (last_target items) as [u'|]; [discriminate|].
  destruct (is_target v0) eqn:E; [discriminate|].
  intros _ k u [H | H]; [inversion H; now subst|now apply (IH eq_refl k)].
Qed.

(** The items of the map before the loop: those of the document with a
    prefix, and [ax] with a default namespace that is one of the two. *)
Lemma get_namespaces_items (start_ns : list (string * string)) :
  exists items,
    get_namespaces start_ns = normalize_ax items items
    /\ (forall k, k <> "ax" ->
                  PyDict.get items k
                  = if PyStr.is_empty k then None else declared start_ns k)
    /\ (forall k u, In (k, u) items ->
                    declared start_ns k = Some u
                    \/ (k = "ax" /\ declared start_ns "" = Some u
                        /\ is_target u = true))
    /\ (forall k u, declared start_ns k = Some u -> is_target u = true ->
                    exists k' u', In (k', u') items /\ is_target u' = true)
    /\ ((forall k u, declared start_ns k = Some u -> is_target u = false) ->
        PyDict.get items "ax" = declared start_ns "ax").
Proof.
  unfold get_namespaces. rewrite dict_get_of_pairs.
  set (raw := PyDict.of_pairs start_ns).
  set (named := filter (fun kv => negb (PyStr.is_empty (fst kv))) raw).
  assert (Hraw : forall k u, In (k, u) raw -> declared start_ns k = Some u).
  { intros k u H. rewrite <- dict_get_of_pairs.
    apply dict_in_get; [apply dict_nodup_of_pairs|exact H]. }
  assert (Hnamed : forall k u, In (k, u) named -> declared start_ns k = Some u).
  { intros k u H. apply filter_In in H as [H _]. now apply Hraw. }
  assert (Hget : forall k, PyDict.get named k
                           = if PyStr.is_empty k then None
                             else declared start_ns k).
  { intros k. destruct (PyStr.is_empty k) eqn:E.
    - destruct k; [apply dict_get_unnamed|discriminate].
    - unfold named. rewrite dict_get_named by exact E.
      apply dict_get_of_pairs. }
  assert (Hin : forall k u, declared start_ns k = Some u ->
                            PyStr.is_empty k = false -> In (k, u) named).
  { intros k u H E. apply dict_get_in. rewrite Hget, E. exact H. }
  destruct (declared start_ns "") as [uri|] eqn:Edef;
    [destruct (is_target uri) eqn:Et|].
  - exists (PyDict.set named "ax" uri). split; [reflexivity|].
    split; [|split; [|split]].
    + intros k Hk. rewrite dict_get_set.
      destruct (String.eqb "ax" k) eqn:E; [|apply Hget].
      apply String.eqb_eq in E. now subst k.
    + intros k u H. apply dict_in_set in H as [H | H].
      * inversion H; subst. right. auto.
      * left. now apply Hnamed.
    + intros _ _ _ _. exists "ax", uri. split; [apply dict_set_in|exact Et].
    + intros Hno. rewrite (Hno _ _ Edef) in Et. discriminate.
  - exists named. split; [reflexivity|]. split; [|split; [|split]].
    + intros k _. apply Hget.
    + intros k u H. left. now apply Hnamed.
    + intros k u H Hu. exists k, u. split; [|exact Hu]. apply Hin; [exact H|].
      destruct k; [|reflexivity]. rewrite Edef in H. inversion H; subst.
      rewrite Et in Hu. discriminate.
    + intros _. apply Hget.
  - exists named. split; [reflexivity|]. split; [|split; [|split]].
    + intros k _. apply Hget.
    + intros k u H. left. now apply Hnamed.
    + intros k u H Hu. exists k, u. split; [|exact Hu]. apply Hin; [exact H|].
      destruct k; [|reflexivity]. rewrite Edef in H. discriminate.
    + intros _. apply Hget.
Qed.

(** X1.  The map never holds the empty prefix, and every prefix other than
    [ax] is bound as the document last declares it. *)
Theorem get_namespaces_keeps_other_prefixes
    (start_ns : list (string * string)) (p : string) :
  p <> "ax" ->
  PyDict.get (get_namespaces start_ns) p
  = if PyStr.is_empty p then None else declared start_ns p.
Proof.
  intros Hp.
  destruct (get_namespaces_items start_ns) as (items & -> & Hget & _).
  rewrite normalize_ax_others by exact Hp. now apply Hget.
Qed.

Lemma get_namespaces_keeps_other_prefixes_witness :
  PyDict.get
    (get_namespaces
       [("", "http://www.adv-online.de/namespaces/adv/gid/7.1");
        ("gml", "http://www.opengis.net/gml");
        ("gml", "http://www.opengis.net/gml/3.2")]) "gml"
  = Some "http://www.opengis.net/gml/3.2".
Proof.
  apply (get_namespaces_keeps_other_prefixes
           [("", "http://www.adv-online.de/namespaces/adv/gid/7.1");
            ("gml", "http://www.opengis.net/gml");
            ("gml", "http://www.opengis.net/gml/3.2")] "gml").
  discriminate.
Defined.

(** X2.  When the document declares one of the two URIs of the NAS schema,
    for a prefix or as its default namespace, [ax] is bound to one of
    the two that the document declares, whatever the document binds
    [ax] to itself; when it declares neither, [ax] is left as the
    document has it. *)
Theorem get_namespaces_binds_ax (start_ns : list (string * string)) :
  (forall p u,
      declared start_ns p = Some u -> is_target u = true ->
      exists u' p',
        PyDict.get (get_namespaces start_ns) "ax" = Some u'
        /\ is_target u' = true /\ declared start_ns p' = Some u')
  /\ ((forall p u, declared start_ns p = Some u -> is_target u = false) ->
      PyDict.get (get_namespaces start_ns) "ax" = declared start_ns "ax").
Proof.
  destruct (get_namespaces_items start_ns)
    as (items & -> & _ & Hitems & Hsome & Hnone).
  split.
  - intros p u Hp Hu. destruct (Hsome p u Hp Hu) as (k' & u' & Hin & Hu').
    rewrite normalize_ax_ax.
    destruct (last_target items) as [v|] eqn:E.
    + apply last_target_some in E as [Hv (k & Hk)].
      destruct (Hitems k v Hk) as [H | (_ & H & _)].
      * exists v, k. auto.
      * exists v, "". auto.
    + rewrite (last_target_none items E k' u' Hin) in Hu'. discriminate.
  - intros Hno. rewrite normalize_ax_ax.
    destruct (last_target items) as [v|] eqn:E; [|now apply Hnone].
    apply last_target_some in E as [Hv (k & Hk)].
    destruct (Hitems k v Hk) as [H | (_ & H & _)];
      rewrite (Hno _ _ H) in Hv; discriminate.
Qed.

Lemma get_namespaces_binds_ax_witness :
  (exists u' p',
      PyDict.get
        (get_namespaces
           [("ax", "http://example.org/other");
            ("", "http://www.adv-online.de/namespaces/adv/gid/6.0");
            ("wfs", "http://www.opengis.net/wfs/2.0")]) "ax" = Some u'
      /\ is_target u' = true
      /\ declared
           [("ax", "http://example.org/other");
            ("", "http://www.adv-online.de/namespaces/adv/gid/6.0");
            ("wfs", "http://www.opengis.net/wfs/2.0")] p' = Some u')
  /\ PyDict.get (get_namespaces [("ax", "http://example.org/other")]) "ax"
     = Some "http://example.org/other".
Proof.
  split.
  - apply (proj1 (get_namespaces_binds_ax
                    [("ax", "http://example.org/other");
                     ("", "http://www.adv-online.de/namespaces/adv/gid/6.0");
                     ("wfs", "http://www.opengis.net/wfs/2.0")])
             "" "http://www.adv-online.de/namespaces/adv/gid/6.0");
      reflexivity.
  - apply (proj2 (get_namespaces_binds_ax [("ax", "http://example.org/other")])).
    intros p u H. cbn [declared] in H.
    destruct (String.eqb "ax" p); [|discriminate].
    inversion H. reflexivity.
Defined.

(** ** Prefixes and further occurrences *)

Lemma prefix_self_app (a t : string) : prefix a (a ++ t) = true.
Proof.
  induction a as [|c a IH]; [now destruct t|].
  cbn [append]. rewrite prefix_cons.
  now destruct (Ascii.ascii_dec c c).
Qed.

Lemma prefix_app_inv (a s : string) :
  prefix a s = true -> exists r, s = a ++ r.
Proof.
  revert s. induction a as [|c a IH]; intros s H; [now exists s|].
  destruct s as [|d s]; [discriminate|]. rewrite prefix_cons in H.
  destruct (Ascii.ascii_dec c d) as [<- | _]; [|discriminate].
  destruct (IH s H) as (r & ->). now exists r.
Qed.

(** Passing over a matched occurrence. *)
Lemma replace_from_skip (old new a t : string) :
  PyStr.replace_from old new (String.length a) (a ++ t)
  = PyStr.replace_from old new 0 t.
Proof.
  induction a as [|c a IH]; [reflexivity|]. exact IH.
Qed.

Lemma replace_leading (c : ascii) (old new t : string) :
  PyStr.replace (String c old ++ t) (String c old) new
  = new ++ PyStr.replace t (String c old) new.
Proof.
  unfold PyStr.replace. cbn [append PyStr.replace_from].
  change (String c (old ++ t)) with (String c old ++ t).
  rewrite prefix_self_app.
  replace (String.length (String c old) - 1) with (String.length old)
    by (cbn [String.length]; lia).
  now rewrite replace_from_skip.
Qed.

Lemma replace_without (old new t : string) :
  PyStr.contains t old = false -> PyStr.replace t old new = t.
Proof.
  unfold PyStr.replace. induction t as [|c t IH]; intros H; [reflexivity|].
  cbn [PyStr.contains] in H. apply orb_false_iff in H as [Hp Hc].
  cbn [PyStr.replace_from]. rewrite Hp, (IH Hc). reflexivity.
Qed.

Lemma startswith_without (old t : string) :
  PyStr.contains t old = false -> PyStr.startswith t old = false.
Proof.
  unfold PyStr.startswith. destruct t; cbn [PyStr.contains]; intros H.
  - now apply orb_false_iff in H as [H _].
  - now apply orb_false_iff in H as [H _].
Qed.

Lemma prefix_stripped_from_front (t : string) :
  PyStr.contains t CRS_NAMESPACE = false ->
  remove_crs_prefix (CRS_NAMESPACE ++ t) = t /\ remove_crs_prefix t = t.
Proof.
  intros H. split.
  - unfold remove_crs_prefix, PyStr.startswith.
    rewrite prefix_self_app.
    transitivity ("" ++ PyStr.replace t CRS_NAMESPACE "");
      [apply (replace_leading "u")|].
    now rewrite (replace_without _ _ _ H).
  - unfold remove_crs_prefix. now rewrite (startswith_without _ _ H).
Qed.

(** X3.  Both functions take the prefix off a string that starts with it,
    together with every further occurrence of it; from a string that
    holds the prefix at the front only, the prefix alone goes, a string
    that does not hold it at all is returned as it is, and on such
    strings a second stripping changes nothing. *)
Theorem prefix_stripped_with_every_occurrence (t : string) :
  remove_gml_id_prefix (ID_NAMESPACE ++ t) = PyStr.replace t ID_NAMESPACE ""
  /\ remove_crs_prefix (CRS_NAMESPACE ++ t) = PyStr.replace t CRS_NAMESPACE ""
  /\ (PyStr.contains t ID_NAMESPACE = false ->
      remove_gml_id_prefix (ID_NAMESPACE ++ t) = t
      /\ remove_gml_id_prefix t = t
      /\ remove_gml_id_prefix (remove_gml_id_prefix (ID_NAMESPACE ++ t))
         = remove_gml_id_prefix (ID_NAMESPACE ++ t))
  /\ (PyStr.contains t CRS_NAMESPACE = false ->
      remove_crs_prefix (CRS_NAMESPACE ++ t) = t
      /\ remove_crs_prefix t = t
      /\ remove_crs_prefix (remove_crs_prefix (CRS_NAMESPACE ++ t))
         = remove_crs_prefix (CRS_NAMESPACE ++ t)).
Proof.
  assert (Hid : remove_gml_id_prefix (ID_NAMESPACE ++ t)
                = PyStr.replace t ID_NAMESPACE "").
  { unfold remove_gml_id_prefix, PyStr.startswith.
    rewrite prefix_self_app. apply (replace_leading "u"). }
  assert (Hcrs : remove_crs_prefix (CRS_NAMESPACE ++ t)
                 = PyStr.replace t CRS_NAMESPACE "").
  { unfold remove_crs_prefix, PyStr.startswith.
    rewrite prefix_self_app. apply (replace_leading "u"). }
  split; [exact Hid|]. split; [exact Hcrs|]. split.
  - intros H.
    assert (Ht : remove_gml_id_prefix t = t).
    { unfold remove_gml_id_prefix. now rewrite (startswith_without _ _ H). }
    rewrite Hid, (replace_without _ _ _ H). auto.
  - intros H.
    assert (Ht : remove_crs_prefix t = t).
    { unfold remove_crs_prefix. now rewrite (startswith_without _ _ H). }
    rewrite Hcrs, (replace_without _ _ _ H). auto.
Qed.

Lemma prefix_stripped_with_every_occurrence_witness :
  remove_gml_id_prefix (ID_NAMESPACE ++ "DEBBAL0100000001") = "DEBBAL0100000001"
  /\ remove_crs_prefix (CRS_NAMESPACE ++ "ETRS89_UTM33") = "ETRS89_UTM33".
Proof.
  split.
  - apply (proj1 (proj2 (proj2 (prefix_stripped_with_every_occurrence
                                  "DEBBAL0100000001")))).
    reflexivity.
  - apply (proj2 (proj2 (proj2 (prefix_stripped_with_every_occurrence
                                  "ETRS89_UTM33")))).
    reflexivity.
Defined.

(** ** The names that are formatted *)

(** X19.  The names the function formats are those of the pattern and no
    others: [ETRS89_UTM] in any case, then digits, then nothing or one
    newline.  The digits are copied as they stand: no zone number is
    turned down, and none is brought to a shorter form. *)
Theorem format_crs_name_accepts_exactly (s r : string) :
  format_crs_name s = Ok r
  <-> exists p zone,
        same_ignoring_case "ETRS89_UTM" p = true
        /\ all_digits zone = true /\ zone <> EmptyString
        /\ (s = p ++ zone
            \/ s = p ++ zone ++ String (ascii_of_nat 10) EmptyString)
        /\ r = "ETRS89 / UTM zone " ++ zone ++ "N".
Proof.
  split.
  - unfold format_crs_name.
    destruct (Regex.pattern_match s) as [zone|] eqn:E; [|discriminate].
    intros H. inversion H; subst r.
    apply pattern_match_inv in E as (p & Hp & Hd & Hne & Hs).
    now exists p, zone.
  - intros (p & zone & Hp & Hd & Hne & [-> | ->] & ->).
    + now apply format_crs_name_digits.
    + unfold format_crs_name, Regex.pattern_match.
      rewrite (match_literal_app _ _ _ Hp), (span_digits_newline _ Hd).
      destruct zone; [contradiction|reflexivity].
Qed.

(** ** The reference system of the document *)

Lemma lacks_app (c : ascii) (a b : string) :
  lacks c (a ++ b) = lacks c a && lacks c b.
Proof.
  induction a as [|d a IH]; [reflexivity|]. cbn [append lacks].
  now rewrite IH, andb_assoc.
Qed.

(** A string without a colon holds no occurrence of the prefix. *)
Lemma lacks_colon_without (t : string) :
  lacks ":" t = true -> PyStr.contains t CRS_NAMESPACE = false.
Proof.
  induction t as [|c t IH]; intros H; [reflexivity|].
  cbn [PyStr.contains]. apply orb_false_iff. split.
  - apply not_true_is_false. intros Hp.
    apply prefix_app_inv in Hp as (r & E). rewrite E, lacks_app in H.
    discriminate.
  - cbn [lacks] in H. apply andb_true_iff in H as [_ H]. now apply IH.
Qed.

Lemma lacks_colon_digits (zone : string) :
  all_digits zone = true -> lacks ":" zone = true.
Proof.
  induction zone as [|c zone IH]; [reflexivity|]. cbn [all_digits lacks].
  intros H. apply andb_true_iff in H as [Hc Hz]. rewrite (IH Hz), andb_true_r.
  destruct (Ascii.eqb ":" c) eqn:E; [|reflexivity].
  apply Ascii.eqb_eq in E. subst c. discriminate.
Qed.

Lemma lower_colon (b : ascii) : Regex.lower b = ":"%char -> b = ":"%char.
Proof.
  unfold Regex.lower. intros H.
  destruct ((65 <=? nat_of_ascii b) && (nat_of_ascii b <=? 90))%nat eqn:E;
    [|exact H].
  apply andb_true_iff in E as [E1 E2].
  apply Nat.leb_le in E1, E2.
  apply (f_equal nat_of_ascii) in H.
  rewrite nat_ascii_embedding in H by lia. cbn in H. lia.
Qed.

Lemma lacks_colon_same (lit p : string) :
  same_ignoring_case lit p = true -> lacks ":" lit = true ->
  lacks ":" p = true.
Proof.
  revert p. induction lit as [|a lit IH]; intros [|b p] H Hl;
    try discriminate; [reflexivity|].
  cbn [same_ignoring_case] in H. apply andb_true_iff in H as [Hab Hs].
  cbn [lacks] in Hl. apply andb_true_iff in Hl as [Ha Hl].
  cbn [lacks]. rewrite (IH p Hs Hl), andb_true_r.
  destruct (Ascii.eqb ":" b) eqn:E; [|reflexivity].
  apply Ascii.eqb_eq in E. subst b. apply Ascii.eqb_eq in Hab.
  change (Regex.lower ":") with ":"%char in Hab.
  apply lower_colon in Hab. subst a. discriminate.
Qed.

Lemma is_standard_iff (ns : Namespaces) (a : Element) :
  is_standard ns a = true <-> ET.findtext a [ax ns "standard"] = Some "true".
Proof.
  unfold is_standard. destruct (ET.findtext a [ax ns "standard"]) as [t|].
  - rewrite String.eqb_eq. split; [now intros ->|intros H; now inversion H].
  - split; discriminate.
Qed.

Lemma crs_loop_cons (ns : Namespaces) (a : Element) (rest : list Element) :
  crs_loop ns (a :: rest)
  = if is_standard ns a then crs_loop ns [a] else crs_loop ns rest.
Proof.
  unfold is_standard. cbn [crs_loop].
  destruct (ET.findtext a [ax ns "standard"]) as [t|]; [|reflexivity].
  do 4 (destruct t as [|c t]; [reflexivity|];
        destruct c as [[] [] [] [] [] [] [] []]; try reflexivity).
  destruct t; reflexivity.
Qed.

Lemma crs_loop_find (ns : Namespaces) (angaben : list Element) :
  crs_loop ns angaben
  = match find (is_standard ns) angaben with
    | Some a => crs_loop ns [a]
    | None => Ok None
    end.
Proof.
  induction angaben as [|a rest IH]; [reflexivity|].
  rewrite crs_loop_cons. cbn [find].
  destruct (is_standard ns a); [reflexivity|exact IH].
Qed.

Lemma extract_original_crs_from_xml_find (ns : Namespaces) (root : Element) :
  extract_original_crs_from_xml ns root
  = match find (is_standard ns) (crs_declarations ns root) with
    | Some a => crs_loop ns [a]
    | None => Ok None
    end.
Proof.
  unfold extract_original_crs_from_xml, find_elements, crs_declarations.
  destruct (ET.xpath root _) as [|a rest] eqn:E; [reflexivity|].
  apply crs_loop_find.
Qed.

(** What the loop does on the declaration that decides. *)
Lemma crs_loop_standard (ns : Namespaces) (a : Element) :
  is_standard ns a = true ->
  crs_loop ns [a]
  = match ET.find a [ax ns "crs"] with
    | None => Raise (AttributeError "'NoneType' object has no attribute 'attrib'")
    | Some crs =>
        match ET.get crs XLINK_HREF with
        | None =>
            Raise (ValueError
                     ("error when formatting extracted crs: None: "
                      ++ String (ascii_of_nat 10)
                           "'NoneType' object has no attribute 'startswith'"))
        | Some href =>
            match format_crs_name (remove_crs_prefix href) with
            | Ok original_crs => Ok (Some original_crs)
            | Raise e =>
                Raise (ValueError
                         ("error when formatting extracted crs: " ++ href
                          ++ ": " ++ String (ascii_of_nat 10) (exn_str e)))
            end
        end
    end.
Proof.
  intros H. apply is_standard_iff in H. cbn [crs_loop]. rewrite H.
  destruct (ET.find a [ax ns "crs"]) as [crs|]; [|reflexivity].
  destruct (ET.get crs XLINK_HREF) as [href|]; reflexivity.
Qed.

(** X4.  The method returns [None] only for a document without a declaration
    marked as standard, and a name only of the form
    [ETRS89 / UTM zone <digits>N]; it raises a [ValueError] whose message
    starts with the link target as it stands in the document, or the
    [AttributeError] of a standard declaration without [ax:crs], and
    nothing else. *)
Theorem extract_original_crs_from_xml_outcomes (ns : Namespaces) (root : Element) :
  match extract_original_crs_from_xml ns root with
  | Ok None =>
      forall a, In a (crs_declarations ns root) -> is_standard ns a = false
  | Ok (Some crs_name) =>
      exists zone,
        all_digits zone = true /\ zone <> EmptyString
        /\ crs_name = "ETRS89 / UTM zone " ++ zone ++ "N"
  | Raise (ValueError msg) =>
      exists a crs shown cause,
        In a (crs_declarations ns root) /\ is_standard ns a = true
        /\ ET.find a [ax ns "crs"] = Some crs
        /\ shown = match ET.get crs XLINK_HREF with
                   | Some href => href
                   | None => "None"
                   end
        /\ msg = "error when formatting extracted crs: " ++ shown ++ ": "
                 ++ String (ascii_of_nat 10) cause
  | Raise (AttributeError _) =>
      exists a,
        In a (crs_declarations ns root) /\ is_standard ns a = true
        /\ ET.find a [ax ns "crs"] = None
  | Raise _ => False
  end.
Proof.
  rewrite extract_original_crs_from_xml_find.
  destruct (find (is_standard ns) (crs_declarations ns root)) as [a|] eqn:Ef.
  - apply find_some in Ef as [Hin Hstd]. rewrite (crs_loop_standard ns a Hstd).
    destruct (ET.find a [ax ns "crs"]) as [crs|] eqn:Ec.
    + destruct (ET.get crs XLINK_HREF) as [href|] eqn:Eh.
      * unfold format_crs_name.
        destruct (Regex.pattern_match (remove_crs_prefix href)) as [zone|] eqn:Ep.
        -- apply pattern_match_inv in Ep as (p & _ & Hd & Hne & _).
           now exists zone.
        -- exists a, crs, href. eexists. rewrite Eh. repeat split; auto.
      * exists a, crs, "None". eexists. rewrite Eh. repeat split; auto.
    + now exists a.
  - intros a Hin. apply (find_none _ _ Ef a Hin).
Qed.

(** X5.  The first declaration marked as standard decides, whatever follows
    it: when its link target is [ETRS89_UTM<digits>] in any case, with or
    without the prefix [urn:adv:crs:], the name is
    [ETRS89 / UTM zone <digits>N]; and without a declaration marked as
    standard the method returns [None]. *)
Theorem extract_original_crs_from_xml_first_standard
    (ns : Namespaces) (root : Element) :
  (find (is_standard ns) (crs_declarations ns root) = None ->
   extract_original_crs_from_xml ns root = Ok None)
  /\ (forall a crs href p zone,
         find (is_standard ns) (crs_declarations ns root) = Some a ->
         ET.find a [ax ns "crs"] = Some crs ->
         ET.get crs XLINK_HREF = Some href ->
         href = CRS_NAMESPACE ++ p ++ zone \/ href = p ++ zone ->
         same_ignoring_case "ETRS89_UTM" p = true ->
         all_digits zone = true -> zone <> EmptyString ->
         extract_original_crs_from_xml ns root
         = Ok (Some ("ETRS89 / UTM zone " ++ zone ++ "N"))).
Proof.
  split.
  - intros H. now rewrite extract_original_crs_from_xml_find, H.
  - intros a crs href p zone Hf Hc Hh Hhref Hp Hd Hne.
    rewrite extract_original_crs_from_xml_find, Hf.
    apply find_some in Hf as [_ Hstd].
    rewrite (crs_loop_standard ns a Hstd), Hc, Hh.
    assert (Hfree : PyStr.contains (p ++ zone) CRS_NAMESPACE = false).
    { apply lacks_colon_without. rewrite lacks_app.
      rewrite (lacks_colon_same _ _ Hp eq_refl), (lacks_colon_digits _ Hd).
      reflexivity. }
    destruct (prefix_stripped_from_front (p ++ zone) Hfree) as [Hpre Hnone].
    assert (Hstrip : remove_crs_prefix href = p ++ zone)
      by (destruct Hhref as [-> | ->]; assumption).
    now rewrite Hstrip, (format_crs_name_digits _ _ Hp Hd Hne).
Qed.

Lemma extract_original_crs_from_xml_first_standard_witness :
  extract_original_crs_from_xml Fixture.ns
    (Fixture.el "root" [] None
       [Fixture.crs_declaration "urn:adv:crs:etrs89_utm32";
        Fixture.crs_declaration "urn:adv:crs:ETRS89_UTM33"])
  = Ok (Some "ETRS89 / UTM zone 32N").
Proof.
  apply (proj2 (extract_original_crs_from_xml_first_standard Fixture.ns _)
           (Fixture.el (ax Fixture.ns "AA_Koordinatenreferenzsystemangaben")
              [] None
              [Fixture.link "crs" "urn:adv:crs:etrs89_utm32";
               Fixture.leaf "standard" "true"])
           (Fixture.link "crs" "urn:adv:crs:etrs89_utm32")
           "urn:adv:crs:etrs89_utm32" "etrs89_utm" "32");
    try reflexivity.
  - left. reflexivity.
  - discriminate.
Defined.

(** ** A position of a single coordinate *)

Lemma split_from_spaces (a rest : string) :
  all_space a = true ->
  PyStr.split_from EmptyString (a ++ rest) = PyStr.split_from EmptyString rest.
Proof.
  induction a as [|c a IH]; intros H; [reflexivity|].
  cbn [all_space] in H. apply andb_true_iff in H as [Hc Ha].
  cbn [append PyStr.split_from]. rewrite Hc. cbn [PyStr.is_empty].
  now apply IH.
Qed.

Lemma split_from_token (tok rest : string) :
  forall cur,
    no_space tok = true ->
    PyStr.split_from cur (tok ++ rest) = PyStr.split_from (cur ++ tok) rest.
Proof.
  induction tok as [|c tok IH]; intros cur H.
  - cbn [append]. replace (cur ++ "") with cur; [reflexivity|].
    clear. induction cur as [|x cur IH]; [reflexivity|]. cbn. now rewrite <- IH.
  - cbn [no_space] in H. apply andb_true_iff in H as [Hc Ht].
    apply negb_true_iff in Hc.
    cbn [append PyStr.split_from]. rewrite Hc, (IH _ Ht), string_append_assoc.
    reflexivity.
Qed.

Lemma split_from_trailing (b : string) :
  forall cur,
    all_space b = true ->
    PyStr.split_from cur b = if PyStr.is_empty cur then [] else [cur].
Proof.
  induction b as [|c b IH]; intros cur H; [reflexivity|].
  cbn [all_space] in H. apply andb_true_iff in H as [Hc Hb].
  cbn [PyStr.split_from]. rewrite Hc, (IH EmptyString Hb). cbn [PyStr.is_empty].
  reflexivity.
Qed.

Lemma split_from_nil (s : string) :
  forall cur,
    PyStr.split_from cur s = [] -> cur = EmptyString /\ all_space s = true.
Proof.
  induction s as [|c s IH]; intros cur H.
  - cbn in H. destruct cur; [now split|discriminate].
  - cbn [PyStr.split_from] in H. destruct (PyStr.isspace c) eqn:Hc.
    + destruct cur; cbn [PyStr.is_empty] in H; [|discriminate].
      destruct (IH _ H) as [_ Hs]. split; [reflexivity|].
      cbn [all_space]. now rewrite Hc, Hs.
    + apply IH in H as [H _]. destruct cur; discriminate.
Qed.

(** With a token being read, one token in all means that the token goes
    on and only white space follows. *)
Lemma split_from_one (s : string) :
  forall cur,
    cur <> EmptyString ->
    List.length (PyStr.split_from cur s) = 1 ->
    exists tok b, s = tok ++ b /\ no_space tok = true /\ all_space b = true.
Proof.
  induction s as [|c s IH]; intros cur Hcur H.
  - exists EmptyString, EmptyString. repeat split.
  - cbn [PyStr.split_from] in H. destruct (PyStr.isspace c) eqn:Hc.
    + destruct cur; [contradiction|]. cbn [PyStr.is_empty List.length] in H.
      assert (Hnil : PyStr.split_from EmptyString s = [])
        by (destruct (PyStr.split_from EmptyString s); [reflexivity|discriminate]).
      apply split_from_nil in Hnil as [_ Hs].
      exists EmptyString, (String c s). repeat split.
      cbn [all_space]. now rewrite Hc, Hs.
    + destruct (IH (cur ++ String c EmptyString)) as (tok & b & -> & Ht & Hb).
      * destruct cur; discriminate.
      * exact H.
      * exists (String c tok), b. repeat split; [|exact Hb].
        cbn [no_space]. now rewrite Hc, Ht.
Qed.

Lemma split_one (s : string) :
  List.length (PyStr.split_from EmptyString s) = 1 ->
  exists a tok b,
    s = a ++ tok ++ b /\ all_space a = true /\ all_space b = true
    /\ no_space tok = true /\ tok <> EmptyString.
Proof.
  induction s as [|c s IH]; intros H; [discriminate|].
  cbn [PyStr.split_from PyStr.is_empty] in H.
  destruct (PyStr.isspace c) eqn:Hc.
  - destruct (IH H) as (a & tok & b & -> & Ha & Hb & Ht & Hne).
    exists (String c a), tok, b. repeat split; try assumption.
    cbn [all_space]. now rewrite Hc, Ha.
  - cbn [append] in H.
    destruct (split_from_one s (String c EmptyString)) as (tok & b & -> & Ht & Hb);
      [discriminate|exact H|].
    exists EmptyString, (String c tok), b. repeat split; try assumption.
    + cbn [no_space]. now rewrite Hc, Ht.
    + discriminate.
Qed.

(** X6.  The test of the method on the text of a position,
    [len(pos.text.strip().split()) == 1], holds of the texts made of one
    run of characters that are not white space, with white space before
    and after it or not, and of no other text. *)
Theorem single_coordinate_one_token (t : string) :
  single_coordinate t = true
  <-> exists a tok b,
        t = a ++ tok ++ b /\ all_space a = true /\ all_space b = true
        /\ no_space tok = true /\ tok <> EmptyString.
Proof.
  rewrite single_coordinate_iff. unfold PyStr.split. split.
  - apply split_one.
  - intros (a & tok & b & -> & Ha & Hb & Ht & Hne).
    rewrite (split_from_spaces a _ Ha), (split_from_token tok b _ Ht).
    rewrite (split_from_trailing b _ Hb). cbn [append].
    destruct tok; [contradiction|reflexivity].
Qed.

(** ** The tree after the removal *)

Lemma Element_nested_ind (P : Element -> Prop) :
  (forall t a x cs, Forall P cs -> P (mkElement t a x cs)) ->
  forall e, P e.
Proof.
  intros H. fix IH 1. intros [t a x cs]. apply H.
  induction cs as [|c cs IHcs]; constructor; [apply IH|exact IHcs].
Qed.

Lemma flat_mapi_map {A B C} (g : B -> C) (f : nat -> A -> list B)
    (i : nat) (l : list A) :
  map g (ET.flat_mapi f i l) = ET.flat_mapi (fun j a => map g (f j a)) i l.
Proof.
  revert i. induction l as [|a l IH]; intros i; [reflexivity|].
  simpl. now rewrite map_app, IH.
Qed.

Lemma flat_mapi_filter {A B} (g : B -> bool) (f : nat -> A -> list B)
    (i : nat) (l : list A) :
  filter g (ET.flat_mapi f i l) = ET.flat_mapi (fun j a => filter g (f j a)) i l.
Proof.
  revert i. induction l as [|a l IH]; intros i; [reflexivity|].
  simpl. now rewrite filter_app, IH.
Qed.

Lemma flat_mapi_ext {A B} (f g : nat -> A -> list B) (i : nat) (l : list A) :
  Forall (fun a => forall j, f j a = g j a) l ->
  ET.flat_mapi f i l = ET.flat_mapi g i l.
Proof.
  intros H. revert i. induction H as [|a l Ha Hl IH]; intros i; [reflexivity|].
  simpl. now rewrite Ha, IH.
Qed.

(** The nodes of a subtree are the same wherever the subtree hangs, but
    for their paths and ancestors. *)
Lemma nodes_from_relocate (e : Element) :
  forall anc here,
    ET.nodes_from anc here e = map (relocate anc here) (ET.nodes_from [] [] e).
Proof.
  induction e as [t a x cs IH] using Element_nested_ind. intros anc here.
  cbn [ET.nodes_from map]. f_equal.
  - unfold relocate. cbn. now rewrite app_nil_r.
  - rewrite flat_mapi_map. apply flat_mapi_ext.
    eapply Forall_impl; [|exact IH]. intros c Hc j. cbn beta.
    rewrite (Hc (t :: anc) (here ++ [j])%list), (Hc [t] ([] ++ [j])%list), map_map.
    apply map_ext. intros n. unfold relocate. cbn.
    now rewrite <- !app_assoc.
Qed.

Lemma labels_nodes_from (anc : list string) (here : list nat) (e : Element) :
  map label (ET.nodes_from anc here e) = map (under anc) (labels e).
Proof.
  unfold labels. rewrite nodes_from_relocate, !map_map. reflexivity.
Qed.

Lemma nodes_from_lengths (e : Element) (n : ET.Node) :
  In n (ET.nodes_from [] [] e) ->
  List.length (ET.node_path n) = List.length (ET.node_ancestors n).
Proof.
  revert n. induction e as [t a x cs IH] using Element_nested_ind.
  intros n [<- | Hin]; [reflexivity|]. cbn [ET.nodes_from] in Hin.
  revert Hin. generalize 0. induction IH as [|c cs Hc _ IHcs]; intros i Hin;
    [destruct Hin|].
  cbn [ET.flat_mapi] in Hin. apply in_app_or in Hin as [Hin | Hin].
  - rewrite nodes_from_relocate in Hin. apply in_map_iff in Hin as (m & <- & Hm).
    unfold relocate. cbn. rewrite length_app, (Hc m Hm). cbn. lia.
  - now apply (IHcs (S i)).
Qed.

Lemma removed_with_hit (ps : list (list nat)) (i : nat) (q : list nat) :
  existsb (ET.path_is i) ps = true -> removed_with ps (i :: q) = true.
Proof.
  unfold removed_with. rewrite !existsb_exists. intros (p & Hp & Hi).
  exists p. split; [exact Hp|].
  destruct p as [|j [|k p]]; try discriminate. simpl in *.
  rewrite Nat.eqb_sym, Hi. reflexivity.
Qed.

Lemma removed_with_miss (ps : list (list nat)) (i : nat) (q : list nat) :
  ~ In [] ps -> existsb (ET.path_is i) ps = false ->
  removed_with ps (i :: q) = removed_with (ET.paths_below i ps) q.
Proof.
  unfold removed_with. induction ps as [|p ps IH]; intros Hnil Hi; [reflexivity|].
  assert (Hnil' : ~ In [] ps) by (intros H; apply Hnil; now right).
  cbn [existsb] in Hi. apply orb_false_iff in Hi as [Hp Hi].
  cbn [existsb]. rewrite (IH Hnil' Hi).
  destruct p as [|j [|k p]].
  - exfalso. apply Hnil. now left.
  - cbn in Hp. cbn. rewrite Nat.eqb_sym, Hp. reflexivity.
  - cbn [ET.paths_below is_prefix]. rewrite (Nat.eqb_sym j i).
    destruct (Nat.eqb i j); reflexivity.
Qed.

Lemma paths_below_nonempty (i : nat) (ps : list (list nat)) :
  ~ In [] (ET.paths_below i ps).
Proof.
  induction ps as [|p ps IH]; [intros []|].
  destruct p as [|j [|k p]]; cbn [ET.paths_below]; try exact IH.
  destruct (Nat.eqb i j); [|exact IH].
  intros [H | H]; [discriminate|now apply IH].
Qed.

Lemma tag_detach (ps : list (list nat)) (e : Element) :
  tag (ET.detach ps e) = tag e.
Proof. now destruct e. Qed.

Lemma attrib_detach (ps : list (list nat)) (e : Element) :
  attrib (ET.detach ps e) = attrib e.
Proof. now destruct e. Qed.

Lemma text_detach (ps : list (list nat)) (e : Element) :
  text (ET.detach ps e) = text e.
Proof. now destruct e. Qed.

(** The nodes of the tree after the removal of the nodes at [ps]: the
    nodes that are neither at one of the paths nor below one, in the
    order they had and under the ancestors they had, each without what
    was removed below it. *)
Lemma detach_nodes (e : Element) :
  forall ps,
    ~ In [] ps ->
    map seen (ET.nodes_from [] [] (ET.detach ps e))
    = map (fun n => (ET.node_ancestors n,
                     ET.detach (paths_under (ET.node_path n) ps)
                               (ET.node_elem n)))
        (filter (fun n => negb (removed_with ps (ET.node_path n)))
                (ET.nodes_from [] [] e)).
Proof.
  induction e as [t a x cs IH] using Element_nested_ind. intros ps Hnil.
  cbn [ET.detach ET.nodes_from filter ET.node_path].
  assert (Hroot : removed_with ps [] = false).
  { unfold removed_with. apply not_true_is_false. intros H.
    apply existsb_exists in H as (p & Hp & Hpre).
    destruct p; [now apply Hnil|discriminate]. }
  rewrite Hroot. cbn [negb map]. f_equal.
  rewrite flat_mapi_filter, !flat_mapi_map. cbn [app].
  enough (H : forall i j,
             ET.flat_mapi
               (fun k c => map seen (ET.nodes_from [t] [k] c)) i
               (ET.flat_mapi
                  (fun k c =>
                     if existsb (ET.path_is k) ps then []
                     else [ET.detach (ET.paths_below k ps) c]) j cs)
             = ET.flat_mapi
                 (fun k c =>
                    map (fun n => (ET.node_ancestors n,
                                   ET.detach (paths_under (ET.node_path n) ps)
                                             (ET.node_elem n)))
                      (filter
                         (fun n => negb (removed_with ps (ET.node_path n)))
                         (ET.nodes_from [t] [k] c))) j cs)
    by apply H.
  induction IH as [|c cs Hc _ IHcs]; intros i j; [reflexivity|].
  cbn [ET.flat_mapi].
  destruct (existsb (ET.path_is j) ps) eqn:Hj.
  - rewrite app_nil_l, (IHcs i (S j)).
    replace (filter (fun n => negb (removed_with ps (ET.node_path n)))
               (ET.nodes_from [t] [j] c)) with (@nil ET.Node);
      [reflexivity|].
    symmetry. rewrite nodes_from_relocate.
    generalize (ET.nodes_from [] [] c). intros l.
    induction l as [|m l IHl]; [reflexivity|].
    cbn [map filter relocate ET.node_path app].
    rewrite (removed_with_hit ps j _ Hj). cbn [negb]. exact IHl.
  - rewrite <- app_comm_cons, app_nil_l.
    cbn [ET.flat_mapi]. rewrite (IHcs (S i) (S j)). f_equal.
    rewrite (nodes_from_relocate (ET.detach (ET.paths_below j ps) c)).
    rewrite map_map.
    change (fun n => seen (relocate [t] [i] n))
      with (fun n => (fun s : list string * Element =>
                        ((fst s ++ [t])%list, snd s)) (seen n)).
    rewrite <- (map_map seen).
    rewrite (Hc (ET.paths_below j ps) (paths_below_nonempty j ps)).
    rewrite (nodes_from_relocate c [t]).
    generalize (ET.nodes_from [] [] c). intros l.
    induction l as [|m l IHl]; [reflexivity|].
    cbn [map filter relocate ET.node_path app].
    rewrite (removed_with_miss ps j _ Hnil Hj).
    destruct (removed_with (ET.paths_below j ps) (ET.node_path m));
      cbn [negb map]; [exact IHl|]. rewrite IHl. reflexivity.
Qed.

(** The content of the tree after the removal. *)
Lemma detach_labels (e : Element) (ps : list (list nat)) :
  ~ In [] ps ->
  labels (ET.detach ps e)
  = map label
      (filter (fun n => negb (removed_with ps (ET.node_path n)))
              (ET.nodes_from [] [] e)).
Proof.
  intros Hnil. unfold labels.
  transitivity
    (map (fun s : list string * Element =>
            (fst s, tag (snd s), attrib (snd s), text (snd s)))
       (map seen (ET.nodes_from [] [] (ET.detach ps e)))).
  - rewrite map_map. reflexivity.
  - rewrite (detach_nodes e ps Hnil), map_map. apply map_ext. intros n.
    cbn [fst snd]. unfold label.
    now rewrite tag_detach, attrib_detach, text_detach.
Qed.

Lemma tags_match_length (want have : list string) :
  ET.tags_match want have = true -> List.length want <= List.length have.
Proof.
  revert have. induction want as [|w want IH]; intros have H; [simpl; lia|].
  destruct have as [|h have]; [discriminate|]. simpl in H.
  apply andb_true_iff in H as [_ H]. specialize (IH _ H). simpl. lia.
Qed.

(** A node found by a query of two steps or more is not the root. *)
Lemma xpath_nodes_below_root (root : Element) (steps : list string)
    (n : ET.Node) :
  2 <= List.length steps -> In n (ET.xpath_nodes root steps) ->
  ET.node_path n <> [].
Proof.
  intros Hlen Hin. unfold ET.xpath_nodes in Hin.
  apply filter_In in Hin as [Hin Hm].
  apply tags_match_length in Hm. rewrite length_rev in Hm. cbn in Hm.
  apply nodes_from_lengths in Hin. intros E. rewrite E in Hin. cbn in Hin. lia.
Qed.

Lemma removed_members_below_root (ns : Namespaces) (root : Element) :
  ~ In [] (map ET.node_path (removed_members ns root)).
Proof.
  intros H. apply in_map_iff in H as (n & Hp & Hn).
  unfold removed_members in Hn. apply filter_In in Hn as [Hn _].
  unfold member_nodes in Hn.
  destruct (ET.xpath_nodes root
              [ax ns "enthaelt"; wfs ns "FeatureCollection"; wfs ns "member"])
    as [|m ms] eqn:E.
  - apply xpath_nodes_below_root in Hn; [contradiction|simpl; lia].
  - rewrite <- E in Hn.
    apply xpath_nodes_below_root in Hn; [contradiction|simpl; lia].
Qed.

(** ** A tree is known by its content *)

Lemma depth_under (anc : list string) (l : Label) :
  depth (under anc l) = depth l + List.length anc.
Proof. destruct l as [[[a t] kvs] x]. cbn. apply length_app. Qed.

Lemma under_inj (anc : list string) (l l' : Label) :
  under anc l = under anc l' -> l = l'.
Proof.
  destruct l as [[[a t] kvs] x], l' as [[[a' t'] kvs'] x']. cbn.
  intros H. inversion H as [[Ha Ht Hk Hx]].
  apply app_inv_tail in Ha. now subst.
Qed.

Lemma map_under_inj (anc : list string) (l l' : list Label) :
  map (under anc) l = map (under anc) l' -> l = l'.
Proof.
  revert l'. induction l as [|a l IH]; intros [|a' l'] H; try discriminate;
    [reflexivity|].
  cbn in H. inversion H as [[Ha Hl]].
  apply under_inj in Ha. apply IH in Hl. now subst.
Qed.

Lemma labels_unfold (t : string) (a : list (string * string))
    (x : option string) (cs : list Element) :
  labels (mkElement t a x cs)
  = ([], t, a, x) :: flat_map (fun c => map (under [t]) (labels c)) cs.
Proof.
  unfold labels at 1. cbn [ET.nodes_from map label ET.node_ancestors
                             ET.node_elem tag attrib text]. f_equal.
  rewrite flat_mapi_map. generalize 0.
  induction cs as [|c cs IH]; intros i; [reflexivity|].
  cbn [ET.flat_mapi flat_map]. now rewrite labels_nodes_from, IH.
Qed.

(** The first label of a tree is that of its root, and the only one
    without ancestors. *)
Lemma labels_shape (e : Element) :
  exists l rest,
    labels e = l :: rest /\ depth l = 0
    /\ Forall (fun l' => 1 <= depth l') rest.
Proof.
  destruct e as [t a x cs]. rewrite labels_unfold.
  eexists. eexists. split; [reflexivity|]. split; [reflexivity|].
  induction cs as [|c cs IH]; [constructor|].
  cbn [flat_map]. apply Forall_app. split; [|exact IH].
  apply Forall_forall. intros l Hl. apply in_map_iff in Hl as (l0 & <- & _).
  rewrite depth_under. cbn. lia.
Qed.

(** Two lists that are cut the same way: a run of deep labels, then
    nothing or a label that is not deep. *)
Lemma cut_unique (P : Label -> Prop) (l1 l2 r1 r2 : list Label) :
  (l1 ++ r1 = l2 ++ r2)%list ->
  Forall P l1 -> Forall P l2 ->
  match r1 with [] => True | h :: _ => ~ P h end ->
  match r2 with [] => True | h :: _ => ~ P h end ->
  l1 = l2 /\ r1 = r2.
Proof.
  revert l2. induction l1 as [|a l1 IH]; intros l2 E H1 H2 Hr1 Hr2.
  - destruct l2 as [|b l2]; [now split|].
    cbn in E. subst r1. inversion H2; subst. contradiction.
  - destruct l2 as [|b l2].
    + cbn in E. subst r2. inversion H1; subst. contradiction.
    + cbn in E. inversion E as [[Hab Hrest]]. subst b.
      inversion H1; inversion H2; subst.
      destruct (IH l2 Hrest) as [-> ->]; auto.
Qed.

Lemma children_labels_start (t : string) (cs : list Element) :
  match flat_map (fun c => map (under [t]) (labels c)) cs with
  | [] => True
  | h :: _ => ~ 2 <= depth h
  end.
Proof.
  destruct cs as [|c cs]; [exact I|]. cbn [flat_map].
  destruct (labels_shape c) as (l & rest & -> & Hl & _). cbn [map app].
  rewrite depth_under, Hl. cbn. lia.
Qed.

(** A tree is determined by the labels of its nodes in document order. *)
Lemma labels_inj (e : Element) : forall e', labels e = labels e' -> e = e'.
Proof.
  induction e as [t a x cs IH] using Element_nested_ind.
  intros [t' a' x' cs'] H. rewrite !labels_unfold in H.
  inversion H as [[Ht Ha Hx Hcs]]. subst t' a' x'. f_equal. clear H.
  revert cs' Hcs. induction IH as [|c cs Hc _ IHcs]; intros cs' Hcs.
  - destruct cs' as [|c' cs']; [reflexivity|]. cbn [flat_map] in Hcs.
    destruct (labels_shape c') as (l & rest & E & _). rewrite E in Hcs.
    discriminate.
  - destruct cs' as [|c' cs'].
    + cbn [flat_map] in Hcs.
      destruct (labels_shape c) as (l & rest & E & _). rewrite E in Hcs.
      discriminate.
    + cbn [flat_map] in Hcs.
      destruct (labels_shape c) as (l & rest & El & Hl & Hrest).
      destruct (labels_shape c') as (l' & rest' & El' & Hl' & Hrest').
      rewrite El, El' in Hcs. cbn [map app] in Hcs.
      inversion Hcs as [[Hhead Htail]].
      apply (cut_unique (fun l => 2 <= depth l)) in Htail
        as [Hr Hcs'].
      * assert (Hlab : labels c = labels c').
        { apply (map_under_inj [t]). rewrite El, El'. cbn [map].
          now rewrite Hhead, Hr. }
        rewrite (Hc c' Hlab), (IHcs cs' Hcs'). reflexivity.
      * apply Forall_forall. intros l0 Hl0.
        apply in_map_iff in Hl0 as (l1 & <- & Hl1). rewrite depth_under.
        rewrite Forall_forall in Hrest. specialize (Hrest _ Hl1). cbn. lia.
      * apply Forall_forall. intros l0 Hl0.
        apply in_map_iff in Hl0 as (l1 & <- & Hl1). rewrite depth_under.
        rewrite Forall_forall in Hrest'. specialize (Hrest' _ Hl1). cbn. lia.
      * apply children_labels_start.
      * apply children_labels_start.
Qed.

(** ** The tree left by [remove_broken_members] *)

(** X7.  The method leaves the tree made of the nodes that are neither a
    removed member nor below one: they keep their ancestors, their tag,
    attributes and text, and the order they had, and no other tree has
    this content.  Without a root there is nothing to do. *)
Theorem remove_broken_members_keeps_the_rest (ns : Namespaces) (root : Element) :
  remove_broken_members ns None = None
  /\ exists root',
       remove_broken_members ns (Some root) = Some root'
       /\ labels root'
          = map label
              (filter
                 (fun n =>
                    negb (removed_with
                            (map ET.node_path (removed_members ns root))
                            (ET.node_path n)))
                 (ET.nodes_from [] [] root))
       /\ forall tree, labels tree = labels root' -> tree = root'.
Proof.
  split; [reflexivity|]. eexists. split; [reflexivity|]. split.
  - apply detach_labels, removed_members_below_root.
  - intros tree H. now apply labels_inj.
Qed.

Lemma remove_broken_members_keeps_the_rest_witness :
  remove_broken_members Fixture.ns (Some Fixture.simple_xml)
  = Some (Fixture.collection
            [Fixture.member
               (Fixture.feature "AX_Flurstueck" "urn:adv:oid:123"
                  [Fixture.pos "10 20"])]).
Proof.
  destruct (remove_broken_members_keeps_the_rest Fixture.ns Fixture.simple_xml)
    as (_ & root' & Hroot & Hlabels & Honly).
  rewrite Hroot. f_equal. symmetry. apply Honly. rewrite Hlabels.
  reflexivity.
Defined.

Lemma map_label_filter (q : Label -> bool) (l : list ET.Node) :
  map label (filter (fun n => q (label n)) l) = filter q (map label l).
Proof.
  induction l as [|n l IH]; [reflexivity|]. cbn [filter map].
  destruct (q (label n)); cbn [map]; now rewrite IH.
Qed.

Lemma filter_comm {A} (p q : A -> bool) (l : list A) :
  filter p (filter q l) = filter q (filter p l).
Proof.
  induction l as [|a l IH]; [reflexivity|]. cbn [filter].
  destruct (p a) eqn:Hp, (q a) eqn:Hq; cbn [filter]; rewrite ?Hp, ?Hq, IH;
    reflexivity.
Qed.

Lemma xpath_nodes_detach (root : Element) (ps : list (list nat))
    (steps : list string) :
  ~ In [] ps ->
  map label (ET.xpath_nodes (ET.detach ps root) steps)
  = map label
      (filter (fun n => negb (removed_with ps (ET.node_path n)))
              (ET.xpath_nodes root steps)).
Proof.
  intros Hnil. unfold ET.xpath_nodes.
  set (q := fun l : Label =>
              let '(a, t, _, _) := l in ET.tags_match (rev steps) (t :: a)).
  change (fun n : ET.Node =>
            ET.tags_match (rev steps)
              (tag (ET.node_elem n) :: ET.node_ancestors n))
    with (fun n : ET.Node => q (label n)).
  rewrite map_label_filter.
  change (map label (ET.nodes_from [] [] ?e)) with (labels e).
  rewrite (detach_labels root _ Hnil).
  rewrite <- map_label_filter. now rewrite filter_comm.
Qed.

(** X8.  What a query finds in the tree left by the method: what it found
    before, without the removed members and what is below them, in the
    same order and with the same ancestors, tags, attributes and texts. *)
Theorem queries_after_remove_broken_members
    (ns : Namespaces) (root : Element) (steps : list string) :
  exists root',
    remove_broken_members ns (Some root) = Some root'
    /\ map label (ET.xpath_nodes root' steps)
       = map label
           (filter
              (fun n =>
                 negb (removed_with
                         (map ET.node_path (removed_members ns root))
                         (ET.node_path n)))
              (ET.xpath_nodes root steps)).
Proof.
  eexists. split; [reflexivity|].
  apply xpath_nodes_detach, removed_members_below_root.
Qed.

Lemma in_flat_mapi {A B} (f : nat -> A -> list B) (l : list A) (b : B) :
  forall i, In b (ET.flat_mapi f i l) -> exists j a, In a l /\ In b (f j a).
Proof.
  induction l as [|a l IH]; intros i H; [destruct H|].
  cbn [ET.flat_mapi] in H. apply in_app_or in H as [H | H].
  - exists i, a. split; [now left|exact H].
  - destruct (IH _ H) as (j & a' & Ha & Hb). exists j, a'.
    split; [now right|exact Hb].
Qed.

(** What is below an element after a removal was below it before, with
    the tag and the text it had. *)
Lemma descendants_detach (e : Element) :
  forall qs d',
    In d' (ET.descendants (ET.detach qs e)) ->
    exists d, In d (ET.descendants e) /\ tag d = tag d' /\ text d = text d'.
Proof.
  induction e as [t a x cs IH] using Element_nested_ind. intros qs d' H.
  cbn [ET.detach ET.descendants] in H.
  apply in_flat_map in H as (c' & Hc' & Hd').
  apply in_flat_mapi in Hc' as (j & c & Hc & Hin).
  destruct (existsb (ET.path_is j) qs); [destruct Hin|].
  destruct Hin as [<- | []].
  rewrite Forall_forall in IH. cbn [ET.descendants].
  destruct Hd' as [<- | Hd'].
  - exists c. split.
    + apply in_flat_map. exists c. split; [exact Hc|now left].
    + now rewrite tag_detach, text_detach.
  - destruct (IH c Hc _ _ Hd') as (d & Hd & Htag & Htext).
    exists d. split; [|now split].
    apply in_flat_map. exists c. split; [exact Hc|now right].
Qed.

Lemma pos_texts_detach (ns : Namespaces) (qs : list (list nat))
    (m : Element) (t : option string) :
  In t (pos_texts ns (ET.detach qs m)) -> In t (pos_texts ns m).
Proof.
  unfold pos_texts, ET.descendants_tagged. rewrite !in_map_iff.
  intros (d' & <- & Hd'). apply filter_In in Hd' as [Hd' Htag].
  destruct (descendants_detach m qs d' Hd') as (d & Hd & Et & Ex).
  exists d. split; [exact Ex|]. apply filter_In. split; [exact Hd|].
  now rewrite Et.
Qed.

(** A member that is not broken stays so when nodes below it go. *)
Lemma is_broken_detach (ns : Namespaces) (qs : list (list nat)) (m : Element) :
  is_broken ns m = false -> is_broken ns (ET.detach qs m) = false.
Proof.
  intros H. apply not_true_is_false. intros Hb.
  apply is_broken_iff in Hb as (t & Hin & Ht).
  apply pos_texts_detach in Hin.
  assert (Hm : is_broken ns m = true) by (apply is_broken_iff; now exists t).
  rewrite H in Hm. discriminate.
Qed.

Lemma is_prefix_refl (p : list nat) : is_prefix p p = true.
Proof.
  induction p as [|i p IH]; [reflexivity|]. cbn. now rewrite Nat.eqb_refl.
Qed.

Lemma member_nodes_steps (ns : Namespaces) (root : Element) :
  member_nodes ns root = ET.xpath_nodes root (member_steps ns root).
Proof.
  unfold member_nodes, member_steps.
  destruct (ET.xpath_nodes root
              [ax ns "enthaelt"; wfs ns "FeatureCollection"; wfs ns "member"])
    eqn:E; [reflexivity|now rewrite E].
Qed.

(** A container of the kind the method visits, in the tree after the
    removal, is one it visited and did not remove, and it is not broken. *)
Lemma members_left (ns : Namespaces) (root : Element) (n' : ET.Node) :
  In n' (ET.xpath_nodes
           (ET.detach (map ET.node_path (removed_members ns root)) root)
           (member_steps ns root)) ->
  is_broken ns (ET.node_elem n') = false
  /\ exists n,
       In n (member_nodes ns root)
       /\ ~ In n (removed_members ns root)
       /\ ET.node_ancestors n' = ET.node_ancestors n
       /\ tag (ET.node_elem n') = tag (ET.node_elem n)
       /\ attrib (ET.node_elem n') = attrib (ET.node_elem n)
       /\ text (ET.node_elem n') = text (ET.node_elem n).
Proof.
  intros Hn'.
  set (ps := map ET.node_path (removed_members ns root)) in *.
  unfold ET.xpath_nodes in Hn'. apply filter_In in Hn' as [Hn' Hq].
  apply (in_map seen) in Hn'.
  rewrite (detach_nodes root ps (removed_members_below_root ns root)) in Hn'.
  apply in_map_iff in Hn' as (n & E & Hn).
  apply filter_In in Hn as [Hn Hkeep]. unfold seen in E.
  inversion E as [[Hanc Helem]].
  assert (Hmem : In n (member_nodes ns root)).
  { rewrite member_nodes_steps. unfold ET.xpath_nodes. apply filter_In.
    split; [exact Hn|]. rewrite <- Hq, <- Helem, tag_detach, Hanc.
    reflexivity. }
  assert (Hnot : ~ In n (removed_members ns root)).
  { intros Hrem. apply (in_map ET.node_path) in Hrem. fold ps in Hrem.
    assert (Hr : removed_with ps (ET.node_path n) = true).
    { unfold removed_with. apply existsb_exists.
      exists (ET.node_path n). split; [exact Hrem|apply is_prefix_refl]. }
    rewrite Hr in Hkeep. discriminate. }
  split.
  - apply is_broken_detach.
    destruct (is_broken ns (ET.node_elem n)) eqn:Hb; [|reflexivity].
    exfalso. apply Hnot. unfold removed_members. apply filter_In.
    now split.
  - exists n. rewrite tag_detach, attrib_detach, text_detach.
    repeat split; auto.
Qed.

(** C6.  Of the members the method visits, [parent.remove] is called on
    exactly those that hold a position whose text splits on white space
    into one token, and on nothing else.  The tree the method leaves is
    the tree without them: its nodes are the nodes that are neither a
    removed member nor below one, with the ancestors, tag, attributes and
    text they had and in the order they had, and no other tree has these
    nodes; it is the tree as it was when no member is removed.  In a
    member the positions are looked at in document order up to the first
    such text and no further. *)
Theorem remove_broken_members_exactly_the_broken
    (ns : Namespaces) (root : Element) :
  (forall m : ET.Node,
      In m (removed_members ns root)
      <-> In m (member_nodes ns root)
          /\ exists t, In (Some t) (pos_texts ns (ET.node_elem m))
                       /\ List.length (PyStr.split t) = 1)
  /\ (exists root',
         remove_broken_members ns (Some root) = Some root'
         /\ labels root'
            = map label
                (filter
                   (fun n =>
                      negb (removed_with
                              (map ET.node_path (removed_members ns root))
                              (ET.node_path n)))
                   (ET.nodes_from [] [] root))
         /\ (forall tree, labels tree = labels root' -> tree = root')
         /\ (forall n',
                In n' (ET.xpath_nodes root' (member_steps ns root)) ->
                is_broken ns (ET.node_elem n') = false))
  /\ (removed_members ns root = [] ->
      remove_broken_members ns (Some root) = Some root)
  /\ (forall (m : ET.Node) (seen : list (option string)),
         In m (removed_members ns root) ->
         snd (scan_positions (pos_texts ns (ET.node_elem m))) = seen ->
         exists before t after,
           pos_texts ns (ET.node_elem m) = (before ++ Some t :: after)%list
           /\ seen = (before ++ [Some t])%list
           /\ List.length (PyStr.split t) = 1
           /\ (forall t', In (Some t') before -> List.length (PyStr.split t') <> 1)).
Proof.
  split; [|split; [|split]].
  - intros m. unfold removed_members. rewrite filter_In, is_broken_iff.
    reflexivity.
  - eexists. split; [reflexivity|]. split; [|split].
    + apply detach_labels, removed_members_below_root.
    + intros tree H. now apply labels_inj.
    + intros n' Hn'. now apply members_left in Hn' as [Hb _].
  - intros H. unfold remove_broken_members. rewrite H. simpl.
    now rewrite detach_nothing.
  - intros m seen Hm Hseen. unfold removed_members in Hm.
    apply filter_In in Hm as [_ Hb]. unfold is_broken in Hb.
    pose proof (scan_positions_stops (pos_texts ns (ET.node_elem m))) as H.
    destruct (scan_positions (pos_texts ns (ET.node_elem m))) as [b seen'].
    simpl in Hb, Hseen. subst b seen'.
    destruct H as (before & t & after & Hps & Hs & Ht & Hbefore).
    exists before, t, after. repeat split; try assumption.
    + now apply single_coordinate_iff.
    + intros t' Hin Hone. apply single_coordinate_iff in Hone.
      rewrite (Hbefore t' Hin) in Hone. discriminate.
Qed.

Lemma remove_broken_members_exactly_the_broken_witness :
  let m := ET.mkNode [0; 1]
             [wfs Fixture.ns "FeatureCollection"; ax Fixture.ns "enthaelt"]
             (Fixture.member
                (Fixture.feature "AX_Flurstueck" "urn:adv:oid:999"
                   [Fixture.pos "42"])) in
  In m (removed_members Fixture.ns Fixture.simple_xml)
  /\ remove_broken_members Fixture.ns (Some Fixture.simple_xml)
     = Some (Fixture.collection
               [Fixture.member
                  (Fixture.feature "AX_Flurstueck" "urn:adv:oid:123"
                     [Fixture.pos "10 20"])])
  /\ exists before t after,
       pos_texts Fixture.ns (ET.node_elem m) = (before ++ Some t :: after)%list
       /\ [Some "42"] = (before ++ [Some t])%list
       /\ List.length (PyStr.split t) = 1
       /\ (forall t', In (Some t') before -> List.length (PyStr.split t') <> 1).
Proof.
  intros m.
  destruct (remove_broken_members_exactly_the_broken
              Fixture.ns Fixture.simple_xml)
    as (Hiff & (root' & Hroot & Hlabels & Honly & _) & _ & Hscan).
  assert (Hm : In m (removed_members Fixture.ns Fixture.simple_xml)).
  { apply (Hiff m). split.
    - right. left. reflexivity.
    - exists "42". split; [left; reflexivity|reflexivity]. }
  split; [exact Hm|]. split.
  - rewrite Hroot. f_equal. symmetry. apply Honly. rewrite Hlabels.
    reflexivity.
  - apply (Hscan m [Some "42"] Hm). reflexivity.
Defined.

(** X9.  Once the method has run, none of the containers it visits is left
    with a position of a single coordinate: a container of that kind in
    the tree it leaves is one it visited and did not remove, and holds
    no such position. *)
Theorem remove_broken_members_leaves_none_broken
    (ns : Namespaces) (root : Element) :
  member_nodes ns root = ET.xpath_nodes root (member_steps ns root)
  /\ exists root',
       remove_broken_members ns (Some root) = Some root'
       /\ forall n',
            In n' (ET.xpath_nodes root' (member_steps ns root)) ->
            is_broken ns (ET.node_elem n') = false
            /\ exists n,
                 In n (member_nodes ns root)
                 /\ ~ In n (removed_members ns root)
                 /\ ET.node_ancestors n' = ET.node_ancestors n
                 /\ tag (ET.node_elem n') = tag (ET.node_elem n)
                 /\ attrib (ET.node_elem n') = attrib (ET.node_elem n)
                 /\ text (ET.node_elem n') = text (ET.node_elem n).
Proof.
  split; [apply member_nodes_steps|].
  eexists. split; [reflexivity|]. apply members_left.
Qed.

Lemma remove_broken_members_leaves_none_broken_witness :
  is_broken Fixture.ns
    (Fixture.member
       (Fixture.feature "AX_Flurstueck" "urn:adv:oid:123" [Fixture.pos "10 20"]))
  = false.
Proof.
  destruct (remove_broken_members_leaves_none_broken
              Fixture.ns Fixture.simple_xml) as (_ & root' & Hroot & Hleft).
  cbn [remove_broken_members] in Hroot. inversion Hroot as [E]. clear Hroot.
  apply (Hleft (ET.mkNode [0; 0]
                  [wfs Fixture.ns "FeatureCollection"; ax Fixture.ns "enthaelt"]
                  (Fixture.member
                     (Fixture.feature "AX_Flurstueck" "urn:adv:oid:123"
                        [Fixture.pos "10 20"])))).
  rewrite <- E. left. reflexivity.
Defined.

Lemma map_label_nil (l : list ET.Node) : map label l = [] -> l = [].
Proof. now destruct l. Qed.

Lemma filter_nothing {A} (p : A -> bool) (l : list A) :
  (forall a, In a l -> p a = false) -> filter p l = [].
Proof.
  induction l as [|a l IH]; intros H; [reflexivity|].
  cbn [filter]. rewrite (H a) by now left. apply IH.
  intros b Hb. apply H. now right.
Qed.

(** The containers looked for in the tree after the removal are of the
    kind looked for before, unless the tree had [wfs:member] containers
    and has lost them all. *)
Lemma member_steps_detach (ns : Namespaces) (root : Element) :
  let root' := ET.detach (map ET.node_path (removed_members ns root)) root in
  let members := [ax ns "enthaelt"; wfs ns "FeatureCollection"; wfs ns "member"] in
  ET.xpath_nodes root members = [] \/ ET.xpath_nodes root' members <> [] ->
  member_steps ns root' = member_steps ns root.
Proof.
  intros root' members H.
  assert (Hdet : ET.xpath_nodes root members = [] ->
                 ET.xpath_nodes root' members = []).
  { intros E. apply map_label_nil. unfold root'.
    rewrite xpath_nodes_detach by apply removed_members_below_root.
    now rewrite E. }
  unfold member_steps. fold members.
  destruct (ET.xpath_nodes root members) as [|m ms] eqn:E.
  - now rewrite (Hdet eq_refl).
  - destruct H as [H | H]; [discriminate|].
    destruct (ET.xpath_nodes root' members); [contradiction|reflexivity].
Qed.

(** X18.  A second run of the method changes nothing, when the tree had
    no [wfs:member] container to begin with or still has one after the
    first run.  (When the first run removes every [wfs:member], the
    second one turns to the [gml:featureMember] containers, which the
    first did not look at.) *)
Theorem remove_broken_members_twice (ns : Namespaces) (root : Element) :
  exists root',
    remove_broken_members ns (Some root) = Some root'
    /\ (ET.xpath_nodes root
          [ax ns "enthaelt"; wfs ns "FeatureCollection"; wfs ns "member"] = []
        \/ ET.xpath_nodes root'
             [ax ns "enthaelt"; wfs ns "FeatureCollection"; wfs ns "member"]
           <> [] ->
        remove_broken_members ns (Some root') = Some root').
Proof.
  eexists. split; [reflexivity|]. intros H.
  apply member_steps_detach in H.
  set (root' := ET.detach (map ET.node_path (removed_members ns root)) root)
    in *.
  cbn [remove_broken_members]. f_equal.
  assert (Hnone : removed_members ns root' = []).
  { unfold removed_members. apply filter_nothing. intros n' Hn'.
    rewrite member_nodes_steps, H in Hn'.
    now apply members_left in Hn' as [Hb _]. }
  rewrite Hnone. apply detach_nothing.
Qed.

Lemma remove_broken_members_twice_witness :
  exists root',
    remove_broken_members Fixture.ns (Some Fixture.simple_xml) = Some root'
    /\ remove_broken_members Fixture.ns (Some root') = Some root'.
Proof.
  destruct (remove_broken_members_twice Fixture.ns Fixture.simple_xml)
    as (root' & Hroot & Htwice).
  exists root'. split; [exact Hroot|]. apply Htwice. right.
  cbn [remove_broken_members] in Hroot. inversion Hroot as [E].
  discriminate.
Defined.

(** With a broken member of each kind, the first run removes the
    [wfs:member] and the second the [gml:featureMember]. *)
Example remove_broken_members_second_run :
  let parcel := Fixture.feature "AX_Flurstueck" "F1" [Fixture.pos "42"] in
  let other := Fixture.el (gml Fixture.ns "featureMember") [] None [parcel] in
  let root := Fixture.collection [Fixture.member parcel; other] in
  remove_broken_members Fixture.ns (Some root)
  = Some (Fixture.collection [other])
  /\ remove_broken_members Fixture.ns (Some (Fixture.collection [other]))
     = Some (Fixture.collection []).
Proof. split; reflexivity. Qed.

(** X20.  In a tree that has [wfs:member] containers the method removes
    containers of that kind only: a [gml:featureMember] that is not below
    a removed member is found in the tree after the removal as it was
    before it, whatever its positions are. *)
Theorem feature_members_not_visited (ns : Namespaces) (root : Element) :
  ET.xpath_nodes root
    [ax ns "enthaelt"; wfs ns "FeatureCollection"; wfs ns "member"] <> [] ->
  (forall m, In m (removed_members ns root) ->
             tag (ET.node_elem m) = wfs ns "member")
  /\ exists root',
       remove_broken_members ns (Some root) = Some root'
       /\ forall n,
            In n (ET.xpath_nodes root
                    [ax ns "enthaelt"; wfs ns "FeatureCollection";
                     gml ns "featureMember"]) ->
            removed_with (map ET.node_path (removed_members ns root))
                         (ET.node_path n) = false ->
            In (label n)
               (map label
                  (ET.xpath_nodes root'
                     [ax ns "enthaelt"; wfs ns "FeatureCollection";
                      gml ns "featureMember"])).
Proof.
  intros Hwfs. split.
  - intros m Hm. unfold removed_members in Hm. apply filter_In in Hm as [Hm _].
    unfold member_nodes in Hm.
    destruct (ET.xpath_nodes root
                [ax ns "enthaelt"; wfs ns "FeatureCollection"; wfs ns "member"])
      as [|m0 ms] eqn:E; [contradiction|].
    rewrite <- E in Hm. unfold ET.xpath_nodes in Hm.
    apply filter_In in Hm as [_ Hm]. cbn [rev app ET.tags_match] in Hm.
    apply andb_true_iff in Hm as [Hm _]. apply String.eqb_eq in Hm.
    now symmetry.
  - eexists. split; [reflexivity|]. intros n Hn Hkeep.
    rewrite xpath_nodes_detach by apply removed_members_below_root.
    apply in_map, filter_In. split; [exact Hn|]. now rewrite Hkeep.
Qed.

Lemma feature_members_not_visited_witness :
  let parcel := Fixture.feature "AX_Flurstueck" "F2" [Fixture.pos "42"] in
  let other := Fixture.el (gml Fixture.ns "featureMember") [] None [parcel] in
  let root :=
    Fixture.collection
      [Fixture.member (Fixture.feature "AX_Person" "P1" []); other] in
  is_broken Fixture.ns other = true
  /\ exists root',
       remove_broken_members Fixture.ns (Some root) = Some root'
       /\ In ([wfs Fixture.ns "FeatureCollection"; ax Fixture.ns "enthaelt"],
              gml Fixture.ns "featureMember", [], None)
             (map label
                (ET.xpath_nodes root'
                   [ax Fixture.ns "enthaelt"; wfs Fixture.ns "FeatureCollection";
                    gml Fixture.ns "featureMember"])).
Proof.
  intros parcel other root. split; [reflexivity|].
  destruct (feature_members_not_visited Fixture.ns root) as (_ & root' & Hroot & Hleft);
    [discriminate|].
  exists root'. split; [exact Hroot|].
  apply (Hleft (ET.mkNode [0; 1]
                  [wfs Fixture.ns "FeatureCollection"; ax Fixture.ns "enthaelt"]
                  other)).
  - left. reflexivity.
  - reflexivity.
Defined.

(** ** The person table *)

Section PersonRows.

Context {L : Library} (ns : Namespaces).

Lemma person_read_returns (e : Element) (id : string) (w : World) :
  exists v w',
    person_read ns e id w = (Ok v, w') /\ pl_identifier v = Some id
    /\ pl_anschrift_id v = stripped_href ns e "hat".
Proof.
  unfold person_read.
  destruct (beginnt_returns ns e w) as (bg & w1 & Hbg).
  rewrite (bind_ok _ _ _ _ _ Hbg). eexists. eexists.
  split; [reflexivity|]. split; [reflexivity|]. apply strip_if_truthy.
Qed.

Lemma person_loop_follows (els : list Element) :
  forall v prev w,
    person_state v prev ->
    first_has_id els = true \/ prev <> None \/ els = [] ->
    exists rows w',
      person_loop ns v els w = (Ok rows, w')
      /\ person_rows_follow ns prev rows els.
Proof.
  induction els as [|e rest IH]; intros v prev w Hst Hfirst.
  - exists [], w. split; [reflexivity|exact I].
  - cbn [person_loop]. cbn [first_has_id] in Hfirst.
    destruct (has_id e) eqn:Hid.
    + destruct (has_id_inv e Hid) as (id & Hget & Hne). rewrite Hget, Hne.
      destruct (person_read_returns e id w) as (v' & w1 & Hr & Hident & Hadr).
      rewrite (bind_ok _ _ _ _ _ Hr).
      unfold person_append at 1. rewrite Hident.
      unfold bind at 1. unfold ret at 1.
      match goal with
      | |- context [Person.mkRow ?a ?b ?c ?d ?e0 ?f ?g ?h ?i ?j ?k] =>
          set (row := Person.mkRow a b c d e0 f g h i j k)
      end.
      destruct (IH v' (Some row) w1) as (rows & w2 & Hrows & Hfol).
      * intros w0. unfold person_append. now rewrite Hident.
      * right. left. discriminate.
      * rewrite (bind_ok _ _ _ _ _ Hrows). exists (row :: rows), w2.
        split; [reflexivity|]. cbn [person_rows_follow]. rewrite Hid.
        split; [|exact Hfol]. split; [exact Hget|exact Hadr].
    + assert (Hv : (match ET.get e GML_ID with
                    | Some identifier =>
                        if PyStr.is_empty identifier then ret v
                        else person_read ns e identifier
                    | None => ret v
                    end) w = (Ok v, w)).
      { unfold has_id, PyStr.truthy in Hid.
        destruct (ET.get e GML_ID) as [id|]; [|reflexivity].
        destruct (PyStr.is_empty id); [reflexivity|discriminate]. }
      rewrite (bind_ok _ _ _ _ _ Hv).
      destruct prev as [row|].
      * rewrite (bind_ok _ _ _ _ _ (Hst w)).
        destruct (IH v (Some row) w) as (rows & w2 & Hrows & Hfol);
          [exact Hst|right; left; discriminate|].
        rewrite (bind_ok _ _ _ _ _ Hrows). exists (row :: rows), w2.
        split; [reflexivity|]. cbn [person_rows_follow]. rewrite Hid.
        split; [reflexivity|exact Hfol].
      * destruct Hfirst as [H | [H | H]];
          [discriminate|contradiction|discriminate].
Qed.

Lemma person_loop_unbound (e : Element) (rest : list Element) (w : World) :
  has_id e = false ->
  person_loop ns person_locals0 (e :: rest) w
  = (Raise (UnboundLocalError "identifier"), w).
Proof.
  intros Hid. cbn [person_loop].
  unfold has_id, PyStr.truthy in Hid.
  destruct (ET.get e GML_ID) as [id|];
    [destruct (PyStr.is_empty id); [|discriminate]|]; reflexivity.
Qed.

Lemma person_rows_follow_length (rows : list Person.Row) :
  forall prev els,
    person_rows_follow ns prev rows els -> List.length rows = List.length els.
Proof.
  induction rows as [|row rows IH]; intros prev [|e els] H;
    try destruct H; [reflexivity|].
  cbn [List.length]. f_equal. now apply (IH (Some row)).
Qed.

End PersonRows.

Lemma find_elements_some (ns : Namespaces) (root : Element)
    (steps : list string) (els : list Element) :
  find_elements root steps = Some els -> els <> [] /\ els = ET.xpath root steps.
Proof.
  unfold find_elements. destruct (ET.xpath root steps) as [|e rest];
    [discriminate|]. intros H. inversion H. split; [discriminate|reflexivity].
Qed.

Lemma matched_elements_nonempty (ns : Namespaces) (root : Element)
    (entity : string) (els : list Element) :
  matched_elements ns root entity = Some els -> els <> [].
Proof.
  unfold matched_elements. intros H.
  destruct (find_elements root [ax ns "enthaelt"; _; _; _]) as [els'|] eqn:E.
  - inversion H; subst. now apply (find_elements_some ns) in E as [E _].
  - now apply (find_elements_some ns) in H as [H _].
Qed.

Lemma require_elements_some {L : Library} (ns : Namespaces) (root : Element)
    (entity : string) (els : list Element) (w : World) :
  matched_elements ns root entity = Some els ->
  require_elements ns root entity w = (Ok els, w).
Proof. unfold require_elements. now intros ->. Qed.

Lemma require_elements_none {L : Library} (ns : Namespaces) (root : Element)
    (entity : string) (w : World) :
  matched_elements ns root entity = None ->
  require_elements ns root entity w
  = (Raise (ValueError ("No " ++ entity
                        ++ " elements found in the provided XML file.")), w).
Proof. unfold require_elements. now intros ->. Qed.

(** X11.  The person table has a row for every person element found, with or
    without an id.  When the first of them has an id the method returns:
    the row of an element with an id has its identifier and its address
    reference, and the row of an element without one repeats the row
    before it.  When the first has none, the method raises
    [UnboundLocalError]; and without a person element, the [ValueError]. *)
Theorem get_ax_person_data_one_row_per_element
    {L : Library} (ns : Namespaces) (root : Element) (w : World) :
  match matched_elements ns root "AX_Person" with
  | None =>
      get_ax_person_data ns root w
      = (Raise (ValueError "No AX_Person elements found in the provided XML file."),
         w)
  | Some els =>
      if first_has_id els
      then exists rows w',
             get_ax_person_data ns root w = (Ok rows, w')
             /\ List.length rows = List.length els
             /\ person_rows_follow ns None rows els
      else get_ax_person_data ns root w
           = (Raise (UnboundLocalError "identifier"), w)
  end.
Proof.
  unfold get_ax_person_data.
  destruct (matched_elements ns root "AX_Person") as [els|] eqn:Em.
  - rewrite (bind_ok _ _ _ _ _ (require_elements_some ns root _ els w Em)).
    destruct (first_has_id els) eqn:Hf.
    + destruct (person_loop_follows ns els person_locals0 None w)
        as (rows & w' & Hrows & Hfol); [reflexivity|now left|].
      exists rows, w'. split; [exact Hrows|]. split; [|exact Hfol].
      now apply (person_rows_follow_length ns rows None).
    + destruct els as [|e rest];
        [now apply matched_elements_nonempty in Em|].
      now apply person_loop_unbound.
  - now rewrite (bind_raise _ _ _ _ _ (require_elements_none ns root _ w Em)).
Qed.

(** ** The keys of the ledger and the ledger district *)

Lemma find_app_first {A} (f : A -> bool) (l1 l2 : list A) :
  find f (l1 ++ l2)
  = match find f l1 with
    | Some a => Some a
    | None => find f l2
    end.
Proof.
  induction l1 as [|a l1 IH]; [reflexivity|]. cbn [app find].
  destruct (f a); [reflexivity|exact IH].
Qed.

Section KeyLoops.

Context {L : Library}.

(** Over a key that holds elements only, the loop leaves in a variable
    the text of the last child whose tag ends with the suffix. *)
Lemma read_key_last (a b : string) (key : list Element) :
  forall x y,
    forallb (fun c => negb (is_comment_or_pi c)) key = true ->
    read_key a b x y key
    = Ok (match find (fun c => PyStr.endswith (tag c) a) (rev key) with
          | Some c => text c
          | None => x
          end,
          match find (fun c => PyStr.endswith (tag c) b) (rev key) with
          | Some c => text c
          | None => y
          end).
Proof.
  induction key as [|c key IH]; intros x y H; [reflexivity|].
  cbn [forallb] in H. apply andb_true_iff in H as [Hc Hk].
  apply negb_true_iff in Hc.
  cbn [read_key rev]. rewrite Hc, (IH _ _ Hk), !find_app_first.
  destruct (find (fun c0 => PyStr.endswith (tag c0) a) (rev key));
    destruct (find (fun c0 => PyStr.endswith (tag c0) b) (rev key));
    cbn [find];
    destruct (PyStr.endswith (tag c) a); destruct (PyStr.endswith (tag c) b);
    reflexivity.
Qed.

(** On a comment or a processing instruction in the key it raises. *)
Lemma read_key_comment (a b : string) (key : list Element) :
  forall x y,
    forallb (fun c => negb (is_comment_or_pi c)) key = false ->
    read_key a b x y key = Raise (AttributeError no_endswith).
Proof.
  induction key as [|c key IH]; intros x y H; [discriminate|].
  cbn [forallb] in H. cbn [read_key].
  destruct (is_comment_or_pi c); [reflexivity|]. now apply IH.
Qed.

Lemma key_of_last (e : Element) (path : list string) (a b : string) :
  plain_key e path = true ->
  key_of e path a b
  = Ok (last_text a (key_children e path), last_text b (key_children e path)).
Proof.
  unfold plain_key, key_of, key_children, last_text.
  destruct (ET.find e path) as [key|]; [|reflexivity].
  apply read_key_last.
Qed.

Lemma key_of_comment (e : Element) (path : list string) (a b : string) :
  plain_key e path = false ->
  key_of e path a b = Raise (AttributeError no_endswith).
Proof.
  unfold plain_key, key_of, key_children.
  destruct (ET.find e path) as [key|]; [|discriminate].
  apply read_key_comment.
Qed.

(** The loop of the ledger reads the two parts as the other loop does,
    and keeps the joined key in step with them. *)
Lemma read_blatt_key_parts (key : list Element) :
  forall land bezirk gesamt,
    forallb (fun c => negb (is_comment_or_pi c)) key = true ->
    exists l b g,
      read_blatt_key land bezirk gesamt key = Ok (l, b, g)
      /\ read_key "land" "bezirk" land bezirk key = Ok (l, b)
      /\ (joined_key land bezirk gesamt -> joined_key l b g)
      /\ (key = [] -> g = gesamt).
Proof.
  induction key as [|c key IH]; intros land bezirk gesamt H.
  - exists land, bezirk, gesamt. cbn. auto.
  - cbn [forallb] in H. apply andb_true_iff in H as [Hc Hk].
    apply negb_true_iff in Hc.
    cbn [read_blatt_key read_key]. rewrite Hc.
    set (land' := if PyStr.endswith (tag c) "land" then text c else land).
    set (bezirk' := if PyStr.endswith (tag c) "bezirk" then text c else bezirk).
    set (gesamt' := match land', bezirk' with
                    | Some l, Some b =>
                        if PyStr.is_empty l || PyStr.is_empty b then gesamt
                        else Some (l ++ b)
                    | _, _ => gesamt
                    end).
    destruct (IH land' bezirk' gesamt' Hk) as (l & b & g & Hr & Hparts & Hinv & _).
    exists l, b, g. split; [exact Hr|]. split; [exact Hparts|].
    split; [|discriminate].
    intros [Hboth Hsome]. apply Hinv. clear Hinv Hparts. split.
    + intros l0 b0 El Eb Hl Hb. unfold gesamt'. rewrite El, Eb.
      destruct l0; [contradiction|]. destruct b0; [contradiction|].
      reflexivity.
    + intros s Hs. unfold gesamt' in Hs.
      destruct land' as [l0|]; [|now apply Hsome].
      destruct bezirk' as [b0|]; [|now apply Hsome].
      destruct (PyStr.is_empty l0 || PyStr.is_empty b0) eqn:E;
        [now apply Hsome|].
      apply orb_false_iff in E as [E1 E2]. inversion Hs; subst s.
      exists l0, b0. repeat split; intros ->; discriminate.
Qed.

Lemma read_blatt_key_comment (key : list Element) :
  forall land bezirk gesamt,
    forallb (fun c => negb (is_comment_or_pi c)) key = false ->
    read_blatt_key land bezirk gesamt key = Raise (AttributeError no_endswith).
Proof.
  induction key as [|c key IH]; intros land bezirk gesamt H; [discriminate|].
  cbn [forallb] in H. cbn [read_blatt_key].
  destruct (is_comment_or_pi c); [reflexivity|]. now apply IH.
Qed.

End KeyLoops.

Lemma joined_key_none : joined_key None None None.
Proof. split; [discriminate|discriminate]. Qed.

Section KeyRows.

Context {L : Library} (ns : Namespaces).

Lemma buchungsblattbezirk_loop_keys (els : list Element) :
  forall w,
    if forallb (buchungsblattbezirk_plain ns) els
    then exists rows w',
           buchungsblattbezirk_loop ns els w = (Ok rows, w')
           /\ Forall2 (buchungsblattbezirk_keys ns) rows els
    else exists w',
           buchungsblattbezirk_loop ns els w
           = (Raise (AttributeError no_endswith), w').
Proof.
  induction els as [|h rest IH]; intros w.
  - exists [], w. split; [reflexivity|constructor].
  - cbn [buchungsblattbezirk_loop forallb].
    destruct (beginnt_returns ns h w) as (bg & w1 & Hbg).
    rewrite (bind_ok _ _ _ _ _ Hbg). unfold buchungsblattbezirk_plain at 1.
    destruct (plain_key h [ax ns "schluessel";
                           ax ns "AX_Buchungsblattbezirk_Schluessel"]) eqn:E1.
    + rewrite (key_of_last _ _ _ _ E1). unfold bind at 1, lift at 1. cbv beta iota.
      destruct (plain_key h [ax ns "gehoertZu";
                             ax ns "AX_Dienststelle_Schluessel"]) eqn:E2.
      * rewrite (key_of_last _ _ _ _ E2). unfold bind at 1, lift at 1. cbv beta iota.
        cbn [andb]. specialize (IH w1).
        destruct (forallb (buchungsblattbezirk_plain ns) rest).
        -- destruct IH as (rows & w2 & Hrows & Hkeys).
           eexists. eexists.
           split; [unfold bind; rewrite Hrows; reflexivity|]. constructor; [|exact Hkeys].
           unfold buchungsblattbezirk_keys. cbn. repeat split.
        -- destruct IH as (w2 & Hraise).
           exists w2. unfold bind, lift; cbv beta iota; rewrite Hraise; reflexivity.
      * rewrite (key_of_comment _ _ _ _ E2). cbn [andb]. now exists w1.
    + rewrite (key_of_comment _ _ _ _ E1). cbn [andb]. now exists w1.
Qed.

Lemma buchungsblatt_loop_keys (els : list Element) :
  forall w,
    if forallb (buchungsblatt_plain ns) els
    then exists rows w',
           buchungsblatt_loop ns els w = (Ok rows, w')
           /\ Forall2 (buchungsblatt_keys ns) rows els
    else exists w',
           buchungsblatt_loop ns els w
           = (Raise (AttributeError no_endswith), w').
Proof.
  induction els as [|h rest IH]; intros w.
  - exists [], w. split; [reflexivity|constructor].
  - cbn [buchungsblatt_loop forallb].
    destruct (beginnt_returns ns h w) as (bg & w1 & Hbg).
    rewrite (bind_ok _ _ _ _ _ Hbg).
    unfold buchungsblatt_plain at 1, plain_key, key_children.
    unfold buchungsblatt_keys, key_children, last_text.
    destruct (ET.find h [ax ns "buchungsblattbezirk";
                         ax ns "AX_Buchungsblattbezirk_Schluessel"])
      as [key|] eqn:Ef.
    + destruct (forallb (fun c => negb (is_comment_or_pi c)) (children key))
        eqn:Ep.
      * destruct (read_blatt_key_parts (children key) None None None Ep)
          as (l & b & g & Hr & Hparts & Hinv & Hnil).
        rewrite Hr. rewrite (read_key_last _ _ _ _ _ Ep) in Hparts.
        inversion Hparts; subst l b. unfold bind at 1, lift at 1. cbv beta iota.
        cbn [andb]. specialize (IH w1).
        destruct (forallb (buchungsblatt_plain ns) rest).
        -- destruct IH as (rows & w2 & Hrows & Hkeys).
           eexists. eexists.
           split; [unfold bind; rewrite Hrows; reflexivity|]. constructor; [|exact Hkeys].
           rewrite Ef.
           cbn [Buchungsblatt.land Buchungsblatt.bezirk
                Buchungsblatt.schluessel_gesamt].
           split; [reflexivity|]. split; [reflexivity|].
           split; [apply Hinv, joined_key_none|exact Hnil].
        -- destruct IH as (w2 & Hraise).
           exists w2. unfold bind, lift; cbv beta iota; rewrite Hraise; reflexivity.
      * rewrite (read_blatt_key_comment _ _ _ _ Ep). cbn [andb]. now exists w1.
    + unfold bind at 1, lift at 1. cbv beta iota. cbn [forallb andb]. specialize (IH w1).
      destruct (forallb (buchungsblatt_plain ns) rest).
      * destruct IH as (rows & w2 & Hrows & Hkeys).
        eexists. eexists.
        split; [unfold bind; rewrite Hrows; reflexivity|]. constructor; [|exact Hkeys].
        rewrite Ef.
        cbn [Buchungsblatt.land Buchungsblatt.bezirk
             Buchungsblatt.schluessel_gesamt rev find].
        split; [reflexivity|]. split; [reflexivity|].
        split; [apply joined_key_none|reflexivity].
      * destruct IH as (w2 & Hraise).
        exists w2. unfold bind, lift; cbv beta iota; rewrite Hraise; reflexivity.
Qed.

End KeyRows.

(** X12.  The ledger district extractor goes over every child node of the
    two key elements of an element.  When these hold elements only, for
    every element found, the method returns a row for each: every key
    column holds the text of the last child of the key whose tag ends in
    [land], [bezirk] or [stelle], and the two columns of the office hold
    the same value.  When one of them holds a comment or a processing
    instruction, the method raises [AttributeError]; and without an
    element, the [ValueError]. *)
Theorem get_ax_buchungsblattbezirk_data_keys
    {L : Library} (ns : Namespaces) (root : Element) (w : World) :
  match matched_elements ns root "AX_Buchungsblattbezirk" with
  | None =>
      get_ax_buchungsblattbezirk_data ns root w
      = (Raise (ValueError
                  "No AX_Buchungsblattbezirk elements found in the provided XML file."),
         w)
  | Some els =>
      if forallb (buchungsblattbezirk_plain ns) els
      then exists rows w',
             get_ax_buchungsblattbezirk_data ns root w = (Ok rows, w')
             /\ Forall2 (buchungsblattbezirk_keys ns) rows els
      else exists w',
             get_ax_buchungsblattbezirk_data ns root w
             = (Raise (AttributeError no_endswith), w')
  end.
Proof.
  unfold get_ax_buchungsblattbezirk_data.
  destruct (matched_elements ns root "AX_Buchungsblattbezirk") as [els|] eqn:Em.
  - rewrite (bind_ok _ _ _ _ _ (require_elements_some ns root _ els w Em)).
    apply buchungsblattbezirk_loop_keys.
  - now rewrite (bind_raise _ _ _ _ _ (require_elements_none ns root _ w Em)).
Qed.

Lemma get_ax_buchungsblattbezirk_data_keys_witness :
  let key := Fixture.el (ax Fixture.ns "AX_Buchungsblattbezirk_Schluessel") []
               None [Fixture.comment " Brandenburg "; Fixture.leaf "land" "12"] in
  let root :=
    Fixture.collection
      [Fixture.member
         (Fixture.feature "AX_Buchungsblattbezirk" "Z1"
            [Fixture.el (ax Fixture.ns "schluessel") [] None [key]])] in
  exists w',
    get_ax_buchungsblattbezirk_data (L := Ref.library) Fixture.ns root World0
    = (Raise (AttributeError
                "'cython_function_or_method' object has no attribute 'endswith'"),
       w').
Proof.
  intros key root.
  exact (get_ax_buchungsblattbezirk_data_keys (L := Ref.library)
           Fixture.ns root World0).
Defined.

(** X13.  The ledger extractor goes over every child node of the key
    element of an element.  When the keys hold elements only, the method
    returns a row for every element found: the two parts of the key are
    the texts of the last children whose tags end in [land] and
    [bezirk]; the joined key is the two put together when both are there
    and not empty, is never anything but two non-empty texts put
    together, and is absent without a child in the key.  When a key holds
    a comment or a processing instruction, the method raises
    [AttributeError]; and without an element, the [ValueError]. *)
Theorem get_ax_buchungsblatt_data_keys
    {L : Library} (ns : Namespaces) (root : Element) (w : World) :
  match matched_elements ns root "AX_Buchungsblatt" with
  | None =>
      get_ax_buchungsblatt_data ns root w
      = (Raise (ValueError
                  "No AX_Buchungsblatt elements found in the provided XML file."),
         w)
  | Some els =>
      if forallb (buchungsblatt_plain ns) els
      then exists rows w',
             get_ax_buchungsblatt_data ns root w = (Ok rows, w')
             /\ Forall2 (buchungsblatt_keys ns) rows els
      else exists w',
             get_ax_buchungsblatt_data ns root w
             = (Raise (AttributeError no_endswith), w')
  end.
Proof.
  unfold get_ax_buchungsblatt_data.
  destruct (matched_elements ns root "AX_Buchungsblatt") as [els|] eqn:Em.
  - rewrite (bind_ok _ _ _ _ _ (require_elements_some ns root _ els w Em)).
    apply buchungsblatt_loop_keys.
  - now rewrite (bind_raise _ _ _ _ _ (require_elements_none ns root _ w Em)).
Qed.

Lemma get_ax_buchungsblatt_data_keys_witness :
  let key := Fixture.el (ax Fixture.ns "AX_Buchungsblattbezirk_Schluessel") []
               None [Fixture.leaf "land" "12"; Fixture.comment " Mitte ";
                     Fixture.leaf "bezirk" "0101"] in
  let root :=
    Fixture.collection
      [Fixture.member
         (Fixture.feature "AX_Buchungsblatt" "B1"
            [Fixture.el (ax Fixture.ns "buchungsblattbezirk") [] None [key]])] in
  exists w',
    get_ax_buchungsblatt_data (L := Ref.library) Fixture.ns root World0
    = (Raise (AttributeError
                "'cython_function_or_method' object has no attribute 'endswith'"),
       w').
Proof.
  intros key root.
  exact (get_ax_buchungsblatt_data_keys (L := Ref.library)
           Fixture.ns root World0).
Defined.

(** ** The shares of the name entries *)

Lemma ax_anteil_of_ok {L : Library} (z n : option string) (x : pyfloat) :
  ax_anteil_of z n = Ok x ->
  match z, n with
  | Some z, Some n =>
      exists zx nx,
        float_of_str z = Some zx /\ float_of_str n = Some nx
        /\ float_is_zero nx = false /\ x = float_div zx nx
  | _, _ => x = float_one
  end.
Proof.
  unfold ax_anteil_of, float, truediv.
  destruct z as [z|]; [|intros H; now inversion H].
  destruct n as [n|]; [|intros H; now inversion H].
  destruct (float_of_str z) as [zx|]; [|discriminate].
  destruct (float_of_str n) as [nx|]; [|discriminate].
  destruct (float_is_zero nx) eqn:E; [discriminate|].
  intros H. inversion H. now exists zx, nx.
Qed.

Lemma namensnummer_loop_shares {L : Library} (ns : Namespaces)
    (els : list Element) :
  forall w rows w',
    namensnummer_loop ns els w = (Ok rows, w') ->
    Forall2 (share_of ns) rows (filter has_id els)
    /\ stdout w'
       = (stdout w
          ++ map (fun _ => "No gml:id found for namensnummer, skipping...")
               (skipped els))%list.
Proof.
  induction els as [|h rest IH]; intros w rows w' H.
  - inversion H; subst. split; [constructor|]. cbn. now rewrite app_nil_r.
  - unfold skipped in *. rewrite filter_has_id_cons. cbn [filter].
    change (has_id h) with (PyStr.truthy (ET.get h GML_ID)).
    destruct (PyStr.truthy (ET.get h GML_ID)) eqn:Hid; cbn [negb].
    + destruct (has_id_inv h Hid) as (id & Hget & Hne).
      cbn [namensnummer_loop] in H. rewrite Hget, Hne in H.
      unbind H. apply lift_ok_inv in Ha as [Ha ->].
      inversion H; subst. destruct (IH _ _ _ Ha0) as [Hrows Hout].
      split; [|exact Hout]. constructor; [|exact Hrows].
      apply ax_anteil_of_ok in Ha. exact Ha.
    + rewrite (namensnummer_loop_skip ns h rest w Hid) in H.
      destruct (IH _ _ _ H) as [Hrows Hout]. split; [exact Hrows|].
      cbn [map]. rewrite Hout. cbn. now rewrite <- app_assoc.
Qed.

(** X14.  When the name entry table is returned, the share of every row is one
    for an element without both texts of the share, and otherwise the
    quotient of the two numbers read from them, the second not being
    zero; and the method has printed one line for every element it
    skipped, and nothing else. *)
Theorem get_ax_namensnummer_data_shares
    {L : Library} (ns : Namespaces) (root : Element) (w w' : World)
    (rows : list Namensnummer.Row) :
  get_ax_namensnummer_data ns root w = (Ok rows, w') ->
  exists els,
    matched_elements ns root "AX_Namensnummer" = Some els
    /\ Forall2 (share_of ns) rows (filter has_id els)
    /\ stdout w'
       = (stdout w
          ++ map (fun _ => "No gml:id found for namensnummer, skipping...")
               (skipped els))%list.
Proof.
  intros H. unfold get_ax_namensnummer_data in H.
  apply matched_inv in H as (els & Hm & H).
  exists els. split; [exact Hm|]. now apply namensnummer_loop_shares in H.
Qed.

Lemma get_ax_namensnummer_data_shares_witness :
  let root := Fixture.cadastre
                [Fixture.name_entry "N1" "1" "2";
                 Fixture.anonymous "AX_Namensnummer" [Fixture.share "1" "0"]] in
  let rows := [Namensnummer.mkRow (L := Ref.library) "N1" (Some "P1") None None
                 None None None (Ref.mkNum false 1 2)] in
  exists els,
    matched_elements Fixture.ns root "AX_Namensnummer" = Some els
    /\ Forall2 (share_of Fixture.ns) rows (filter has_id els)
    /\ ["No gml:id found for namensnummer, skipping..."]
       = ([] ++ map (fun _ => "No gml:id found for namensnummer, skipping...")
                  (skipped els))%list.
Proof.
  intros root rows.
  apply (get_ax_namensnummer_data_shares (L := Ref.library) Fixture.ns root
           World0
           (printed "No gml:id found for namensnummer, skipping..." World0)
           rows).
  reflexivity.
Defined.

(** ** The booking entries *)

Section BookingRows.

Context {L : Library} (ns : Namespaces).

Lemma buchungsstelle_loop_cons (bound : option string) (h : Element)
    (rest : list Element) (w : World) :
  buchungsstelle_loop ns bound (h :: rest) w
  = if has_id h
    then match match find_attr h [ax ns "istBestandteilVon"] XLINK_HREF with
               | Some href => Some (remove_gml_id_prefix href)
               | None => bound
               end with
         | None => (Raise (UnboundLocalError "ax_buchungsblatt_id"), w)
         | Some b =>
             match buchungsstelle_loop ns (Some b) rest w with
             | (Ok rows, w') =>
                 (Ok (Buchungsstelle.mkRow
                        match ET.get h GML_ID with Some id => id | None => "" end
                        (ET.findtext h [ax ns "buchungsart"])
                        (ET.findtext h [ax ns "laufendeNummer"])
                        (Some b) :: rows), w')
             | (Raise e, w') => (Raise e, w')
             end
         end
    else buchungsstelle_loop ns bound rest
           (printed "No gml:id found for buchungsstelle, skipping..." w).
Proof.
  cbn [buchungsstelle_loop]. unfold has_id, PyStr.truthy.
  destruct (ET.get h GML_ID) as [id|]; [|reflexivity].
  destruct (PyStr.is_empty id); [reflexivity|]. cbn [negb].
  destruct (match find_attr h [ax ns "istBestandteilVon"] XLINK_HREF with
            | Some href => Some (remove_gml_id_prefix href)
            | None => bound
            end) as [b|]; [|reflexivity].
  unfold bind, ret.
  destruct (buchungsstelle_loop ns (Some b) rest w) as [[rows|e] w'];
    reflexivity.
Qed.

(** Once the variable is bound the loop returns, with a row for every
    element that has an id and a line for every other. *)
Lemma buchungsstelle_loop_bound (els : list Element) :
  forall b w,
    exists rows w',
      buchungsstelle_loop ns (Some b) els w = (Ok rows, w')
      /\ List.length rows = List.length (filter has_id els)
      /\ stdout w'
         = (stdout w
            ++ map (fun _ => "No gml:id found for buchungsstelle, skipping...")
                 (skipped els))%list.
Proof.
  induction els as [|h rest IH]; intros b w.
  - exists [], w. repeat split. cbn. now rewrite app_nil_r.
  - rewrite buchungsstelle_loop_cons. unfold skipped. cbn [filter].
    destruct (has_id h); cbn [negb].
    + destruct (find_attr h [ax ns "istBestandteilVon"] XLINK_HREF) as [href|].
      * destruct (IH (remove_gml_id_prefix href) w) as (rows & w' & -> & Hl & Ho).
        eexists. eexists. split; [reflexivity|]. cbn [List.length].
        split; [now rewrite Hl|exact Ho].
      * destruct (IH b w) as (rows & w' & -> & Hl & Ho).
        eexists. eexists. split; [reflexivity|]. cbn [List.length].
        split; [now rewrite Hl|exact Ho].
    + destruct (IH b (printed "No gml:id found for buchungsstelle, skipping..." w))
        as (rows & w' & -> & Hl & Ho).
      eexists. eexists. split; [reflexivity|]. split; [exact Hl|].
      rewrite Ho. cbn. now rewrite <- app_assoc.
Qed.

Lemma buchungsstelle_loop_unbound (els : list Element) :
  forall w,
    match filter has_id els with
    | [] =>
        exists w',
          buchungsstelle_loop ns None els w = (Ok [], w')
          /\ stdout w'
             = (stdout w
                ++ map (fun _ => "No gml:id found for buchungsstelle, skipping...")
                     (skipped els))%list
    | first :: _ =>
        match find_attr first [ax ns "istBestandteilVon"] XLINK_HREF with
        | Some _ =>
            exists rows w',
              buchungsstelle_loop ns None els w = (Ok rows, w')
              /\ List.length rows = List.length (filter has_id els)
              /\ stdout w'
                 = (stdout w
                    ++ map (fun _ =>
                              "No gml:id found for buchungsstelle, skipping...")
                         (skipped els))%list
        | None =>
            exists w',
              buchungsstelle_loop ns None els w
              = (Raise (UnboundLocalError "ax_buchungsblatt_id"), w')
        end
    end.
Proof.
  induction els as [|h rest IH]; intros w.
  - exists w. split; [reflexivity|]. cbn. now rewrite app_nil_r.
  - rewrite buchungsstelle_loop_cons. unfold skipped. cbn [filter].
    destruct (has_id h); cbn [negb].
    + destruct (find_attr h [ax ns "istBestandteilVon"] XLINK_HREF) as [href|].
      * destruct (buchungsstelle_loop_bound rest (remove_gml_id_prefix href) w)
          as (rows & w' & -> & Hl & Ho).
        eexists. eexists. split; [reflexivity|]. cbn [List.length].
        split; [now rewrite Hl|exact Ho].
      * now exists w.
    + specialize (IH (printed "No gml:id found for buchungsstelle, skipping..." w)).
      destruct (filter has_id rest) as [|first more].
      * destruct IH as (w' & -> & Ho). exists w'. split; [reflexivity|].
        rewrite Ho. cbn. now rewrite <- app_assoc.
      * destruct (find_attr first [ax ns "istBestandteilVon"] XLINK_HREF).
        -- destruct IH as (rows & w' & -> & Hl & Ho). exists rows, w'.
           split; [reflexivity|]. split; [exact Hl|].
           rewrite Ho. cbn. now rewrite <- app_assoc.
        -- exact IH.
Qed.

End BookingRows.

(** X15.  Whether the booking entry table is returned is decided by the first
    element that has an id: with a ledger reference on it the method
    returns a row for every element with an id and prints a line for
    every other; without one it raises [UnboundLocalError], whatever
    the elements after it hold.  With no id on any element the table is
    empty, and without an element the [ValueError] is raised. *)
Theorem get_ax_buchungsstelle_data_outcomes
    {L : Library} (ns : Namespaces) (root : Element) (w : World) :
  match matched_elements ns root "AX_Buchungsstelle" with
  | None =>
      get_ax_buchungsstelle_data ns root w
      = (Raise (ValueError
                  "No AX_Buchungsstelle elements found in the provided XML file."),
         w)
  | Some els =>
      match filter has_id els with
      | [] =>
          exists w',
            get_ax_buchungsstelle_data ns root w = (Ok [], w')
            /\ stdout w'
               = (stdout w
                  ++ map (fun _ =>
                            "No gml:id found for buchungsstelle, skipping...")
                       (skipped els))%list
      | first :: _ =>
          match find_attr first [ax ns "istBestandteilVon"] XLINK_HREF with
          | Some _ =>
              exists rows w',
                get_ax_buchungsstelle_data ns root w = (Ok rows, w')
                /\ List.length rows = List.length (filter has_id els)
                /\ stdout w'
                   = (stdout w
                      ++ map (fun _ =>
                                "No gml:id found for buchungsstelle, skipping...")
                           (skipped els))%list
          | None =>
              exists w',
                get_ax_buchungsstelle_data ns root w
                = (Raise (UnboundLocalError "ax_buchungsblatt_id"), w')
          end
      end
  end.
Proof.
  unfold get_ax_buchungsstelle_data.
  destruct (matched_elements ns root "AX_Buchungsstelle") as [els|] eqn:Em.
  - rewrite (bind_ok _ _ _ _ _ (require_elements_some ns root _ els w Em)).
    apply buchungsstelle_loop_unbound.
  - now rewrite (bind_raise _ _ _ _ _ (require_elements_none ns root _ w Em)).
Qed.

(** ** What the parcel and address extractors print *)

Section Logs.

Context {L : Library} (ns : Namespaces).

Lemma beginnt_appends (e : Element) (w : World) :
  exists v,
    get_aa_lebenszeitintervall_beginnt ns e w
    = (Ok v, mkWorld (stdout w ++ beginnt_lines ns e) (calls w)).
Proof.
  unfold beginnt_lines, get_aa_lebenszeitintervall_beginnt.
  destruct w as [out cs]. cbn [stdout calls].
  destruct (ET.find_desc _ _ _) as [beginnt|];
    [destruct (text beginnt) as [t|];
     [destruct (PyStr.is_empty t);
      [|destruct (fromisoformat _)]|]|];
    eexists; cbn; rewrite ?app_nil_r; reflexivity.
Qed.

Lemma flaeche_appends (e : Element) (w : World) :
  exists v,
    amtliche_flaeche_of ns e w
    = (Ok v, mkWorld (stdout w ++ flaeche_lines ns e) (calls w)).
Proof.
  unfold flaeche_lines, amtliche_flaeche_of.
  destruct w as [out cs]. cbn [stdout calls].
  destruct (ET.findtext e _) as [t|]; [destruct (float_of_str t)|];
    eexists; cbn; rewrite ?app_nil_r; reflexivity.
Qed.

Lemma flaeche_lines_cases (e : Element) :
  flaeche_lines ns e
  = match ET.findtext e [ax ns "amtlicheFlaeche"] with
    | Some t =>
        match float_of_str t with
        | Some _ => []
        | None => ["Could not convert amtliche_flaeche '" ++ t ++ "' to float."]
        end
    | None => []
    end.
Proof.
  unfold flaeche_lines, amtliche_flaeche_of.
  destruct (ET.findtext e _) as [t|]; [destruct (float_of_str t)|];
    reflexivity.
Qed.

Lemma has_id_cases (e : Element) :
  (has_id e = true
   /\ exists id, ET.get e GML_ID = Some id /\ PyStr.is_empty id = false)
  \/ (has_id e = false
      /\ (ET.get e GML_ID = None
          \/ exists id, ET.get e GML_ID = Some id /\ PyStr.is_empty id = true)).
Proof.
  unfold has_id, PyStr.truthy. destruct (ET.get e GML_ID) as [id|].
  - destruct (PyStr.is_empty id) eqn:E.
    + right. split; [reflexivity|]. right. now exists id.
    + left. split; [reflexivity|]. now exists id.
  - right. split; [reflexivity|now left].
Qed.

Lemma flurstueck_loop_log (els : list Element) :
  forall w, exists rows w',
    flurstueck_loop ns els w = (Ok rows, w')
    /\ stdout w' = (stdout w ++ flat_map (flurstueck_lines ns) els)%list.
Proof.
  induction els as [|h rest IH]; intros w.
  - exists [], w. split; [reflexivity|]. cbn. now rewrite app_nil_r.
  - cbn [flurstueck_loop flat_map]. unfold flurstueck_lines at 1.
    destruct (has_id_cases h) as [[Hid (id & Hget & Hne)]
                                 | [Hid [Hget | (id & Hget & He)]]];
      rewrite Hid, Hget; rewrite ?Hne, ?He.
    + destruct (flaeche_appends h w) as (fl & Hfl).
      rewrite (bind_ok _ _ _ _ _ Hfl).
      destruct (beginnt_appends h (mkWorld (stdout w ++ flaeche_lines ns h)
                                           (calls w))) as (bg & Hbg).
      rewrite (bind_ok _ _ _ _ _ Hbg). cbn [stdout calls].
      destruct (IH (mkWorld ((stdout w ++ flaeche_lines ns h)
                             ++ beginnt_lines ns h) (calls w)))
        as (rows & w' & Hrows & Hout).
      rewrite (bind_ok _ _ _ _ _ Hrows). eexists. eexists.
      split; [reflexivity|]. rewrite Hout. cbn [stdout].
      now rewrite <- !app_assoc.
    + unfold bind at 1. cbn [print].
      destruct (IH (printed "No gml:id found for flurstueck, skipping..." w))
        as (rows & w' & Hrows & Hout).
      exists rows, w'. split; [exact Hrows|]. rewrite Hout. cbn.
      now rewrite <- app_assoc.
    + unfold bind at 1. cbn [print].
      destruct (IH (printed "No gml:id found for flurstueck, skipping..." w))
        as (rows & w' & Hrows & Hout).
      exists rows, w'. split; [exact Hrows|]. rewrite Hout. cbn.
      now rewrite <- app_assoc.
Qed.

Lemma anschrift_loop_log (els : list Element) :
  forall w, exists rows w',
    anschrift_loop ns els w = (Ok rows, w')
    /\ stdout w' = (stdout w ++ flat_map (anschrift_lines ns) els)%list.
Proof.
  induction els as [|h rest IH]; intros w.
  - exists [], w. split; [reflexivity|]. cbn. now rewrite app_nil_r.
  - cbn [anschrift_loop flat_map]. unfold anschrift_lines at 1.
    destruct (has_id_cases h) as [[Hid (id & Hget & Hne)]
                                 | [Hid [Hget | (id & Hget & He)]]];
      rewrite Hid, Hget; rewrite ?Hne, ?He.
    + destruct (beginnt_appends h w) as (bg & Hbg).
      rewrite (bind_ok _ _ _ _ _ Hbg).
      destruct (IH (mkWorld (stdout w ++ beginnt_lines ns h) (calls w)))
        as (rows & w' & Hrows & Hout).
      rewrite (bind_ok _ _ _ _ _ Hrows). eexists. eexists.
      split; [reflexivity|]. rewrite Hout. cbn [stdout].
      now rewrite <- !app_assoc.
    + unfold bind at 1. cbn [print].
      destruct (IH (printed "No gml:id found for namensnummer, skipping..." w))
        as (rows & w' & Hrows & Hout).
      exists rows, w'. split; [exact Hrows|]. rewrite Hout. cbn.
      now rewrite <- app_assoc.
    + unfold bind at 1. cbn [print].
      destruct (IH (printed "No gml:id found for namensnummer, skipping..." w))
        as (rows & w' & Hrows & Hout).
      exists rows, w'. split; [exact Hrows|]. rewrite Hout. cbn.
      now rewrite <- app_assoc.
Qed.

End Logs.

(** X10.  The parcel and the address extractors return whenever an element of
    their type is found, and print, element by element in document
    order: for an element without a non-empty id one line that says it
    is skipped, which for an address is the line of the name entries;
    for a parcel with an area that is no number the line that says so;
    and the line of a lifecycle timestamp that cannot be read. *)
Theorem get_ax_flurstueck_and_anschrift_data_print
    {L : Library} (ns : Namespaces) (root : Element)
    (gdf_buf : list GeomTable.Row) (w : World) :
  match matched_elements ns root "AX_Flurstueck" with
  | None =>
      get_ax_flurstueck_data ns root gdf_buf w
      = (Raise (ValueError
                  "No AX_Flurstueck elements found in the provided XML file."),
         w)
  | Some els =>
      exists rows w',
        get_ax_flurstueck_data ns root gdf_buf w = (Ok rows, w')
        /\ stdout w' = (stdout w ++ flat_map (flurstueck_lines ns) els)%list
  end
  /\ match matched_elements ns root "AX_Anschrift" with
     | None =>
         get_ax_anschrift_data ns root w
         = (Raise (ValueError
                     "No AX_Anschrift elements found in the provided XML file."),
            w)
     | Some els =>
         exists rows w',
           get_ax_anschrift_data ns root w = (Ok rows, w')
           /\ stdout w' = (stdout w ++ flat_map (anschrift_lines ns) els)%list
     end
  /\ forall e,
       flaeche_lines ns e
       = match ET.findtext e [ax ns "amtlicheFlaeche"] with
         | Some t =>
             match float_of_str t with
             | Some _ => []
             | None =>
                 ["Could not convert amtliche_flaeche '" ++ t ++ "' to float."]
             end
         | None => []
         end.
Proof.
  split; [|split].
  - unfold get_ax_flurstueck_data, flurstueck_scalars.
    destruct (matched_elements ns root "AX_Flurstueck") as [els|] eqn:Em.
    + unfold bind at 1.
      rewrite (bind_ok _ _ _ _ _ (require_elements_some ns root _ els w Em)).
      destruct (flurstueck_loop_log ns els w) as (rows & w' & -> & Hout).
      eexists. eexists. split; [reflexivity|exact Hout].
    + unfold bind at 1.
      now rewrite (bind_raise _ _ _ _ _ (require_elements_none ns root _ w Em)).
  - unfold get_ax_anschrift_data.
    destruct (matched_elements ns root "AX_Anschrift") as [els|] eqn:Em.
    + rewrite (bind_ok _ _ _ _ _ (require_elements_some ns root _ els w Em)).
      apply anschrift_loop_log.
    + now rewrite (bind_raise _ _ _ _ _ (require_elements_none ns root _ w Em)).
  - apply flaeche_lines_cases.
Qed.

(** ** What the initialization needs *)

Lemma person_loop_length {L : Library} (ns : Namespaces) (els : list Element) :
  forall v w rows w',
    person_loop ns v els w = (Ok rows, w') ->
    List.length rows = List.length els.
Proof.
  induction els as [|h rest IH]; intros v w rows w' H.
  - inversion H. reflexivity.
  - cbn [person_loop] in H. unbind H. inversion H; subst.
    cbn [List.length]. f_equal. now apply (IH _ _ _ _ Ha1).
Qed.

Lemma matched_of_ok {L : Library} {A} (ns : Namespaces) (root : Element)
    (entity : string) (k : list Element -> M A) (w w' : World) (a : A) :
  (els <- require_elements ns root entity ;; k els) w = (Ok a, w') ->
  exists els,
    matched_elements ns root entity = Some els /\ els <> []
    /\ k els w = (Ok a, w').
Proof.
  intros H. apply matched_inv in H as (els & Hm & H).
  exists els. split; [exact Hm|]. split; [|exact H].
  now apply matched_elements_nonempty in Hm.
Qed.

(** X16.  An extract is constructed only from a document whose tree, once the
    broken members are removed, holds an element of each of the seven
    entity types; its person, ledger district and ledger tables then
    have a row for each element found, so at least one. *)
Theorem post_init_returns_with_all_seven
    {L : Library} (doc : Document) (w w' : World) (ex : Extract) :
  post_init doc w = (Ok ex, w') ->
  exists root',
    xml_root ex = Some root'
    /\ (forall entity,
           In entity entity_types ->
           exists els,
             matched_elements (namespaces ex) root' entity = Some els
             /\ els <> [])
    /\ (exists els,
           matched_elements (namespaces ex) root' "AX_Person" = Some els
           /\ List.length (ax_person ex) = List.length els)
    /\ (exists els,
           matched_elements (namespaces ex) root' "AX_Buchungsblattbezirk"
           = Some els
           /\ List.length (ax_buchungsblattbezirk ex) = List.length els)
    /\ (exists els,
           matched_elements (namespaces ex) root' "AX_Buchungsblatt" = Some els
           /\ List.length (ax_buchungsblatt ex) = List.length els)
    /\ ax_person ex <> [] /\ ax_buchungsblattbezirk ex <> []
    /\ ax_buchungsblatt ex <> [].
Proof.
  intros H.
  destruct (post_init_ok_inv doc _ _ _ H)
    as (ns & root & root' & decoded & _ & _ & _ & _ & _ & Hx & Hns
        & (wa1 & wb1 & Hfl) & (wa2 & wb2 & Hpe) & (wa3 & wb3 & Hbz)
        & (wa4 & wb4 & Hbl) & (wa5 & wb5 & Han) & (wa6 & wb6 & Hna)
        & (wa7 & wb7 & Hbs)).
  rewrite Hns. exists root'. split; [exact Hx|].
  unfold get_ax_flurstueck_data in Hfl.
  apply bind_ok_inv in Hfl as (df & w1 & Hdf & _).
  apply matched_of_ok in Hdf as (e1 & M1 & N1 & _).
  apply matched_of_ok in Hpe as (e2 & M2 & N2 & Hpe).
  apply matched_of_ok in Hbz as (e3 & M3 & N3 & Hbz).
  apply matched_of_ok in Hbl as (e4 & M4 & N4 & Hbl).
  apply matched_of_ok in Han as (e5 & M5 & N5 & _).
  apply matched_of_ok in Hna as (e6 & M6 & N6 & _).
  apply matched_of_ok in Hbs as (e7 & M7 & N7 & _).
  apply person_loop_length in Hpe.
  apply buchungsblattbezirk_loop_rows, Forall2_length in Hbz.
  apply buchungsblatt_loop_rows, Forall2_length in Hbl.
  split; [|split; [|split; [|split; [|split; [|split]]]]].
  - intros entity Hin. cbn [entity_types In] in Hin.
    repeat (destruct Hin as [<- | Hin]; [eexists; split; eassumption|]).
    destruct Hin.
  - now exists e2.
  - now exists e3.
  - now exists e4.
  - intros E. rewrite E in Hpe. destruct e2; [contradiction|discriminate].
  - intros E. rewrite E in Hbz. destruct e3; [contradiction|discriminate].
  - intros E. rewrite E in Hbl. destruct e4; [contradiction|discriminate].
Qed.

Lemma post_init_returns_with_all_seven_witness :
  exists ex w',
    post_init Fixture.doc_zero_share_anonymous World0 = (Ok ex, w')
    /\ ax_person ex <> [] /\ ax_buchungsblatt ex <> [].
Proof.
  assert (H : match post_init Fixture.doc_zero_share_anonymous World0 with
              | (Ok _, _) => True
              | (Raise _, _) => False
              end) by (vm_compute; exact I).
  destruct (post_init Fixture.doc_zero_share_anonymous World0)
    as [[ex|e] w'] eqn:E; [|destruct H].
  exists ex, w'. split; [reflexivity|].
  destruct (post_init_returns_with_all_seven
              Fixture.doc_zero_share_anonymous World0 w' ex E)
    as (root' & _ & _ & _ & _ & _ & Hp & _ & Hb).
  split; assumption.
Defined.

(** A query finds nothing in the tree after the removal when all it
    found before is removed. *)
Lemma xpath_detach_nothing (ns : Namespaces) (root : Element)
    (steps : list string) :
  (forall n, In n (ET.xpath_nodes root steps) ->
             removed_with (map ET.node_path (removed_members ns root))
                          (ET.node_path n) = true) ->
  ET.xpath (ET.detach (map ET.node_path (removed_members ns root)) root) steps
  = [].
Proof.
  intros H. unfold ET.xpath.
  rewrite (map_label_nil (ET.xpath_nodes _ steps)); [reflexivity|].
  rewrite xpath_nodes_detach by apply removed_members_below_root.
  replace (filter _ (ET.xpath_nodes root steps)) with (@nil ET.Node);
    [reflexivity|].
  symmetry. induction (ET.xpath_nodes root steps) as [|n l IH]; [reflexivity|].
  cbn [filter]. rewrite (H n) by now left. cbn [negb].
  apply IH. intros m Hm. apply H. now right.
Qed.

(** X17.  When every parcel of the document lies in a member that is removed,
    the initialization does not return: with the prefix map, the root,
    the name of the reference system and the layer obtained, it raises
    the [ValueError] of a document without parcels. *)
Theorem post_init_fails_when_every_parcel_is_removed
    {L : Library} (doc : Document) (ns : Namespaces) (root : Element)
    (crs : option string) (decoded : list (string * geom)) (w : World) :
  doc_namespaces doc = Ok ns -> doc_root doc = Ok (Some root) ->
  extract_original_crs_from_xml ns root = Ok crs ->
  doc_layer doc crs = Ok decoded ->
  (forall n,
      In n (flurstueck_nodes ns root) ->
      removed_with (map ET.node_path (removed_members ns root))
                   (ET.node_path n) = true) ->
  fst (post_init doc w)
  = Raise (ValueError "No AX_Flurstueck elements found in the provided XML file.").
Proof.
  intros Hns Hroot Hcrs Hdec Hall.
  set (root' := ET.detach (map ET.node_path (removed_members ns root)) root).
  assert (Hnone : matched_elements ns root' "AX_Flurstueck" = None).
  { unfold matched_elements, find_elements, root'.
    rewrite !xpath_detach_nothing; [reflexivity| |];
      intros n Hn; apply Hall; unfold flurstueck_nodes; apply in_or_app;
      [right|left]; exact Hn. }
  unfold post_init, parse_xml_file.
  unfold bind at 1. unfold enter at 1.
  unfold bind at 1. unfold lift at 1. rewrite Hns.
  unfold bind at 1. unfold enter at 1.
  unfold bind at 1. rewrite Hroot. unfold ret at 1.
  unfold bind at 1. unfold enter at 1.
  unfold bind at 1. unfold lift at 1. rewrite Hcrs.
  unfold bind at 1. unfold enter at 1.
  unfold bind at 1. unfold lift at 1. rewrite Hdec.
  unfold bind at 1. unfold enter at 1.
  cbn [remove_broken_members]. fold root'.
  unfold bind at 1. unfold enter at 1.
  unfold bind at 1. unfold get_ax_flurstueck_data, flurstueck_scalars.
  unfold bind at 1. unfold bind at 1.
  rewrite (require_elements_none ns root' _ _ Hnone). reflexivity.
Qed.

Lemma post_init_fails_when_every_parcel_is_removed_witness :
  fst (post_init
         (Fixture.document
            (Fixture.collection
               [Fixture.member
                  (Fixture.feature "AX_Flurstueck" "F1" [Fixture.pos "42"])])
            Fixture.layer) World0)
  = Raise (ValueError "No AX_Flurstueck elements found in the provided XML file.").
Proof.
  apply (post_init_fails_when_every_parcel_is_removed
           (Fixture.document
              (Fixture.collection
                 [Fixture.member
                    (Fixture.feature "AX_Flurstueck" "F1" [Fixture.pos "42"])])
              Fixture.layer)
           Fixture.ns
           (Fixture.collection
              [Fixture.member
                 (Fixture.feature "AX_Flurstueck" "F1" [Fixture.pos "42"])])
           None Fixture.layer World0); try reflexivity.
  intros n [<- | []]. reflexivity.
Defined.

(** ** The number of rows *)

Section RowsAndLines.

Context {L : Library} (ns : Namespaces).




End RowsAndLines.




